(** * GateOpenerWorker: a shallow embedding of [src/worker.ts]

    The worker is a Cloudflare Workers [fetch] handler.  It keeps a registry
    of public keys in a D1 table ([src/schema.ts]) and relays gate commands
    ([OPEN], [STOP], [CLOSE]) to a downstream gate endpoint after a trust
    lookup and an RSASSA-PKCS1-v1_5 signature check.

    Layout of this development:
    - [JS]: the JavaScript values the handlers touch (UTF-16 strings,
      [TextEncoder], [JSON.stringify], [btoa], [Date], [Math.floor] of a
      double product);
    - [D1]: the [public_keys] table and the drizzle queries the code issues;
    - [Worker]: the handlers and the router, written in a small
      state/exception monad that logs every call to an external collaborator;
    - the vocabulary of the statements and the sample data;
    - the embedding run on concrete values;
    - the properties C1 to C10, one block each;
    - further properties of the registry, of [SendToGate] and of the byte
      conversions, X1 to X19. *)

From Stdlib Require Import ZArith List String Ascii Bool Lia.
From Stdlib Require Import DecimalString.
Import ListNotations.
Open Scope Z_scope.

(* ================================================================== *)
(** * JavaScript values *)
(* ================================================================== *)

Module JS.

(** A JavaScript string is a sequence of UTF-16 code units. *)
Definition jsstring := list Z.

(** A byte buffer ([Uint8Array], [ArrayBuffer]). *)
Definition bytes := list Z.

(** String literals of the source; every character of the literals used in
    [worker.ts] is ASCII. *)
Definition lit (s : string) : jsstring :=
  map (fun c => Z.of_N (N_of_ascii c)) (list_ascii_of_string s).

(** Literals that contain the double-quote character are written with an
    apostrophe in its place. *)
Definition quoted (s : string) : jsstring :=
  map (fun c => if c =? 39 then 34 else c) (lit s).

(** [===] and [!==] on strings: code unit by code unit. *)
Fixpoint str_eqb (a b : jsstring) : bool :=
  match a, b with
  | [], [] => true
  | x :: a', y :: b' => (x =? y) && str_eqb a' b'
  | _, _ => false
  end.

(** ** [TextEncoder.prototype.encode] *)

Definition is_high_surrogate (c : Z) : bool := (0xD800 <=? c) && (c <=? 0xDBFF).
Definition is_low_surrogate (c : Z) : bool := (0xDC00 <=? c) && (c <=? 0xDFFF).

(** Conversion of a string to its Unicode scalar values; a surrogate that is
    not part of a pair becomes U+FFFD. *)
Fixpoint scalar_values (s : jsstring) : list Z :=
  match s with
  | [] => []
  | c :: rest =>
      if is_high_surrogate c then
        match rest with
        | d :: rest' =>
            if is_low_surrogate d
            then (0x10000 + (c - 0xD800) * 0x400 + (d - 0xDC00)) :: scalar_values rest'
            else 0xFFFD :: scalar_values rest
        | [] => [0xFFFD]
        end
      else if is_low_surrogate c then 0xFFFD :: scalar_values rest
      else c :: scalar_values rest
  end.

Definition utf8_of_scalar (u : Z) : bytes :=
  if u <? 0x80 then [u]
  else if u <? 0x800 then
    [Z.lor 0xC0 (Z.shiftr u 6); Z.lor 0x80 (Z.land u 0x3F)]
  else if u <? 0x10000 then
    [Z.lor 0xE0 (Z.shiftr u 12);
     Z.lor 0x80 (Z.land (Z.shiftr u 6) 0x3F);
     Z.lor 0x80 (Z.land u 0x3F)]
  else
    [Z.lor 0xF0 (Z.shiftr u 18);
     Z.lor 0x80 (Z.land (Z.shiftr u 12) 0x3F);
     Z.lor 0x80 (Z.land (Z.shiftr u 6) 0x3F);
     Z.lor 0x80 (Z.land u 0x3F)].

Definition TextEncoder_encode (s : jsstring) : bytes :=
  flat_map utf8_of_scalar (scalar_values s).

(** ** [JSON.stringify] *)

#[local] Unset Elimination Schemes.
Inductive json : Type :=
| JNull
| JBool (b : bool)
| JNum (n : Z)
| JStr (s : jsstring)
| JArr (items : list json)
| JObj (fields : list (jsstring * json)).
#[local] Set Elimination Schemes.

Definition hex_digit (d : Z) : Z :=
  if d <? 10 then 48 + d else 97 + (d - 10).

Definition unicode_escape (c : Z) : jsstring :=
  lit "\u" ++ [hex_digit (Z.land (Z.shiftr c 12) 15);
               hex_digit (Z.land (Z.shiftr c 8) 15);
               hex_digit (Z.land (Z.shiftr c 4) 15);
               hex_digit (Z.land c 15)].

(** The body of [QuoteJSONString]: short escapes, [\uXXXX] for the other
    control characters and for surrogates outside a pair. *)
Fixpoint quote_chars (s : jsstring) : jsstring :=
  match s with
  | [] => []
  | c :: rest =>
      if c =? 8 then lit "\b" ++ quote_chars rest
      else if c =? 9 then lit "\t" ++ quote_chars rest
      else if c =? 10 then lit "\n" ++ quote_chars rest
      else if c =? 12 then lit "\f" ++ quote_chars rest
      else if c =? 13 then lit "\r" ++ quote_chars rest
      else if c =? 34 then [92; 34] ++ quote_chars rest
      else if c =? 92 then [92; 92] ++ quote_chars rest
      else if c <? 32 then unicode_escape c ++ quote_chars rest
      else if is_high_surrogate c then
        match rest with
        | d :: rest' =>
            if is_low_surrogate d then c :: d :: quote_chars rest'
            else unicode_escape c ++ quote_chars rest
        | [] => unicode_escape c
        end
      else if is_low_surrogate c then unicode_escape c ++ quote_chars rest
      else c :: quote_chars rest
  end.

Definition QuoteJSONString (s : jsstring) : jsstring :=
  [34] ++ quote_chars s ++ [34].

(** [Number::toString] on the integers the worker serialises. *)
Definition number_to_string (n : Z) : jsstring :=
  lit (NilZero.string_of_int (Z.to_int n)).

Fixpoint JSON_stringify (v : json) : jsstring :=
  match v with
  | JNull => lit "null"
  | JBool true => lit "true"
  | JBool false => lit "false"
  | JNum n => number_to_string n
  | JStr s => QuoteJSONString s
  | JArr items =>
      lit "[" ++
      (fix elems (l : list json) : jsstring :=
         match l with
         | [] => []
         | x :: l' =>
             JSON_stringify x ++
             match l' with [] => [] | _ :: _ => lit "," ++ elems l' end
         end) items ++
      lit "]"
  | JObj fields =>
      lit "{" ++
      (fix members (l : list (jsstring * json)) : jsstring :=
         match l with
         | [] => []
         | (k, x) :: l' =>
             QuoteJSONString k ++ lit ":" ++ JSON_stringify x ++
             match l' with [] => [] | _ :: _ => lit "," ++ members l' end
         end) fields ++
      lit "}"
  end.

(** Property access on a parsed body: [undefined] is [None]. *)
Fixpoint get_field (k : jsstring) (fields : list (jsstring * json)) : option json :=
  match fields with
  | [] => None
  | (k', v) :: rest => if str_eqb k k' then Some v else get_field k rest
  end.

Definition property (v : json) (k : jsstring) : option json :=
  match v with
  | JObj fields => get_field k fields
  | _ => None
  end.

(** [ToBoolean], as used by [value ? 1 : 0]. *)
Definition ToBoolean (v : option json) : bool :=
  match v with
  | None => false
  | Some JNull => false
  | Some (JBool b) => b
  | Some (JNum n) => negb (n =? 0)
  | Some (JStr s) => match s with [] => false | _ :: _ => true end
  | Some (JArr _) => true
  | Some (JObj _) => true
  end.

(** ** [btoa(String.fromCharCode(...bytes))] *)

Definition base64_alphabet : jsstring :=
  lit "ABCDEFGHIJKLMNOPQRSTUVWXYZabcdefghijklmnopqrstuvwxyz0123456789+/".

Definition base64_char (i : Z) : Z := nth (Z.to_nat i) base64_alphabet 61.

Fixpoint btoa_bytes (bs : bytes) : jsstring :=
  match bs with
  | [] => []
  | [a] =>
      [base64_char (Z.shiftr a 2);
       base64_char (Z.shiftl (Z.land a 3) 4); 61; 61]
  | [a; b] =>
      [base64_char (Z.shiftr a 2);
       base64_char (Z.lor (Z.shiftl (Z.land a 3) 4) (Z.shiftr b 4));
       base64_char (Z.shiftl (Z.land b 15) 2); 61]
  | a :: b :: c :: rest =>
      [base64_char (Z.shiftr a 2);
       base64_char (Z.lor (Z.shiftl (Z.land a 3) 4) (Z.shiftr b 4));
       base64_char (Z.lor (Z.shiftl (Z.land b 15) 2) (Z.shiftr c 6));
       base64_char (Z.land c 63)] ++ btoa_bytes rest
  end.

(** ** [Date]

    Time values are milliseconds since the epoch.  The Workers runtime keeps
    its local time zone at UTC, so the local time zone adjustment is 0. *)

Definition msPerDay : Z := 86400000.
Definition msPerHour : Z := 3600000.
Definition msPerMinute : Z := 60000.
Definition msPerSecond : Z := 1000.

Definition Day (t : Z) : Z := t / msPerDay.
Definition TimeWithinDay (t : Z) : Z := t mod msPerDay.
Definition HourFromTime (t : Z) : Z := (t / msPerHour) mod 24.
Definition MinFromTime (t : Z) : Z := (t / msPerMinute) mod 60.
Definition SecFromTime (t : Z) : Z := (t / msPerSecond) mod 60.
Definition msFromTime (t : Z) : Z := t mod msPerSecond.

Definition MakeTime (hour min sec ms : Z) : Z :=
  hour * msPerHour + min * msPerMinute + sec * msPerSecond + ms.
Definition MakeDate (day time : Z) : Z := day * msPerDay + time.

Definition maxTimeValue : Z := 8640000000000000.

(** [NaN] is [None]. *)
Definition TimeClip (t : Z) : option Z :=
  if maxTimeValue <? Z.abs t then None else Some t.

Definition LocalTZA : Z := 0.
Definition LocalTime (t : Z) : Z := t + LocalTZA.
Definition UTC (t : Z) : Z := t - LocalTZA.

(** A [Date] object is its [[DateValue]] slot. *)
Definition Date := option Z.

Definition new_Date (now : Z) : Date := Some now.

Definition getMinutes (d : Date) : option Z :=
  match d with
  | Some t => Some (MinFromTime (LocalTime t))
  | None => None
  end.

(** [Date.prototype.setMinutes(min)]; returns the new [[DateValue]]. *)
Definition setMinutes (d : Date) (min : option Z) : Date :=
  match d, min with
  | Some t0, Some m =>
      let t := LocalTime t0 in
      let date := MakeDate (Day t) (MakeTime (HourFromTime t) m (SecFromTime t) (msFromTime t)) in
      TimeClip (UTC date)
  | _, _ => None
  end.

(** Year, month (1 to 12) and day of the month of a day number. *)
Definition civil_from_days (days : Z) : Z * Z * Z :=
  let z := days + 719468 in
  let era := z / 146097 in
  let doe := z - era * 146097 in
  let yoe := (doe - doe / 1460 + doe / 36524 - doe / 146096) / 365 in
  let doy := doe - (365 * yoe + yoe / 4 - yoe / 100) in
  let mp := (5 * doy + 2) / 153 in
  let d := doy - (153 * mp + 2) / 5 + 1 in
  let m := if mp <? 10 then mp + 3 else mp - 9 in
  let y := yoe + era * 400 + (if m <=? 2 then 1 else 0) in
  (y, m, d).

Fixpoint digits (width : nat) (n : Z) : jsstring :=
  match width with
  | O => []
  | S w => digits w (n / 10) ++ [48 + n mod 10]
  end.

Definition format_year (y : Z) : jsstring :=
  if (0 <=? y) && (y <=? 9999) then digits 4 y
  else (if y <? 0 then lit "-" else lit "+") ++ digits 6 (Z.abs y).

Definition iso_string (t : Z) : jsstring :=
  let '(y, m, d) := civil_from_days (Day t) in
  format_year y ++ lit "-" ++ digits 2 m ++ lit "-" ++ digits 2 d ++ lit "T" ++
  digits 2 (HourFromTime t) ++ lit ":" ++ digits 2 (MinFromTime t) ++ lit ":" ++
  digits 2 (SecFromTime t) ++ lit "." ++ digits 3 (msFromTime t) ++ lit "Z".

(** [Date.prototype.toISOString()]: a [RangeError] ([None]) on an invalid date. *)
Definition toISOString (d : Date) : option jsstring :=
  match d with
  | Some t => Some (iso_string t)
  | None => None
  end.

(** ** [Math.floor(Math.random() * c)]

    [Math.random()] returns a double in [[0, 1)]: the engine builds it from 53
    random bits [k] as [k / 2^53].  Doubles are written here in units of
    [2^-53]: the integer [p] stands for [p / 2^53]. *)

Definition random_bits : Z := 53.

(** Rounding of the exact value [p / 2^53] to the nearest double, ties to
    even: at most 53 significant bits are kept. *)
Definition round_to_double (p : Z) : Z :=
  let s := Z.log2 p + 1 - 53 in
  if s <=? 0 then p
  else
    let q := Z.shiftr p s in
    let r := p mod 2 ^ s in
    let half := 2 ^ (s - 1) in
    let q' := if (half <? r) || ((r =? half) && Z.odd q) then q + 1 else q in
    Z.shiftl q' s.

(** The double product of [k / 2^53] by the integer constant [c]. *)
Definition double_mul (k c : Z) : Z := round_to_double (k * c).

Definition Math_floor (p : Z) : Z := Z.shiftr p random_bits.

End JS.

Import JS.

(* ================================================================== *)
(** * The [public_keys] table ([src/schema.ts]) and its queries *)
(* ================================================================== *)

Module D1.

(** [id INTEGER PRIMARY KEY AUTOINCREMENT, key TEXT NOT NULL,
    trusted INTEGER NOT NULL DEFAULT 0]. *)
Record Row : Type := { id : Z; key : jsstring; trusted : Z }.

(** Rows in rowid order; [last_id] is the largest id handed out so far. *)
Record Table : Type := { rows : list Row; last_id : Z }.

(** The database bound to [env.PublicKeys]: [None] until the table has been
    created. *)
Definition D1Database := option Table.

Definition empty_table : Table := {| rows := []; last_id := 0 |}.

Inductive Column : Type := col_id | col_key | col_trusted.

Inductive SqlValue : Type :=
| SqlInt (n : Z)
| SqlText (s : jsstring).

(** The conditions built with drizzle's [eq] and [and]. *)
Inductive Condition : Type :=
| Eq (c : Column) (v : SqlValue)
| And (a b : Condition).

Definition cell (r : Row) (c : Column) : SqlValue :=
  match c with
  | col_id => SqlInt (id r)
  | col_key => SqlText (key r)
  | col_trusted => SqlInt (trusted r)
  end.

Definition sql_eqb (a b : SqlValue) : bool :=
  match a, b with
  | SqlInt x, SqlInt y => x =? y
  | SqlText x, SqlText y => str_eqb x y
  | _, _ => false
  end.

Fixpoint holds (w : Condition) (r : Row) : bool :=
  match w with
  | Eq c v => sql_eqb (cell r c) v
  | And a b => holds a r && holds b r
  end.

(** [query.public_keys.findFirst({ where })]. *)
Definition findFirst (w : Condition) (t : Table) : option Row :=
  find (holds w) (rows t).

(** [query.public_keys.findMany()]. *)
Definition findMany (t : Table) : list Row := rows t.

(** [insert(publicKeysTable).values({ key, trusted })]. *)
Definition insert (k : jsstring) (tr : Z) (t : Table) : Table :=
  {| rows := rows t ++ [{| id := last_id t + 1; key := k; trusted := tr |}];
     last_id := last_id t + 1 |}.

(** [delete(publicKeysTable).where(w)]. *)
Definition delete (w : Condition) (t : Table) : Table :=
  {| rows := filter (fun r => negb (holds w r)) (rows t);
     last_id := last_id t |}.

(** [update(publicKeysTable).set({ trusted, key }).where(w)]. *)
Definition update (tr : Z) (k : jsstring) (w : Condition) (t : Table) : Table :=
  {| rows := map (fun r => if holds w r
                           then {| id := id r; key := k; trusted := tr |}
                           else r) (rows t);
     last_id := last_id t |}.

(** [CREATE TABLE IF NOT EXISTS public_keys (...)]. *)
Definition create_table_if_not_exists (d : D1Database) : D1Database :=
  match d with
  | None => Some empty_table
  | Some t => Some t
  end.

(** The statements a handler sends to the database. *)
Inductive Statement : Type :=
| Select (w : Condition)
| SelectAll
| Insert (k : jsstring) (tr : Z)
| Delete (w : Condition)
| Update (tr : Z) (k : jsstring) (w : Condition)
| CreateTable.

End D1.

(* ================================================================== *)
(** * The worker ([src/worker.ts]) *)
(* ================================================================== *)

Module Worker.

(** ** Interfaces *)

(** [enum DoorAction]: a string enum, so a member is its string at run
    time. *)
Inductive DoorAction : Type := OPEN | STOP | CLOSE.

Definition DoorAction_value (a : DoorAction) : jsstring :=
  match a with
  | OPEN => lit "OPEN"
  | STOP => lit "STOP"
  | CLOSE => lit "CLOSE"
  end.


(** [interface DoorRequestPayload].  The annotation [action: DoorAction] is
    erased at run time: the field holds whatever string the body carries. *)
Module DoorRequestPayload.
Record t : Type := { signature : jsstring; action : jsstring; publicKey : jsstring }.
End DoorRequestPayload.

Module KeyStore.
Record t : Type := { key : jsstring; trusted : bool }.
End KeyStore.

(** [interface Env]; the [PublicKeys] binding is the database of the state
    below. *)
Record Env : Type := {
  ENVIRONMENT : jsstring;
  GATE_HMAC_KEY : jsstring;
  GATE_URL : jsstring }.

Module ValueToGate.
Record t : Type := { action : jsstring; expiry : jsstring; nonce : Z }.
Definition to_json (v : t) : json :=
  JObj [(lit "action", JStr (action v));
        (lit "expiry", JStr (expiry v));
        (lit "nonce", JNum (nonce v))].
End ValueToGate.

Module PayloadToGate.
Record t : Type := { value : ValueToGate.t; signature : jsstring }.
Definition to_json (p : t) : json :=
  JObj [(lit "value", ValueToGate.to_json (value p));
        (lit "signature", JStr (signature p))].
End PayloadToGate.

(** ** Requests and responses *)

(** An inbound request: [pathname] is [new URL(request.url).pathname],
    [text] the body, [json] the body parsed as JSON ([None] when it is not
    JSON). *)
Record Request : Type := {
  pathname : jsstring;
  method : jsstring;
  text : jsstring;
  json_body : option json }.

Record Response : Type := {
  status : Z;
  headers : list (jsstring * jsstring);
  body : jsstring }.

(** [response.ok]. *)
Definition ok (r : Response) : bool := (200 <=? status r) && (status r <=? 299).

(** The request [fetch(url, init)] sends. *)
Record Outbound : Type := {
  out_url : jsstring;
  out_method : jsstring;
  out_headers : list (jsstring * jsstring);
  out_body : jsstring }.

(** ** Web Crypto *)

Inductive KeyFormat : Type := raw | spki.
Inductive KeyUsage : Type := sign | verify.
Inductive KeyType : Type := public | secret.

Record KeyAlgorithm : Type := { alg_name : jsstring; alg_hash : jsstring }.

(** The algorithm argument of [sign] and [verify]. *)
Record AlgorithmParams : Type := { name : jsstring; saltLength : option Z }.

Record CryptoKey : Type := {
  key_type : KeyType;
  extractable : bool;
  algorithm : KeyAlgorithm;
  usages : list KeyUsage;
  key_data : bytes }.

Definition KeyUsage_eqb (a b : KeyUsage) : bool :=
  match a, b with
  | sign, sign | verify, verify => true
  | _, _ => false
  end.

(** ** The world outside the worker

    What the runtime and the network answer during one request: whether a
    buffer decodes as a key of a format, the two cryptographic primitives,
    the clock, the random draw ([k] for [k / 2^53]) and the gate endpoint
    ([None] when the connection fails). *)
Record World : Type := {
  decodes : KeyFormat -> KeyAlgorithm -> bytes -> bool;
  rsassa_verify : CryptoKey -> bytes -> bytes -> bool;
  hmac : CryptoKey -> bytes -> bytes;
  clock : Z;
  random : Z;
  gate : Outbound -> option Response }.

(** ** The monad of a handler run *)

Inductive Exception : Type :=
| SyntaxError
| TypeError
| RangeError
| DataError
| InvalidAccessError
| NetworkError
| D1Error.

(** Calls to the collaborators, in the order they are made. *)
Inductive Event : Type :=
| Query (s : D1.Statement)
| ImportKey (f : KeyFormat) (data : bytes) (a : KeyAlgorithm) (ext : bool) (u : list KeyUsage)
| Verify (p : AlgorithmParams) (k : CryptoKey) (sig msg : bytes) (result : bool)
| Sign (p : AlgorithmParams) (k : CryptoKey) (data : bytes)
| Fetch (o : Outbound).

Record State : Type := { PublicKeys : D1.D1Database; calls : list Event }.

Inductive Outcome (A : Type) : Type :=
| Returned (a : A)
| Thrown (e : Exception).
Arguments Returned {A} a.
Arguments Thrown {A} e.

Definition M (A : Type) : Type := State -> State * Outcome A.

Definition ret {A} (a : A) : M A := fun s => (s, Returned a).
Definition throw {A} (e : Exception) : M A := fun s => (s, Thrown e).
Definition bind {A B} (m : M A) (k : A -> M B) : M B :=
  fun s => match m s with
           | (s', Returned a) => k a s'
           | (s', Thrown e) => (s', Thrown e)
           end.

Notation "x <- m ;; k" := (bind m (fun x => k))
  (at level 61, m at next level, right associativity).
Notation "m ;;; k" := (bind m (fun _ => k))
  (at level 61, right associativity).

Definition emit (e : Event) : M unit :=
  fun s => ({| PublicKeys := PublicKeys s; calls := calls s ++ [e] |}, Returned tt).

(** A statement on the table: logged, then run; it fails when the table
    does not exist. *)
Definition on_table {A} (stmt : D1.Statement) (f : D1.Table -> D1.Table * A) : M A :=
  emit (Query stmt) ;;;
  fun s => match PublicKeys s with
           | None => (s, Thrown D1Error)
           | Some t => let (t', a) := f t in
                       ({| PublicKeys := Some t'; calls := calls s |}, Returned a)
           end.

Definition db_findFirst (w : D1.Condition) : M (option D1.Row) :=
  on_table (D1.Select w) (fun t => (t, D1.findFirst w t)).
Definition db_findMany : M (list D1.Row) :=
  on_table D1.SelectAll (fun t => (t, D1.findMany t)).
Definition db_insert (k : jsstring) (tr : Z) : M unit :=
  on_table (D1.Insert k tr) (fun t => (D1.insert k tr t, tt)).
Definition db_delete (w : D1.Condition) : M unit :=
  on_table (D1.Delete w) (fun t => (D1.delete w t, tt)).
Definition db_update (tr : Z) (k : jsstring) (w : D1.Condition) : M unit :=
  on_table (D1.Update tr k w) (fun t => (D1.update tr k w t, tt)).
Definition db_run_create_table : M unit :=
  emit (Query D1.CreateTable) ;;;
  fun s => ({| PublicKeys := D1.create_table_if_not_exists (PublicKeys s);
               calls := calls s |}, Returned tt).

(** ** Reading the request body *)

Definition as_string (v : option json) : option jsstring :=
  match v with
  | Some (JStr s) => Some s
  | _ => None
  end.

(** [request.text()]. *)
Definition request_text (request : Request) : M jsstring := ret (text request).

(** [request.json()]: a [SyntaxError] when the body is not JSON. *)
Definition request_json (request : Request) : M json :=
  match json_body request with
  | Some j => ret j
  | None => throw SyntaxError
  end.

(** The body read as a [DoorRequestPayload].  The embedding follows bodies
    whose three fields are strings; on any other body it stops the run with
    [TypeError]. *)
Definition DoorRequestPayload_of (j : json) : option DoorRequestPayload.t :=
  match as_string (property j (lit "signature")),
        as_string (property j (lit "action")),
        as_string (property j (lit "publicKey")) with
  | Some sg, Some a, Some k =>
      Some {| DoorRequestPayload.signature := sg;
              DoorRequestPayload.action := a;
              DoorRequestPayload.publicKey := k |}
  | _, _, _ => None
  end.

(** The body read as a [KeyStore]: [key] has to be a string, [trusted] is
    only ever used through [toInt], that is through its truthiness. *)
Definition KeyStore_of (j : json) : option KeyStore.t :=
  match as_string (property j (lit "key")) with
  | Some k => Some {| KeyStore.key := k;
                      KeyStore.trusted := ToBoolean (property j (lit "trusted")) |}
  | None => None
  end.

Definition typed {A} (decode : json -> option A) (j : json) : M A :=
  match decode j with
  | Some a => ret a
  | None => throw TypeError
  end.

(** ** Helpers of [worker.ts] *)

Definition toInt (value : bool) : Z := if value then 1 else 0.

Definition NewJsonResponse (status : Z) (body : json) : Response :=
  {| status := status;
     headers := [(lit "Content-Type", lit "application/json")];
     body := JSON_stringify body |}.

Definition failed (message : string) : json :=
  JObj [(lit "status", JStr (lit "failed")); (lit "message", JStr (lit message))].

Definition GetMethodNotAllowedResponse : Response :=
  NewJsonResponse 405 (failed "Method Not Allowed").
Definition GetUnauthorizedResponse : Response :=
  NewJsonResponse 401 (failed "Unauthorized").
Definition GetNotProductionResponse : Response :=
  NewJsonResponse 403 (failed "Not allowed in production").

Section Handlers.

Variable w : World.

(** ** The runtime services, as the handlers call them *)

(** [crypto.subtle.importKey]: a [DataError] when the buffer does not decode
    as a key of the format. *)
Definition importKey (f : KeyFormat) (data : bytes) (a : KeyAlgorithm)
    (ext : bool) (u : list KeyUsage) : M CryptoKey :=
  emit (ImportKey f data a ext u) ;;;
  if decodes w f a data
  then ret {| key_type := match f with raw => secret | spki => public end;
              extractable := ext; algorithm := a; usages := u; key_data := data |}
  else throw DataError.

Definition usable (p : AlgorithmParams) (k : CryptoKey) (u : KeyUsage) : bool :=
  str_eqb (name p) (alg_name (algorithm k)) && existsb (KeyUsage_eqb u) (usages k).

(** [crypto.subtle.verify]: a boolean; an [InvalidAccessError] when the key
    is not one for the named algorithm and usage. *)
Definition subtle_verify (p : AlgorithmParams) (k : CryptoKey) (sig msg : bytes) : M bool :=
  if usable p k verify
  then let result := rsassa_verify w k sig msg in
       emit (Verify p k sig msg result) ;;; ret result
  else throw InvalidAccessError.

(** [crypto.subtle.sign]. *)
Definition subtle_sign (p : AlgorithmParams) (k : CryptoKey) (data : bytes) : M bytes :=
  if usable p k sign
  then emit (Sign p k data) ;;; ret (hmac w k data)
  else throw InvalidAccessError.

(** The global [fetch(url, init)]: rejects when the connection fails. *)
Definition global_fetch (o : Outbound) : M Response :=
  emit (Fetch o) ;;;
  match gate w o with
  | Some r => ret r
  | None => throw NetworkError
  end.

(** ** Registry handlers *)

Definition PublicKeyPostHandler (request : Request) (env : Env) : M Response :=
  recivedKey <- request_text request ;;
  storedKey <- db_findFirst (D1.Eq D1.col_key (D1.SqlText recivedKey)) ;;
  match storedKey with
  | Some _ => ret (NewJsonResponse 409 (failed "Key already exists"))
  | None =>
      db_insert recivedKey (toInt false) ;;;
      ret (NewJsonResponse 200
             (JObj [(lit "status", JStr (lit "success"));
                    (lit "key", JStr recivedKey);
                    (lit "message", JStr (lit "Key added"))]))
  end.

Definition PublicKeyGetHandler (request : Request) (env : Env) : M Response :=
  keys <- db_findMany ;;
  match keys with
  | [] => ret (NewJsonResponse 404 (failed "No keys found"))
  | _ :: _ =>
      ret (NewJsonResponse 200
             (JObj [(lit "status", JStr (lit "success"));
                    (lit "keys",
                     JArr (map (fun key =>
                                  JObj [(lit "key", JStr (D1.key key));
                                        (lit "trusted", JBool (negb (D1.trusted key =? 0)))])
                               keys))]))
  end.

Definition PublicKeyDeleteHandler (request : Request) (env : Env) : M Response :=
  recivedKey <- request_text request ;;
  storedKey <- db_findFirst (D1.Eq D1.col_key (D1.SqlText recivedKey)) ;;
  match storedKey with
  | None => ret (NewJsonResponse 404 (failed "Key not found"))
  | Some _ =>
      db_delete (D1.Eq D1.col_key (D1.SqlText recivedKey)) ;;;
      ret (NewJsonResponse 200
             (JObj [(lit "status", JStr (lit "success"));
                    (lit "key", JStr recivedKey);
                    (lit "message", JStr (lit "Key deleted"))]))
  end.

Definition PublicKeyUpdateHandler (request : Request) (env : Env) : M Response :=
  parsed <- request_json request ;;
  updateTo <- typed KeyStore_of parsed ;;
  db_update (toInt (KeyStore.trusted updateTo)) (KeyStore.key updateTo)
            (D1.Eq D1.col_key (D1.SqlText (KeyStore.key updateTo))) ;;;
  ret (NewJsonResponse 200
         (JObj [(lit "newKey", parsed);
                (lit "status", JStr (lit "success"));
                (lit "message", JStr (lit "Key updated"))])).

Definition TableHandler (request : Request) (env : Env) : M Response :=
  db_run_create_table ;;;
  ret (NewJsonResponse 200
         (JObj [(lit "status", JStr (lit "success"));
                (lit "message", JStr (lit "Table created or already exists"))])).

(** ** The gate *)

(** The command [SendToGate] builds from the clock and the random draw. *)
Definition mint (action : jsstring) (now k : Z) : option ValueToGate.t :=
  let expiry := new_Date now in
  let expiry := setMinutes expiry (option_map (fun m => m + 1) (getMinutes expiry)) in
  match toISOString expiry with
  | Some iso =>
      Some {| ValueToGate.action := action;
              ValueToGate.expiry := iso;
              ValueToGate.nonce := Math_floor (double_mul k 1000000000) |}
  | None => None
  end.

Definition gate_request (env : Env) (payload : PayloadToGate.t) : Outbound :=
  {| out_url := GATE_URL env;
     out_method := lit "POST";
     out_headers := [(lit "Content-Type", lit "application/json")];
     out_body := JSON_stringify (PayloadToGate.to_json payload) |}.

Definition sent_successfully (action : jsstring) : Response :=
  NewJsonResponse 200
    (JObj [(lit "status", JStr (lit "success"));
           (lit "message",
            JStr (lit "Gate action " ++ action ++ lit " sent successfully"))]).

Definition SendToGate (action : jsstring) (env : Env) : M Response :=
  hmacKey <- importKey raw (TextEncoder_encode (GATE_HMAC_KEY env))
               {| alg_name := lit "HMAC"; alg_hash := lit "SHA-256" |} false [sign] ;;
  match mint action (clock w) (random w) with
  | None => throw RangeError
  | Some value =>
      signatureBinarys <-
        subtle_sign {| name := lit "HMAC"; saltLength := None |} hmacKey
          (TextEncoder_encode (JSON_stringify (ValueToGate.to_json value))) ;;
      let payload := {| PayloadToGate.value := value;
                        PayloadToGate.signature := btoa_bytes signatureBinarys |} in
      response <- global_fetch (gate_request env payload) ;;
      ret (if ok response then sent_successfully action else response)
  end.

Definition GateHandler (request : Request) (env : Env) : M Response :=
  parsed <- request_json request ;;
  requestPayload <- typed DoorRequestPayload_of parsed ;;
  key <- db_findFirst
           (D1.And (D1.Eq D1.col_trusted (D1.SqlInt (toInt true)))
                   (D1.Eq D1.col_key (D1.SqlText (DoorRequestPayload.publicKey requestPayload)))) ;;
  match key with
  | None => ret GetUnauthorizedResponse
  | Some _ =>
      let recivedKeyBinary := TextEncoder_encode (DoorRequestPayload.publicKey requestPayload) in
      let signatureBinary := TextEncoder_encode (DoorRequestPayload.signature requestPayload) in
      recivedKey <- importKey spki recivedKeyBinary
                      {| alg_name := lit "RSASSA-PKCS1-v1_5"; alg_hash := lit "SHA-256" |}
                      false [verify] ;;
      VerifyResult <- subtle_verify
                        {| name := lit "RSASSA-PKCS1-v1_5"; saltLength := Some 32 |}
                        recivedKey signatureBinary
                        (TextEncoder_encode (DoorRequestPayload.action requestPayload)) ;;
      if negb VerifyResult
      then ret GetUnauthorizedResponse
      else SendToGate (DoorRequestPayload.action requestPayload) env
  end.

(** ** The router: [export default { fetch }] *)

Definition matches (a : jsstring) (b : string) : bool := str_eqb a (lit b).

Definition fetch (request : Request) (env : Env) : M Response :=
  if matches (pathname request) "/publicKey" then
    if matches (method request) "POST" then PublicKeyPostHandler request env
    else if matches (method request) "GET" then
      if negb (matches (ENVIRONMENT env) "DEVELOPMENT") then ret GetNotProductionResponse
      else PublicKeyGetHandler request env
    else if matches (method request) "DELETE" then
      if negb (matches (ENVIRONMENT env) "DEVELOPMENT") then ret GetNotProductionResponse
      else PublicKeyDeleteHandler request env
    else if matches (method request) "PATCH" then
      if negb (matches (ENVIRONMENT env) "DEVELOPMENT") then ret GetNotProductionResponse
      else PublicKeyUpdateHandler request env
    else ret GetMethodNotAllowedResponse
  else if matches (pathname request) "/table" then
    if negb (matches (ENVIRONMENT env) "DEVELOPMENT") then ret GetNotProductionResponse
    else if negb (matches (method request) "PUT") then ret GetMethodNotAllowedResponse
    else TableHandler request env
  else if matches (pathname request) "/gate" then
    if negb (matches (method request) "PATCH") then ret GetMethodNotAllowedResponse
    else GateHandler request env
  else ret (NewJsonResponse 404 (failed "Not Found")).

End Handlers.

(** ** Observations on a run *)

(** The outbound requests among the logged calls. *)
Fixpoint dispatches (l : list Event) : list Outbound :=
  match l with
  | [] => []
  | Fetch o :: l' => o :: dispatches l'
  | _ :: l' => dispatches l'
  end.

(** The statements sent to the database. *)
Fixpoint statements (l : list Event) : list D1.Statement :=
  match l with
  | [] => []
  | Query s :: l' => s :: statements l'
  | _ :: l' => statements l'
  end.

(** A fresh request: nothing logged yet. *)
Definition start (db : D1.D1Database) : State := {| PublicKeys := db; calls := [] |}.

End Worker.


Import Worker.

Arguments lit : simpl never.
Arguments JSON_stringify : simpl never.
Arguments TextEncoder_encode : simpl never.
Arguments btoa_bytes : simpl never.
Arguments NewJsonResponse : simpl never.

(* ================================================================== *)
(** * Vocabulary of the statements *)
(* ================================================================== *)

(** ** The registry *)

(** The condition of the trust lookup in [GateHandler]. *)
Definition trusted_key (k : jsstring) : D1.Condition :=
  D1.And (D1.Eq D1.col_trusted (D1.SqlInt (toInt true)))
         (D1.Eq D1.col_key (D1.SqlText k)).

(** The condition the registry handlers select, delete and update by. *)
Definition with_key (k : jsstring) : D1.Condition := D1.Eq D1.col_key (D1.SqlText k).

(** No row carries the key. *)
Definition key_absent (k : jsstring) (t : D1.Table) : Prop :=
  forall r, In r (D1.rows t) -> D1.key r <> k.

(** The key is registered and its trust flag is false ([toInt(false)]). *)
Definition key_untrusted (k : jsstring) (t : D1.Table) : Prop :=
  (exists r, In r (D1.rows t) /\ D1.key r = k) /\
  (forall r, In r (D1.rows t) -> D1.key r = k -> D1.trusted r = toInt false).

(** ** A run of the gate handler *)

(** The state after more calls have been logged. *)
Definition log (s : State) (evs : list Event) : State :=
  {| PublicKeys := PublicKeys s; calls := calls s ++ evs |}.

(** The payload of a request, when its body has one. *)
Definition payload_of (request : Request) : option DoorRequestPayload.t :=
  match json_body request with
  | Some j => DoorRequestPayload_of j
  | None => None
  end.

(** The row the trust lookup of [GateHandler] returns. *)
Definition trust_lookup (s : State) (p : DoorRequestPayload.t) : option D1.Row :=
  match PublicKeys s with
  | Some t => D1.findFirst (trusted_key (DoorRequestPayload.publicKey p)) t
  | None => None
  end.

Definition rsa_algorithm : KeyAlgorithm :=
  {| alg_name := lit "RSASSA-PKCS1-v1_5"; alg_hash := lit "SHA-256" |}.

(** The key [GateHandler] imports for a payload. *)
Definition received_key (p : DoorRequestPayload.t) : CryptoKey :=
  {| key_type := public; extractable := false; algorithm := rsa_algorithm;
     usages := [verify];
     key_data := TextEncoder_encode (DoorRequestPayload.publicKey p) |}.

Definition verify_params : AlgorithmParams :=
  {| name := lit "RSASSA-PKCS1-v1_5"; saltLength := Some 32 |}.

(** Whether [importKey] accepts the key bytes of a payload. *)
Definition key_decodes (w : World) (p : DoorRequestPayload.t) : bool :=
  decodes w spki rsa_algorithm (TextEncoder_encode (DoorRequestPayload.publicKey p)).

(** What [crypto.subtle.verify] answers for a payload. *)
Definition verifies (w : World) (p : DoorRequestPayload.t) : bool :=
  rsassa_verify w (received_key p)
    (TextEncoder_encode (DoorRequestPayload.signature p))
    (TextEncoder_encode (DoorRequestPayload.action p)).

Definition lookup_event (p : DoorRequestPayload.t) : Event :=
  Query (D1.Select (trusted_key (DoorRequestPayload.publicKey p))).

Definition import_event (p : DoorRequestPayload.t) : Event :=
  ImportKey spki (TextEncoder_encode (DoorRequestPayload.publicKey p))
            rsa_algorithm false [verify].

Definition verify_event (p : DoorRequestPayload.t) (result : bool) : Event :=
  Verify verify_params (received_key p)
         (TextEncoder_encode (DoorRequestPayload.signature p))
         (TextEncoder_encode (DoorRequestPayload.action p)) result.

(** ** A run of [SendToGate] *)

Definition hmac_algorithm : KeyAlgorithm :=
  {| alg_name := lit "HMAC"; alg_hash := lit "SHA-256" |}.

Definition hmac_key (env : Env) : CryptoKey :=
  {| key_type := secret; extractable := false; algorithm := hmac_algorithm;
     usages := [sign]; key_data := TextEncoder_encode (GATE_HMAC_KEY env) |}.

Definition hmac_import_event (env : Env) : Event :=
  ImportKey raw (TextEncoder_encode (GATE_HMAC_KEY env)) hmac_algorithm false [sign].

(** Whether [importKey] accepts the shared secret. *)
Definition secret_decodes (w : World) (env : Env) : bool :=
  decodes w raw hmac_algorithm (TextEncoder_encode (GATE_HMAC_KEY env)).

Definition sign_params : AlgorithmParams :=
  {| name := lit "HMAC"; saltLength := None |}.

(** The bytes the MAC is computed over. *)
Definition signed_bytes (v : ValueToGate.t) : bytes :=
  TextEncoder_encode (JSON_stringify (ValueToGate.to_json v)).

Definition sign_event (env : Env) (v : ValueToGate.t) : Event :=
  Sign sign_params (hmac_key env) (signed_bytes v).

(** The signed envelope for a command, and the request that carries it. *)
Definition envelope (w : World) (env : Env) (v : ValueToGate.t) : PayloadToGate.t :=
  {| PayloadToGate.value := v;
     PayloadToGate.signature := btoa_bytes (hmac w (hmac_key env) (signed_bytes v)) |}.

Definition dispatch (w : World) (env : Env) (v : ValueToGate.t) : Outbound :=
  gate_request env (envelope w env v).

(** The calls of a complete [SendToGate]. *)
Definition send_events (w : World) (env : Env) (v : ValueToGate.t) : list Event :=
  [hmac_import_event env; sign_event env v; Fetch (dispatch w env v)].

(** ** Clock and random draw *)

(** The time values a [Date] can hold. *)
Definition valid_time (t : Z) : Prop := Z.abs t <= maxTimeValue.

(** The numerators [k] of the draws [k / 2^53] in [[0, 1)]. *)
Definition valid_draw (k : Z) : Prop := 0 <= k < 2 ^ random_bits.

(** [Math.floor(Math.random() * 1000000000)] for the draw [k / 2^53]. *)
Definition drawn_nonce (k : Z) : Z := Math_floor (double_mul k 1000000000).

(** The values of a 32-bit unsigned integer. *)
Definition uint32 (n : Z) : Prop := 0 <= n < 2 ^ 32.


(** ** Sample data *)

Module Sample.

Definition key : jsstring := lit "MIIBIjANBgkqhkiG9w0BAQEFAAOCAQ8A".
Definition other_key : jsstring := lit "MIIBIjANBgkqhkiG9w0BAQEFAAOCAQ8B".
Definition signature : jsstring := lit "c2lnbmF0dXJl".

Definition malformed_key : jsstring := lit "not a key".

(** A registry with one row. *)
Definition registry (k : jsstring) (trusted : Z) : D1.Table :=
  {| D1.rows := [{| D1.id := 1; D1.key := k; D1.trusted := trusted |}];
     D1.last_id := 1 |}.

Definition env (mode : string) : Env :=
  {| ENVIRONMENT := lit mode;
     GATE_HMAC_KEY := lit "shared-secret";
     GATE_URL := lit "https://gate.example/command" |}.

(** A request with a JSON body. *)
Definition json_request (path method : string) (j : json) : Request :=
  {| pathname := lit path; method := lit method;
     text := JSON_stringify j; json_body := Some j |}.

(** A request with a plain text body. *)
Definition text_request (path method : string) (t : jsstring) : Request :=
  {| pathname := lit path; method := lit method; text := t; json_body := None |}.

Definition door_body (action k : jsstring) : json :=
  JObj [(lit "signature", JStr signature);
        (lit "action", JStr action);
        (lit "publicKey", JStr k)].

Definition door_payload (action k : jsstring) : DoorRequestPayload.t :=
  {| DoorRequestPayload.signature := signature;
     DoorRequestPayload.action := action;
     DoorRequestPayload.publicKey := k |}.

Definition door_request (action k : jsstring) : Request :=
  json_request "/gate" "PATCH" (door_body action k).

Definition gate_answer (status : Z) : Response :=
  {| status := status; headers := []; body := lit "gate says so" |}.

(** A world: whether keys decode, whether signatures verify, and the status
    the gate answers with.  The clock stands at 2023-11-14T22:13:20.123Z. *)
Definition world (keys_decode signatures_verify : bool) (gate_status : Z) : World :=
  {| decodes := fun _ _ _ => keys_decode;
     rsassa_verify := fun _ _ _ => signatures_verify;
     hmac := fun _ data => firstn 32 (data ++ repeat 0 32);
     clock := 1700000000123;
     random := 2 ^ 52 + 12345;
     gate := fun _ => Some (gate_answer gate_status) |}.

Definition update_body (k : jsstring) (trusted : bool) : json :=
  JObj [(lit "key", JStr k); (lit "trusted", JBool trusted)].

(** The state the next request starts from: the database as the previous
    run left it, and an empty log. *)
Definition next (run : State * Outcome Response) : State :=
  start (PublicKeys (fst run)).

(** A session in development mode: the table is created, [key] is
    registered, commands the gate, is marked trusted, commands the gate
    again. *)
Definition created : State * Outcome Response :=
  fetch (world true true 200) (text_request "/table" "PUT" []) (env "DEVELOPMENT")
        (start None).
Definition registered : State * Outcome Response :=
  fetch (world true true 200) (text_request "/publicKey" "POST" key)
        (env "DEVELOPMENT") (next created).
Definition first_attempt : State * Outcome Response :=
  fetch (world true true 200) (door_request (lit "OPEN") key)
        (env "DEVELOPMENT") (next registered).
Definition marked_trusted : State * Outcome Response :=
  fetch (world true true 200)
        (json_request "/publicKey" "PATCH" (update_body key true))
        (env "DEVELOPMENT") (next first_attempt).
Definition second_attempt : State * Outcome Response :=
  fetch (world true true 200) (door_request (lit "OPEN") key)
        (env "DEVELOPMENT") (next marked_trusted).
Definition attempt_with_gate_down : State * Outcome Response :=
  fetch (world true true 503) (door_request (lit "OPEN") key)
        (env "DEVELOPMENT") (next marked_trusted).

End Sample.

(* ================================================================== *)
(** * Vocabulary of the further properties *)
(* ================================================================== *)

(** ** The registry as a whole *)

Definition keys (t : D1.Table) : list jsstring := map D1.key (D1.rows t).
Definition ids (t : D1.Table) : list Z := map D1.id (D1.rows t).

(** What the handlers keep true of the table although the schema asks for
    none of it: one row per key, one row per id, no id above the last one
    handed out, and flags that are [toInt] of a boolean. *)
Record well_formed (t : D1.Table) : Prop := {
  unique_keys : NoDup (keys t);
  unique_ids : NoDup (ids t);
  bounded_ids : Forall (fun i => i <= D1.last_id t) (ids t);
  boolean_flags : Forall (fun r => D1.trusted r = 0 \/ D1.trusted r = 1) (D1.rows t) }.



(** The statement [PublicKeyUpdateHandler] sends for a body. *)
Definition update_statement (u : KeyStore.t) : D1.Statement :=
  D1.Update (toInt (KeyStore.trusted u)) (KeyStore.key u) (with_key (KeyStore.key u)).

(** Whether the gate's trust lookup accepts a key. *)
Definition gate_trusts (t : D1.Table) (k : jsstring) : bool :=
  match D1.findFirst (trusted_key k) t with
  | Some _ => true
  | None => false
  end.

(** Strings whose code units are 16-bit. *)
Definition code_units (s : jsstring) : Prop := Forall (fun c => 0 <= c < 65536) s.

(** What [GateHandler] does once the trust lookup has found a row: import
    the key, verify, and dispatch or refuse. *)
Definition once_trusted (w : World) (env : Env) (p : DoorRequestPayload.t) (s : State)
    : State * Outcome Response :=
  if key_decodes w p then
    if verifies w p
    then SendToGate w (DoorRequestPayload.action p) env
           (log s [lookup_event p; import_event p; verify_event p true])
    else (log s [lookup_event p; import_event p; verify_event p false],
          Returned GetUnauthorizedResponse)
  else (log s [lookup_event p; import_event p], Thrown DataError).

(** The entry of [PublicKeyGetHandler]'s listing for a key, with the flag
    the gate's trust lookup gives it. *)
Definition listed (t : D1.Table) (r : D1.Row) : json :=
  JObj [(lit "key", JStr (D1.key r));
        (lit "trusted", JBool (gate_trusts t (D1.key r)))].

(** Code units that [QuoteJSONString] copies as they are. *)
Definition plain (c : Z) : Prop :=
  32 <= c < 0xD800 /\ c <> 34 /\ c <> 92.

(** ** Bytes *)

Definition is_byte (b : Z) : Prop := 0 <= b < 256.

(** A UTF-8 continuation byte. *)
Definition continuation (b : Z) : bool := (0x80 <=? b) && (b <=? 0xBF).

(** No continuation byte stands first (after [prev], a byte below 0x80 when
    the sequence starts a text) or right after a byte below 0x80. *)
Fixpoint no_stray_continuation (prev : Z) (bs : bytes) : bool :=
  match bs with
  | [] => true
  | b :: rest =>
      negb ((prev <? 0x80) && continuation b) && no_stray_continuation b rest
  end.

(** The bytes of one scalar value: a first byte that is no continuation
    byte, and bytes of at least 0x80 everywhere but in the last place. *)
Definition well_placed (chunk : bytes) : Prop :=
  match chunk with
  | [] => False
  | b :: _ => continuation b = false /\ Forall (fun x => 0x80 <= x) (removelast chunk)
  end.

Fixpoint starts_with (pattern bs : bytes) : bool :=
  match pattern, bs with
  | [], _ => true
  | x :: pattern', y :: bs' => (x =? y) && starts_with pattern' bs'
  | _ :: _, [] => false
  end.

(** Whether [pattern] occurs in [bs] as a run of consecutive bytes. *)
Fixpoint occurs (pattern bs : bytes) : bool :=
  starts_with pattern bs ||
  match bs with
  | [] => false
  | _ :: rest => occurs pattern rest
  end.

(** The DER contents of the object identifier 1.2.840.113549.1.1.1
    ([rsaEncryption]), which the [AlgorithmIdentifier] of every RSA
    [SubjectPublicKeyInfo] carries. *)
Definition rsaEncryption : bytes := [0x2A; 0x86; 0x48; 0x86; 0xF7; 0x0D; 0x01; 0x01; 0x01].

(** A runtime whose [importKey] accepts as [spki] only buffers that carry
    that identifier. *)
Definition spki_is_rsa (w : World) : Prop :=
  forall a data, decodes w spki a data = true -> occurs rsaEncryption data = true.

(** A world like [Sample.world true true 200] whose [importKey] looks for the
    identifier. *)
Definition strict_world : World :=
  {| decodes := fun f _ data => match f with
                                | spki => occurs rsaEncryption data
                                | raw => true
                                end;
     rsassa_verify := fun _ _ _ => true;
     hmac := hmac (Sample.world true true 200);
     clock := clock (Sample.world true true 200);
     random := random (Sample.world true true 200);
     gate := gate (Sample.world true true 200) |}.

(** A string with a surrogate pair, a lone surrogate, a two-byte character
    and an ASCII character. *)
Definition mixed_string : jsstring := [0xD83D; 0xDE00; 0xD800; 0xE9; 65].

(** ** The binary helpers of the file's second copy of the worker

    [src/worker.ts] carries a second copy of the worker (from line 246 on)
    whose [GateHandler] decodes the key and the signature with
    [stringToArrayBuffer(atob(...))] before [importKey] and [verify]. *)

(** [stringToArrayBuffer]: one byte per code unit; a store into a
    [Uint8Array] keeps the value modulo 256. *)
Fixpoint stringToArrayBuffer (str : jsstring) : bytes :=
  match str with
  | [] => []
  | c :: rest => (c mod 256) :: stringToArrayBuffer rest
  end.

Definition ascii_whitespace (c : Z) : bool :=
  (c =? 9) || (c =? 10) || (c =? 12) || (c =? 13) || (c =? 32).

(** The value of a character of the base64 alphabet. *)
Definition base64_value (c : Z) : option Z :=
  if (65 <=? c) && (c <=? 90) then Some (c - 65)
  else if (97 <=? c) && (c <=? 122) then Some (c - 71)
  else if (48 <=? c) && (c <=? 57) then Some (c + 4)
  else if c =? 43 then Some 62
  else if c =? 47 then Some 63
  else None.

(** When the length is a multiple of four, one or two [=] at the end are
    removed. *)
Definition strip_padding (s : jsstring) : jsstring :=
  if (Nat.modulo (List.length s) 4 =? 0)%nat then
    match rev s with
    | x :: y :: r =>
        if x =? 61 then (if y =? 61 then rev r else rev (y :: r)) else s
    | [x] => if x =? 61 then [] else s
    | [] => s
    end
  else s.

Fixpoint base64_values (s : jsstring) : option (list Z) :=
  match s with
  | [] => Some []
  | c :: rest =>
      match base64_value c, base64_values rest with
      | Some v, Some vs => Some (v :: vs)
      | _, _ => None
      end
  end.

(** Six bits per value; 24 bits give three bytes, 12 bits left over give
    one byte, 18 bits two. *)
Fixpoint bytes_of_sextets (vs : list Z) : bytes :=
  match vs with
  | a :: b :: c :: d :: rest =>
      [Z.lor (Z.shiftl a 2) (Z.shiftr b 4);
       Z.lor (Z.shiftl (Z.land b 15) 4) (Z.shiftr c 2);
       Z.lor (Z.shiftl (Z.land c 3) 6) d] ++ bytes_of_sextets rest
  | [a; b; c] =>
      [Z.lor (Z.shiftl a 2) (Z.shiftr b 4);
       Z.lor (Z.shiftl (Z.land b 15) 4) (Z.shiftr c 2)]
  | [a; b] => [Z.lor (Z.shiftl a 2) (Z.shiftr b 4)]
  | _ => []
  end.

(** [atob]: the forgiving base64 decoding; [None] is its
    [InvalidCharacterError].  The result is a string with one code unit per
    byte. *)
Definition atob (data : jsstring) : option jsstring :=
  let data := filter (fun c => negb (ascii_whitespace c)) data in
  let data := strip_padding data in
  if (Nat.modulo (List.length data) 4 =? 1)%nat then None
  else option_map bytes_of_sextets (base64_values data).

(** The six-bit values [btoa] writes for a byte sequence, before padding. *)
Fixpoint sextets (bs : bytes) : list Z :=
  match bs with
  | [] => []
  | [a] => [Z.shiftr a 2; Z.shiftl (Z.land a 3) 4]
  | [a; b] =>
      [Z.shiftr a 2;
       Z.lor (Z.shiftl (Z.land a 3) 4) (Z.shiftr b 4);
       Z.shiftl (Z.land b 15) 2]
  | a :: b :: c :: rest =>
      [Z.shiftr a 2;
       Z.lor (Z.shiftl (Z.land a 3) 4) (Z.shiftr b 4);
       Z.lor (Z.shiftl (Z.land b 15) 2) (Z.shiftr c 6);
       Z.land c 63] ++ sextets rest
  end.

Definition sextet (v : Z) : Prop := 0 <= v < 64.

(** ** Requests in sequence *)

(** Serving requests one after the other under one environment, each in its
    own world, on the state the previous one left. *)
Fixpoint serve (env : Env) (requests : list (World * Request)) (s : State) : State :=
  match requests with
  | [] => s
  | (w, request) :: rest => serve env rest (fst (fetch w request env s))
  end.

(* ================================================================== *)
(** * The embedding on concrete values *)
(* ================================================================== *)

Example encode_OPEN : TextEncoder_encode (lit "OPEN") = [79; 80; 69; 78].
Proof. reflexivity. Qed.

Example encode_two_byte : TextEncoder_encode [0xE9] = [0xC3; 0xA9].
Proof. reflexivity. Qed.

Example encode_pair : TextEncoder_encode [0xD83D; 0xDE00] = [0xF0; 0x9F; 0x98; 0x80].
Proof. reflexivity. Qed.

Example encode_lone_surrogate : TextEncoder_encode [0xD800; 65] = [0xEF; 0xBF; 0xBD; 65].
Proof. reflexivity. Qed.

Example stringify_object :
  JSON_stringify (JObj [(lit "a", JNum 12); (lit "b", JArr [JBool true; JNull; JStr (lit "x")])])
  = quoted "{'a':12,'b':[true,null,'x']}".
Proof. reflexivity. Qed.

Example btoa_Man : btoa_bytes [77; 97; 110; 77; 97] = lit "TWFuTWE=".
Proof. reflexivity. Qed.

Example iso_epoch : toISOString (Some 0) = Some (lit "1970-01-01T00:00:00.000Z").
Proof. reflexivity. Qed.

Example iso_2023 : toISOString (Some 1700000000123) = Some (lit "2023-11-14T22:13:20.123Z").
Proof. reflexivity. Qed.

Example iso_leap_day : toISOString (Some 1709251199999) = Some (lit "2024-02-29T23:59:59.999Z").
Proof. reflexivity. Qed.

Example iso_before_epoch : toISOString (Some (-1)) = Some (lit "1969-12-31T23:59:59.999Z").
Proof. reflexivity. Qed.

Example iso_max : toISOString (Some maxTimeValue) = Some (lit "+275760-09-13T00:00:00.000Z").
Proof. reflexivity. Qed.

Example setMinutes_same_minute :
  setMinutes (Some 1709251199999) (getMinutes (Some 1709251199999))
  = Some 1709251199999.
Proof. reflexivity. Qed.

Example setMinutes_carries_into_next_day :
  option_map iso_string (setMinutes (Some 1709251199999) (Some 60))
  = Some (lit "2024-03-01T00:00:59.999Z").
Proof. reflexivity. Qed.

Example round_exact : round_to_double (2 ^ 53 - 1) = 2 ^ 53 - 1.
Proof. reflexivity. Qed.

Example round_tie_even : round_to_double (2 ^ 53 + 1) = 2 ^ 53.
Proof. reflexivity. Qed.

Example round_tie_up : round_to_double (2 ^ 53 + 3) = 2 ^ 53 + 4.
Proof. reflexivity. Qed.

Example floor_largest_draw :
  Math_floor (double_mul (2 ^ 53 - 1) 1000000000) = 999999999.
Proof. reflexivity. Qed.

Example unauthorized_body :
  body GetUnauthorizedResponse = quoted "{'status':'failed','message':'Unauthorized'}".
Proof. reflexivity. Qed.

Example nonce_of_sample_draw : drawn_nonce (2 ^ 52 + 12345) = 500000000.
Proof. reflexivity. Qed.

(** A session: registration leaves the key untrusted and the gate closed
    to it; once it is marked trusted, the same request sends one envelope. *)

Example session_registered :
  snd Sample.registered
  = Returned (NewJsonResponse 200
                (JObj [(lit "status", JStr (lit "success"));
                       (lit "key", JStr Sample.key);
                       (lit "message", JStr (lit "Key added"))])) /\
  PublicKeys (fst Sample.registered) = Some (Sample.registry Sample.key 0).
Proof. split; reflexivity. Qed.

Example session_first_attempt :
  snd Sample.first_attempt = Returned GetUnauthorizedResponse /\
  dispatches (calls (fst Sample.first_attempt)) = [].
Proof. split; reflexivity. Qed.

Example session_marked_trusted :
  option_map body (match snd Sample.marked_trusted with
                   | Returned r => Some r
                   | Thrown _ => None
                   end)
  = Some (quoted "{'newKey':{'key':'MIIBIjANBgkqhkiG9w0BAQEFAAOCAQ8A','trusted':true},"
          ++ quoted "'status':'success','message':'Key updated'}") /\
  PublicKeys (fst Sample.marked_trusted) = Some (Sample.registry Sample.key 1).
Proof. split; reflexivity. Qed.

Example session_second_attempt :
  snd Sample.second_attempt = Returned (sent_successfully (lit "OPEN")) /\
  map out_body (dispatches (calls (fst Sample.second_attempt)))
  = [quoted "{'value':{'action':'OPEN','expiry':'2023-11-14T22:14:20.123Z',"
     ++ quoted "'nonce':500000000},"
     ++ quoted "'signature':'eyJhY3Rpb24iOiJPUEVOIiwiZXhwaXJ5IjoiMjAyMy0='}"].
Proof. split; vm_compute; reflexivity. Qed.

Example session_gate_down :
  snd Sample.attempt_with_gate_down = Returned (Sample.gate_answer 503) /\
  List.length (dispatches (calls (fst Sample.attempt_with_gate_down))) = 1%nat.
Proof. split; vm_compute; reflexivity. Qed.

Example stringify_escapes :
  JSON_stringify (JStr [34; 92; 10; 1; 0xD800; 65])
  = [34; 92; 34; 92; 92; 92; 110] ++ lit "\u0001\ud800A" ++ [34].
Proof. reflexivity. Qed.

(* ================================================================== *)
(** * Properties *)
(* ================================================================== *)

(** The trust lookup found a row: its two [match]es are settled. *)
Ltac lookup_succeeded Ht :=
  unfold trust_lookup in Ht;
  destruct (PublicKeys _) as [?t|]; [|contradiction];
  destruct (D1.findFirst _ _) as [?row|]; [|contradiction].

(** ** Strings and queries *)

Lemma str_eqb_eq (a b : jsstring) : str_eqb a b = true <-> a = b.
Proof.
  revert b; induction a as [|x a IH]; intros [|y b]; simpl; split; intro H;
    try reflexivity; try discriminate.
  - apply andb_true_iff in H. destruct H as [Hx Hr].
    apply Z.eqb_eq in Hx. apply IH in Hr. now subst.
  - injection H as -> ->. rewrite Z.eqb_refl. simpl. now apply IH.
Qed.

Lemma str_eqb_refl (a : jsstring) : str_eqb a a = true.
Proof. now apply str_eqb_eq. Qed.

Lemma str_eqb_neq (a b : jsstring) : a <> b -> str_eqb a b = false.
Proof.
  intro H. destruct (str_eqb a b) eqn:E; [|reflexivity].
  apply str_eqb_eq in E. contradiction.
Qed.

Lemma find_none_iff {A} (f : A -> bool) (l : list A) :
  find f l = None <-> forall x, In x l -> f x = false.
Proof.
  split.
  - apply find_none.
  - induction l as [|a l IH]; simpl; intro H; [reflexivity|].
    rewrite (H a (or_introl eq_refl)). apply IH. intros x Hx. apply H. now right.
Qed.

Lemma lookup_absent (k : jsstring) (t : D1.Table) :
  key_absent k t -> D1.findFirst (trusted_key k) t = None.
Proof.
  intro H. apply find_none_iff. intros r Hr. simpl.
  rewrite (str_eqb_neq _ _ (H r Hr)). apply andb_false_r.
Qed.

Lemma lookup_untrusted (k : jsstring) (t : D1.Table) :
  key_untrusted k t -> D1.findFirst (trusted_key k) t = None.
Proof.
  intros [_ H]. apply find_none_iff. intros r Hr. simpl.
  destruct (str_eqb (D1.key r) k) eqn:E.
  - apply str_eqb_eq in E. rewrite (H r Hr E). reflexivity.
  - apply andb_false_r.
Qed.

Lemma lookup_found (k : jsstring) (t : D1.Table) (r : D1.Row) :
  D1.findFirst (trusted_key k) t = Some r ->
  In r (D1.rows t) /\ D1.key r = k /\ D1.trusted r = 1.
Proof.
  intro H. apply find_some in H. destruct H as [Hin Hc]. simpl in Hc.
  apply andb_true_iff in Hc. destruct Hc as [Ht Hk].
  apply Z.eqb_eq in Ht. apply str_eqb_eq in Hk. auto.
Qed.

(** ** The log *)

Lemma log_log (s : State) (a b : list Event) : log (log s a) b = log s (a ++ b).
Proof. unfold log; simpl. now rewrite app_assoc. Qed.

Lemma dispatches_app (a b : list Event) :
  dispatches (a ++ b) = dispatches a ++ dispatches b.
Proof.
  induction a as [|e a IH]; simpl; [reflexivity|].
  destruct e; simpl; now rewrite ?IH.
Qed.

(** ** [SendToGate], call by call *)

Lemma SendToGate_steps (w : World) (action : jsstring) (env : Env) (s : State) :
  SendToGate w action env s =
  if secret_decodes w env then
    match mint action (clock w) (random w) with
    | None => (log s [hmac_import_event env], Thrown RangeError)
    | Some v =>
        match gate w (dispatch w env v) with
        | Some r => (log s (send_events w env v),
                     Returned (if ok r then sent_successfully action else r))
        | None => (log s (send_events w env v), Thrown NetworkError)
        end
    end
  else (log s [hmac_import_event env], Thrown DataError).
Proof.
  destruct s as [db cs].
  unfold SendToGate, importKey, bind, emit. simpl.
  fold hmac_algorithm. unfold secret_decodes.
  destruct (decodes w raw hmac_algorithm _); [|reflexivity].
  unfold ret at 1. fold (hmac_key env).
  destruct (mint action (clock w) (random w)) as [v|]; [|reflexivity].
  unfold subtle_sign, usable, bind, emit. simpl. unfold ret at 1.
  unfold global_fetch, bind, emit. simpl.
  fold sign_params. fold (signed_bytes v). fold (envelope w env v).
  fold (dispatch w env v).
  destruct (gate w (dispatch w env v)) as [r|];
    unfold ret, throw, log, send_events, sign_event, hmac_import_event; simpl;
    now rewrite <- !app_assoc.
Qed.

(** ** [GateHandler], call by call *)

Lemma GateHandler_steps (w : World) (request : Request) (env : Env) (s : State)
    (p : DoorRequestPayload.t) :
  payload_of request = Some p ->
  GateHandler w request env s =
  match PublicKeys s with
  | None => (log s [lookup_event p], Thrown D1Error)
  | Some t =>
      match D1.findFirst (trusted_key (DoorRequestPayload.publicKey p)) t with
      | None => (log s [lookup_event p], Returned GetUnauthorizedResponse)
      | Some _ =>
          if key_decodes w p then
            if verifies w p
            then SendToGate w (DoorRequestPayload.action p) env
                   (log s [lookup_event p; import_event p; verify_event p true])
            else (log s [lookup_event p; import_event p; verify_event p false],
                  Returned GetUnauthorizedResponse)
          else (log s [lookup_event p; import_event p], Thrown DataError)
      end
  end.
Proof.
  unfold payload_of. destruct (json_body request) as [j|] eqn:Hj; [|discriminate].
  intros Hp. destruct s as [db cs].
  unfold GateHandler, request_json, typed, bind. rewrite Hj. unfold ret at 1.
  rewrite Hp. unfold ret at 1.
  unfold db_findFirst, on_table, bind, emit. simpl.
  fold (trusted_key (DoorRequestPayload.publicKey p)).
  destruct db as [t|]; [|reflexivity].
  destruct (D1.findFirst _ t) as [r|]; [|reflexivity].
  unfold importKey, bind, emit. simpl.
  fold rsa_algorithm. unfold key_decodes.
  destruct (decodes w spki rsa_algorithm _);
    [|unfold throw, log; simpl; now rewrite <- app_assoc].
  unfold ret at 1. unfold subtle_verify, usable. simpl.
  unfold bind, emit. simpl. unfold ret at 1.
  fold (received_key p). unfold verifies.
  destruct (rsassa_verify w (received_key p) _ _); simpl.
  - unfold log; simpl. now rewrite <- !app_assoc.
  - unfold ret, log; simpl. now rewrite <- !app_assoc.
Qed.

Lemma GateHandler_no_payload (w : World) (request : Request) (env : Env) (s : State) :
  payload_of request = None ->
  exists e, GateHandler w request env s = (s, Thrown e).
Proof.
  unfold payload_of, GateHandler, request_json, typed, bind.
  destruct (json_body request) as [j|].
  - intros H. cbv [ret]. rewrite H. now exists TypeError.
  - intros _. now exists SyntaxError.
Qed.

(** ** The router on [/gate] *)

Lemma fetch_gate_PATCH (w : World) (request : Request) (env : Env) :
  pathname request = lit "/gate" ->
  method request = lit "PATCH" ->
  fetch w request env = GateHandler w request env.
Proof.
  intros Hp Hm. unfold fetch, matches. rewrite Hp, Hm. reflexivity.
Qed.

Lemma fetch_gate_other (w : World) (request : Request) (env : Env) :
  pathname request = lit "/gate" ->
  method request <> lit "PATCH" ->
  fetch w request env = ret GetMethodNotAllowedResponse.
Proof.
  intros Hp Hm. unfold fetch, matches. rewrite Hp.
  change (str_eqb (lit "/gate") (lit "/publicKey")) with false.
  change (str_eqb (lit "/gate") (lit "/table")) with false.
  change (str_eqb (lit "/gate") (lit "/gate")) with true.
  cbv iota. now rewrite (str_eqb_neq _ _ Hm).
Qed.

Lemma log_nil (s : State) : log s [] = s.
Proof. destruct s; unfold log; simpl. now rewrite app_nil_r. Qed.

(** * C1: unknown and untrusted keys *)

(** C1.  A [PATCH /gate] request whose [publicKey] is not in the table, or
    is there with [trusted = 0], gets the generic 401 response
    [{"status":"failed","message":"Unauthorized"}].  The only call made is
    the trust lookup, so the answer does not depend on what the runtime would
    say about the signature (the world [w] is arbitrary), and the response is
    the same for both causes. *)
Theorem C1_unknown_or_untrusted_key_unauthorized
    (w : World) (request : Request) (env : Env) (s : State)
    (p : DoorRequestPayload.t) (t : D1.Table) :
  pathname request = lit "/gate" ->
  method request = lit "PATCH" ->
  payload_of request = Some p ->
  PublicKeys s = Some t ->
  key_absent (DoorRequestPayload.publicKey p) t \/
  key_untrusted (DoorRequestPayload.publicKey p) t ->
  fetch w request env s = (log s [lookup_event p], Returned GetUnauthorizedResponse) /\
  status GetUnauthorizedResponse = 401 /\
  body GetUnauthorizedResponse = quoted "{'status':'failed','message':'Unauthorized'}".
Proof.
  intros Hpath Hmeth Hp Ht Hkey. split; [|split; reflexivity].
  rewrite (fetch_gate_PATCH w request env Hpath Hmeth).
  rewrite (GateHandler_steps w request env s p Hp), Ht.
  destruct Hkey as [H|H].
  - now rewrite (lookup_absent _ _ H).
  - now rewrite (lookup_untrusted _ _ H).
Qed.

Lemma C1_witness :
  fetch (Sample.world true true 200)
        (Sample.door_request (lit "OPEN") Sample.key) (Sample.env "PRODUCTION")
        (start (Some (Sample.registry Sample.key 0)))
  = (log (start (Some (Sample.registry Sample.key 0)))
         [lookup_event (Sample.door_payload (lit "OPEN") Sample.key)],
     Returned GetUnauthorizedResponse) /\
  status GetUnauthorizedResponse = 401 /\
  body GetUnauthorizedResponse = quoted "{'status':'failed','message':'Unauthorized'}".
Proof.
  apply (C1_unknown_or_untrusted_key_unauthorized
           (Sample.world true true 200)
           (Sample.door_request (lit "OPEN") Sample.key) (Sample.env "PRODUCTION")
           (start (Some (Sample.registry Sample.key 0)))
           (Sample.door_payload (lit "OPEN") Sample.key)
           (Sample.registry Sample.key 0)); try reflexivity.
  right. split.
  - eexists. split; [left; reflexivity | reflexivity].
  - intros r [<-|[]] _. reflexivity.
Defined.

(** * C2: no dispatch before authorization *)


Lemma send_events_dispatch (w : World) (env : Env) (v : ValueToGate.t) :
  dispatches (send_events w env v) = [dispatch w env v].
Proof. reflexivity. Qed.

(** The runs of [SendToGate]: either nothing is sent, or the calls are
    exactly those of one complete dispatch. *)
Lemma SendToGate_shape (w : World) (action : jsstring) (env : Env) (s : State) :
  exists evs, fst (SendToGate w action env s) = log s evs /\
    (dispatches evs = [] \/
     exists v, mint action (clock w) (random w) = Some v /\
               secret_decodes w env = true /\
               evs = send_events w env v).
Proof.
  rewrite SendToGate_steps.
  destruct (secret_decodes w env) eqn:Hs.
  - destruct (mint action (clock w) (random w)) as [v|] eqn:Hm.
    + exists (send_events w env v). split.
      * now destruct (gate w (dispatch w env v)).
      * right. exists v. auto.
    + eexists. split; [reflexivity|]. now left.
  - eexists. split; [reflexivity|]. now left.
Qed.

(** The runs of the router on [/gate]: a dispatch is the last call of a run
    in which the trust lookup found a row, the key was imported and the
    signature verified, in that order. *)
Lemma gate_run_shape (w : World) (request : Request) (env : Env) (s : State) :
  pathname request = lit "/gate" ->
  exists evs, fst (fetch w request env s) = log s evs /\
    (dispatches evs = [] \/
     exists p v,
       payload_of request = Some p /\
       trust_lookup s p <> None /\
       key_decodes w p = true /\
       verifies w p = true /\
       mint (DoorRequestPayload.action p) (clock w) (random w) = Some v /\
       evs = [lookup_event p; import_event p; verify_event p true]
             ++ send_events w env v).
Proof.
  intro Hpath.
  destruct (str_eqb (method request) (lit "PATCH")) eqn:Hm.
  - apply str_eqb_eq in Hm. rewrite (fetch_gate_PATCH w request env Hpath Hm).
    destruct (payload_of request) as [p|] eqn:Hp.
    + rewrite (GateHandler_steps w request env s p Hp).
      unfold trust_lookup.
      destruct (PublicKeys s) as [t|] eqn:Hdb;
        [|eexists; split; [reflexivity | now left]].
      destruct (D1.findFirst _ t) as [r|] eqn:Hr;
        [|eexists; split; [reflexivity | now left]].
      destruct (key_decodes w p) eqn:Hk;
        [|eexists; split; [reflexivity | now left]].
      destruct (verifies w p) eqn:Hv;
        [|eexists; split; [reflexivity | now left]].
      destruct (SendToGate_shape w (DoorRequestPayload.action p) env
                  (log s [lookup_event p; import_event p; verify_event p true]))
        as [evs [Hrun Hev]].
      rewrite Hrun, log_log. eexists. split; [reflexivity|].
      destruct Hev as [Hnone | [v [Hmint [_ ->]]]].
      * left. rewrite dispatches_app, Hnone. reflexivity.
      * right. exists p, v. repeat split; auto. congruence.
    + destruct (GateHandler_no_payload w request env s Hp) as [e ->].
      exists []. rewrite log_nil. split; [reflexivity | now left].
  - assert (Hne : method request <> lit "PATCH").
    { intro H. apply str_eqb_eq in H. congruence. }
    rewrite (fetch_gate_other w request env Hpath Hne).
    exists []. rewrite log_nil. split; [reflexivity | now left].
Qed.



(** * C3: malformed key or signature bytes *)

(** C3 does not hold for a key that does not decode.  The key [not a key]
    is registered and trusted; [importKey] rejects its bytes: the handler
    ends with the [DataError] of [importKey], not with the 401 response. *)
Lemma C3_malformed_key_faults :
  payload_of (Sample.door_request (lit "OPEN") Sample.malformed_key)
  = Some (Sample.door_payload (lit "OPEN") Sample.malformed_key) /\
  trust_lookup (start (Some (Sample.registry Sample.malformed_key 1)))
               (Sample.door_payload (lit "OPEN") Sample.malformed_key) <> None /\
  key_decodes (Sample.world false false 200)
              (Sample.door_payload (lit "OPEN") Sample.malformed_key) = false /\
  snd (fetch (Sample.world false false 200)
             (Sample.door_request (lit "OPEN") Sample.malformed_key)
             (Sample.env "PRODUCTION")
             (start (Some (Sample.registry Sample.malformed_key 1))))
  = Thrown DataError /\
  snd (fetch (Sample.world false false 200)
             (Sample.door_request (lit "OPEN") Sample.malformed_key)
             (Sample.env "PRODUCTION")
             (start (Some (Sample.registry Sample.malformed_key 1))))
  <> Returned GetUnauthorizedResponse.
Proof.
  repeat split; try reflexivity; discriminate.
Qed.

(** C3, as the code has it.  For a [PATCH /gate] request whose key passes the
    trust lookup: when [importKey] cannot decode the key bytes, its
    [DataError] leaves the handler uncaught (no response is built, nothing is
    dispatched); when the key decodes, every signature that [verify] rejects,
    malformed or mismatching, gets the generic 401 response. *)
Theorem C3_malformed_key_faults_bad_signature_unauthorized
    (w : World) (request : Request) (env : Env) (s : State)
    (p : DoorRequestPayload.t) :
  pathname request = lit "/gate" ->
  method request = lit "PATCH" ->
  payload_of request = Some p ->
  trust_lookup s p <> None ->
  (key_decodes w p = false ->
   fetch w request env s
   = (log s [lookup_event p; import_event p], Thrown DataError)) /\
  (key_decodes w p = true -> verifies w p = false ->
   fetch w request env s
   = (log s [lookup_event p; import_event p; verify_event p false],
      Returned GetUnauthorizedResponse)).
Proof.
  intros Hpath Hmeth Hp Ht.
  rewrite (fetch_gate_PATCH w request env Hpath Hmeth).
  rewrite (GateHandler_steps w request env s p Hp).
  lookup_succeeded Ht.
  split.
  - intros ->. reflexivity.
  - intros -> ->. reflexivity.
Qed.

Lemma C3_witness :
  fetch (Sample.world true false 200)
        (Sample.door_request (lit "OPEN") Sample.key) (Sample.env "PRODUCTION")
        (start (Some (Sample.registry Sample.key 1)))
  = (log (start (Some (Sample.registry Sample.key 1)))
         [lookup_event (Sample.door_payload (lit "OPEN") Sample.key);
          import_event (Sample.door_payload (lit "OPEN") Sample.key);
          verify_event (Sample.door_payload (lit "OPEN") Sample.key) false],
     Returned GetUnauthorizedResponse).
Proof.
  assert (Ht : trust_lookup (start (Some (Sample.registry Sample.key 1)))
                 (Sample.door_payload (lit "OPEN") Sample.key) <> None)
    by discriminate.
  exact (proj2 (C3_malformed_key_faults_bad_signature_unauthorized
                  (Sample.world true false 200)
                  (Sample.door_request (lit "OPEN") Sample.key)
                  (Sample.env "PRODUCTION")
                  (start (Some (Sample.registry Sample.key 1)))
                  (Sample.door_payload (lit "OPEN") Sample.key)
                  eq_refl eq_refl eq_refl Ht) eq_refl eq_refl).
Defined.

(** * C4: the nonce *)

Lemma round_to_double_bounds (p : Z) :
  0 <= p < 2 ^ 83 ->
  0 <= round_to_double p /\ p - 2 ^ 29 <= round_to_double p <= p + 2 ^ 29.
Proof.
  intros [Hp0 Hp].
  unfold round_to_double.
  destruct (Z.leb_spec (Z.log2 p + 1 - 53) 0) as [Hs|Hs]; [lia|].
  set (s := Z.log2 p + 1 - 53) in *.
  assert (Hp1 : 0 < p).
  { destruct (Z.eq_dec p 0) as [->|]; [simpl in s; lia | lia]. }
  assert (Hlog : Z.log2 p < 83) by (apply Z.log2_lt_pow2; lia).
  rewrite Z.shiftl_mul_pow2, Z.shiftr_div_pow2 by lia.
  assert (Hpow : 0 < 2 ^ s) by (apply Z.pow_pos_nonneg; lia).
  assert (Hhalf : 2 ^ s = 2 * 2 ^ (s - 1)).
  { replace s with (Z.succ (s - 1)) at 1 by lia. apply Z.pow_succ_r. lia. }
  assert (Hle : 2 ^ (s - 1) <= 2 ^ 29) by (apply Z.pow_le_mono_r; lia).
  pose proof (Z.div_mod p (2 ^ s) ltac:(lia)) as Hdm.
  pose proof (Z.mod_pos_bound p (2 ^ s) Hpow) as Hmod.
  assert (Hq : 0 <= p / 2 ^ s) by (apply Z.div_pos; lia).
  destruct ((2 ^ (s - 1) <? p mod 2 ^ s)
            || ((p mod 2 ^ s =? 2 ^ (s - 1)) && Z.odd (p / 2 ^ s))) eqn:E.
  - assert (2 ^ (s - 1) <= p mod 2 ^ s).
    { apply orb_true_iff in E. destruct E as [E|E].
      - apply Z.ltb_lt in E. lia.
      - apply andb_true_iff in E. destruct E as [E _]. apply Z.eqb_eq in E. lia. }
    nia.
  - assert (p mod 2 ^ s <= 2 ^ (s - 1)).
    { apply orb_false_iff in E. destruct E as [E _]. apply Z.ltb_ge in E. lia. }
    nia.
Qed.

(** The nonce of every draw is below the multiplier. *)
Lemma drawn_nonce_range (k : Z) :
  valid_draw k -> 0 <= drawn_nonce k < 1000000000.
Proof.
  unfold valid_draw, drawn_nonce, Math_floor, double_mul, random_bits.
  intros [Hk0 Hk].
  assert (Hp : 0 <= k * 1000000000 < 2 ^ 83) by lia.
  destruct (round_to_double_bounds _ Hp) as [H0 [_ Hup]].
  rewrite Z.shiftr_div_pow2 by lia.
  split.
  - apply Z.div_pos; lia.
  - apply Z.div_lt_upper_bound; lia.
Qed.

(** C4 asks for the whole 32-bit space; the value [2^32 - 1] is a 32-bit
    unsigned integer that no draw produces. *)
Lemma C4_nonce_space_not_full :
  uint32 4294967295 /\
  ~ (exists k, valid_draw k /\ drawn_nonce k = 4294967295).
Proof.
  split; [unfold uint32; lia|].
  intros [k [Hk Hn]]. pose proof (drawn_nonce_range k Hk). lia.
Qed.

(** What [SendToGate] sends on a fresh log: nothing, or the envelope of the
    command minted from the clock and the draw. *)
Lemma SendToGate_dispatched (w : World) (action : jsstring) (env : Env)
    (db : D1.D1Database) (o : Outbound) :
  In o (dispatches (calls (fst (SendToGate w action env (start db))))) ->
  exists v, mint action (clock w) (random w) = Some v /\ o = dispatch w env v.
Proof.
  destruct (SendToGate_shape w action env (start db)) as [evs [-> Hev]].
  simpl. destruct Hev as [-> | [v [Hm [_ ->]]]]; [contradiction|].
  rewrite send_events_dispatch. intros [<-|[]]. exists v. auto.
Qed.

Lemma SendToGate_sends (w : World) (action : jsstring) (env : Env)
    (db : D1.D1Database) (v : ValueToGate.t) :
  secret_decodes w env = true ->
  mint action (clock w) (random w) = Some v ->
  dispatches (calls (fst (SendToGate w action env (start db)))) = [dispatch w env v].
Proof.
  intros Hs Hm. rewrite SendToGate_steps, Hs, Hm.
  now destruct (gate w (dispatch w env v)).
Qed.

Lemma mint_nonce (action : jsstring) (now k : Z) (v : ValueToGate.t) :
  mint action now k = Some v -> ValueToGate.nonce v = drawn_nonce k.
Proof.
  unfold mint. destruct (toISOString _); [|discriminate].
  intro H. injection H as <-. reflexivity.
Qed.

(** C4, as the code has it.  The nonce of every command sent to the gate is
    [Math.floor(Math.random() * 1000000000)] for the draw of that run: a
    non-negative integer below 1,000,000,000.  It fits in 32 bits, it is a
    function of the draw alone (no counter, no stored state), and the values
    from 1,000,000,000 up to [2^32 - 1] never occur. *)
Theorem C4_nonce_below_one_billion
    (w : World) (action : jsstring) (env : Env) (db : D1.D1Database) (o : Outbound) :
  valid_draw (random w) ->
  In o (dispatches (calls (fst (SendToGate w action env (start db))))) ->
  exists v,
    o = dispatch w env v /\
    mint action (clock w) (random w) = Some v /\
    ValueToGate.nonce v = drawn_nonce (random w) /\
    0 <= ValueToGate.nonce v < 1000000000 /\
    uint32 (ValueToGate.nonce v).
Proof.
  intros Hk Hin.
  destruct (SendToGate_dispatched w action env db o Hin) as [v [Hm Ho]].
  exists v. pose proof (mint_nonce _ _ _ _ Hm) as Hn.
  pose proof (drawn_nonce_range _ Hk) as Hr.
  repeat split; auto; rewrite Hn; lia.
Qed.

Lemma C4_witness :
  exists v,
    dispatch (Sample.world true true 200) (Sample.env "PRODUCTION")
      {| ValueToGate.action := lit "OPEN";
         ValueToGate.expiry := lit "2023-11-14T22:14:20.123Z";
         ValueToGate.nonce := 500000000 |}
    = dispatch (Sample.world true true 200) (Sample.env "PRODUCTION") v /\
    mint (lit "OPEN") (clock (Sample.world true true 200))
         (random (Sample.world true true 200)) = Some v /\
    ValueToGate.nonce v = drawn_nonce (random (Sample.world true true 200)) /\
    0 <= ValueToGate.nonce v < 1000000000 /\
    uint32 (ValueToGate.nonce v).
Proof.
  apply (C4_nonce_below_one_billion
           (Sample.world true true 200) (lit "OPEN") (Sample.env "PRODUCTION")
           (Some (Sample.registry Sample.key 1))).
  - unfold valid_draw, random_bits. simpl. lia.
  - left. vm_compute. reflexivity.
Defined.

(** * C5: the expiry *)

(** [setMinutes(getMinutes() + 1)] rebuilds the time value from its day,
    hour, minute plus one, second and millisecond: one minute later. *)
Lemma next_minute (t : Z) :
  MakeDate (Day (LocalTime t))
    (MakeTime (HourFromTime (LocalTime t)) (MinFromTime (LocalTime t) + 1)
              (SecFromTime (LocalTime t)) (msFromTime (LocalTime t)))
  = t + msPerMinute.
Proof.
  unfold MakeDate, MakeTime, Day, HourFromTime, MinFromTime, SecFromTime, msFromTime,
    LocalTime, LocalTZA, msPerDay, msPerHour, msPerMinute, msPerSecond.
  rewrite Z.add_0_r.
  Z.div_mod_to_equations; lia.
Qed.

Lemma setMinutes_next_minute (now : Z) :
  setMinutes (new_Date now) (option_map (fun m => m + 1) (getMinutes (new_Date now)))
  = TimeClip (now + msPerMinute).
Proof.
  unfold new_Date, getMinutes, setMinutes, option_map.
  rewrite next_minute. unfold UTC, LocalTZA. now rewrite Z.sub_0_r.
Qed.

Lemma TimeClip_some (t u : Z) : TimeClip t = Some u -> u = t /\ valid_time t.
Proof.
  unfold TimeClip, valid_time.
  destruct (Z.ltb_spec maxTimeValue (Z.abs t)) as [Hlt|Hle]; [discriminate|].
  intro E. injection E as <-. auto.
Qed.

Lemma TimeClip_valid (t : Z) : valid_time t -> TimeClip t = Some t.
Proof.
  unfold TimeClip, valid_time. intro Hv.
  destruct (Z.ltb_spec maxTimeValue (Z.abs t)) as [Hlt|Hle]; [lia | reflexivity].
Qed.

Lemma mint_expiry (action : jsstring) (now k : Z) (v : ValueToGate.t) :
  mint action now k = Some v ->
  valid_time (now + msPerMinute) /\
  ValueToGate.expiry v = iso_string (now + msPerMinute).
Proof.
  unfold mint. rewrite setMinutes_next_minute.
  destruct (TimeClip (now + msPerMinute)) as [e|] eqn:He; [|discriminate].
  apply TimeClip_some in He. destruct He as [-> Hv]. simpl.
  intro H. injection H as <-. auto.
Qed.

Lemma mint_total (action : jsstring) (now k : Z) :
  valid_time (now + msPerMinute) -> exists v, mint action now k = Some v.
Proof.
  intro Hv. unfold mint. rewrite setMinutes_next_minute, (TimeClip_valid _ Hv).
  simpl. eauto.
Qed.

(** C5.  The [Date] whose ISO string is the [expiry] of an envelope is the
    creation time plus exactly one minute (60000 ms), hence strictly later:
    [setMinutes(getMinutes() + 1)] moves the clock value [now] to
    [now + 60000], every envelope sent carries the ISO string of that time
    value, and an envelope is sent whenever that time value is one a [Date]
    can hold and the shared secret imports. *)
Theorem C5_expiry_is_creation_plus_one_minute
    (w : World) (action : jsstring) (env : Env) (db : D1.D1Database) :
  valid_time (clock w) ->
  setMinutes (new_Date (clock w))
             (option_map (fun m => m + 1) (getMinutes (new_Date (clock w))))
  = TimeClip (clock w + 60000) /\
  (forall o, In o (dispatches (calls (fst (SendToGate w action env (start db))))) ->
     exists v, o = dispatch w env v /\
       TimeClip (clock w + 60000) = Some (clock w + 60000) /\
       toISOString (Some (clock w + 60000)) = Some (ValueToGate.expiry v) /\
       clock w < clock w + 60000) /\
  (clock w + 60000 <= maxTimeValue -> secret_decodes w env = true ->
     exists v, dispatches (calls (fst (SendToGate w action env (start db))))
               = [dispatch w env v]).
Proof.
  intro Hnow. change 60000 with msPerMinute. split; [|split].
  - apply setMinutes_next_minute.
  - intros o Hin.
    destruct (SendToGate_dispatched w action env db o Hin) as [v [Hm Ho]].
    exists v. destruct (mint_expiry _ _ _ _ Hm) as [Hv He].
    repeat split; auto.
    + now apply TimeClip_valid.
    + simpl. now rewrite He.
    + unfold msPerMinute. lia.
  - intros Hmax Hs.
    assert (Hv : valid_time (clock w + msPerMinute)).
    { unfold valid_time, msPerMinute in *. lia. }
    destruct (mint_total action (clock w) (random w) Hv) as [v Hm].
    exists v. now apply SendToGate_sends.
Qed.

Lemma C5_witness :
  exists v,
    dispatch (Sample.world true true 200) (Sample.env "PRODUCTION")
      {| ValueToGate.action := lit "OPEN";
         ValueToGate.expiry := lit "2023-11-14T22:14:20.123Z";
         ValueToGate.nonce := 500000000 |}
    = dispatch (Sample.world true true 200) (Sample.env "PRODUCTION") v /\
    TimeClip (clock (Sample.world true true 200) + 60000)
    = Some (clock (Sample.world true true 200) + 60000) /\
    toISOString (Some (clock (Sample.world true true 200) + 60000))
    = Some (ValueToGate.expiry v) /\
    clock (Sample.world true true 200) < clock (Sample.world true true 200) + 60000.
Proof.
  assert (Hnow : valid_time (clock (Sample.world true true 200))).
  { unfold valid_time, maxTimeValue. simpl. lia. }
  apply (proj1 (proj2 (C5_expiry_is_creation_plus_one_minute
                         (Sample.world true true 200) (lit "OPEN")
                         (Sample.env "PRODUCTION")
                         (Some (Sample.registry Sample.key 1)) Hnow))).
  left. vm_compute. reflexivity.
Defined.

(** * C6: the outcome of a dispatch *)

Lemma sent_successfully_body (a : DoorAction) :
  body (sent_successfully (DoorAction_value a))
  = quoted "{'status':'success','message':'Gate action "
    ++ DoorAction_value a ++ quoted " sent successfully'}".
Proof. destruct a; reflexivity. Qed.

(** C6.  When the envelope goes out and the gate answers [r]: the run makes
    one [fetch] and no second one; if [r.ok] (a status from 200 to 299) the
    caller gets 200 with
    [{"status":"success","message":"Gate action <ACTION> sent successfully"}],
    otherwise the caller gets [r] itself, status, headers and body. *)
Theorem C6_dispatch_outcome
    (w : World) (action : jsstring) (env : Env) (s : State)
    (v : ValueToGate.t) (r : Response) :
  secret_decodes w env = true ->
  mint action (clock w) (random w) = Some v ->
  gate w (dispatch w env v) = Some r ->
  exists out,
    SendToGate w action env s
    = (log s [hmac_import_event env; sign_event env v; Fetch (dispatch w env v)],
       Returned out) /\
    dispatches [hmac_import_event env; sign_event env v; Fetch (dispatch w env v)]
    = [dispatch w env v] /\
    (ok r = true ->
       out = NewJsonResponse 200
               (JObj [(lit "status", JStr (lit "success"));
                      (lit "message",
                       JStr (lit "Gate action " ++ action ++ lit " sent successfully"))]) /\
       status out = 200 /\
       forall a, action = DoorAction_value a ->
         body out = quoted "{'status':'success','message':'Gate action "
                    ++ DoorAction_value a ++ quoted " sent successfully'}") /\
    (ok r = false -> out = r).
Proof.
  intros Hs Hm Hg.
  exists (if ok r then sent_successfully action else r).
  split; [|split; [reflexivity | split]].
  - rewrite SendToGate_steps, Hs, Hm, Hg. reflexivity.
  - intros ->. split; [reflexivity | split; [reflexivity|]].
    intros a ->. apply sent_successfully_body.
  - intros ->. reflexivity.
Qed.

Lemma C6_witness :
  exists out,
    SendToGate (Sample.world true true 503) (lit "OPEN") (Sample.env "PRODUCTION")
               (start (Some (Sample.registry Sample.key 1)))
    = (log (start (Some (Sample.registry Sample.key 1)))
           [hmac_import_event (Sample.env "PRODUCTION");
            sign_event (Sample.env "PRODUCTION")
              {| ValueToGate.action := lit "OPEN";
                 ValueToGate.expiry := lit "2023-11-14T22:14:20.123Z";
                 ValueToGate.nonce := 500000000 |};
            Fetch (dispatch (Sample.world true true 503) (Sample.env "PRODUCTION")
                     {| ValueToGate.action := lit "OPEN";
                        ValueToGate.expiry := lit "2023-11-14T22:14:20.123Z";
                        ValueToGate.nonce := 500000000 |})],
       Returned out) /\
    out = Sample.gate_answer 503.
Proof.
  destruct (C6_dispatch_outcome
              (Sample.world true true 503) (lit "OPEN") (Sample.env "PRODUCTION")
              (start (Some (Sample.registry Sample.key 1)))
              {| ValueToGate.action := lit "OPEN";
                 ValueToGate.expiry := lit "2023-11-14T22:14:20.123Z";
                 ValueToGate.nonce := 500000000 |}
              (Sample.gate_answer 503) eq_refl eq_refl eq_refl)
    as [out [Hrun [_ [_ Hfail]]]].
  exists out. split; [exact Hrun | exact (Hfail eq_refl)].
Defined.

(** * C7: what is verified *)





(** * C8: actions outside the enum *)




(** * C9: the registry outside development *)

Lemma PublicKeyPostHandler_new_key (request : Request) (env : Env)
    (s : State) (t : D1.Table) :
  PublicKeys s = Some t ->
  key_absent (text request) t ->
  PublicKeyPostHandler request env s
  = ({| PublicKeys := Some (D1.insert (text request) 0 t);
        calls := calls s ++ [Query (D1.Select (with_key (text request)));
                             Query (D1.Insert (text request) 0)] |},
     Returned (NewJsonResponse 200
                 (JObj [(lit "status", JStr (lit "success"));
                        (lit "key", JStr (text request));
                        (lit "message", JStr (lit "Key added"))]))).
Proof.
  intros Ht Habs. destruct s as [db cs]. simpl in Ht. subst db.
  unfold PublicKeyPostHandler, request_text, bind. unfold ret at 1.
  unfold db_findFirst, on_table, bind, emit. simpl.
  assert (Hnone : D1.findFirst (D1.Eq D1.col_key (D1.SqlText (text request))) t = None).
  { apply find_none_iff. intros r Hr. simpl. apply str_eqb_neq. now apply Habs. }
  rewrite Hnone. unfold db_insert, on_table, bind, emit, ret. simpl.
  unfold with_key. now rewrite <- app_assoc.
Qed.

(** C9.  With [ENVIRONMENT] different from [DEVELOPMENT], [GET], [DELETE]
    and [PATCH] on [/publicKey] and [PUT] on [/table] answer 403
    [{"status":"failed","message":"Not allowed in production"}] without
    touching the database.  [POST /publicKey] is routed to the registration
    handler whatever [ENVIRONMENT] is, and registering a new key appends a row
    with [trusted = 0] and answers 200. *)
Theorem C9_registry_closed_outside_development_except_POST
    (w : World) (request : Request) (env : Env) (s : State) :
  (ENVIRONMENT env <> lit "DEVELOPMENT" ->
   (pathname request = lit "/publicKey" /\
    (method request = lit "GET" \/ method request = lit "DELETE" \/
     method request = lit "PATCH")) \/
   (pathname request = lit "/table" /\ method request = lit "PUT") ->
   fetch w request env s = (s, Returned GetNotProductionResponse) /\
   status GetNotProductionResponse = 403 /\
   body GetNotProductionResponse
   = quoted "{'status':'failed','message':'Not allowed in production'}") /\
  (pathname request = lit "/publicKey" -> method request = lit "POST" ->
   fetch w request env = PublicKeyPostHandler request env /\
   forall t, PublicKeys s = Some t -> key_absent (text request) t ->
     fetch w request env s
     = ({| PublicKeys :=
             Some {| D1.rows := D1.rows t ++
                                [{| D1.id := D1.last_id t + 1;
                                    D1.key := text request;
                                    D1.trusted := 0 |}];
                     D1.last_id := D1.last_id t + 1 |};
           calls := calls s ++ [Query (D1.Select (with_key (text request)));
                                Query (D1.Insert (text request) 0)] |},
        Returned (NewJsonResponse 200
                    (JObj [(lit "status", JStr (lit "success"));
                           (lit "key", JStr (text request));
                           (lit "message", JStr (lit "Key added"))])))).
Proof.
  split.
  - intros Henv Hop. split; [|split; reflexivity].
    apply str_eqb_neq in Henv.
    unfold fetch, matches. rewrite Henv.
    destruct Hop as [[Hp [Hm|[Hm|Hm]]] | [Hp Hm]]; rewrite Hp, Hm; reflexivity.
  - intros Hp Hm.
    assert (Hroute : fetch w request env = PublicKeyPostHandler request env).
    { unfold fetch, matches. rewrite Hp, Hm. reflexivity. }
    split; [exact Hroute|].
    intros t Ht Habs. rewrite Hroute.
    now rewrite (PublicKeyPostHandler_new_key request env s t Ht Habs).
Qed.

Lemma C9_witness :
  fetch (Sample.world true true 200)
        (Sample.json_request "/publicKey" "PATCH" (Sample.update_body Sample.key true))
        (Sample.env "PRODUCTION")
        (start (Some (Sample.registry Sample.key 0)))
  = (start (Some (Sample.registry Sample.key 0)), Returned GetNotProductionResponse) /\
  fetch (Sample.world true true 200)
        (Sample.text_request "/publicKey" "POST" Sample.other_key)
        (Sample.env "PRODUCTION")
        (start (Some (Sample.registry Sample.key 0)))
  = ({| PublicKeys :=
          Some {| D1.rows := [{| D1.id := 1; D1.key := Sample.key; D1.trusted := 0 |};
                              {| D1.id := 2; D1.key := Sample.other_key; D1.trusted := 0 |}];
                  D1.last_id := 2 |};
        calls := [Query (D1.Select (with_key Sample.other_key));
                  Query (D1.Insert Sample.other_key 0)] |},
     Returned (NewJsonResponse 200
                 (JObj [(lit "status", JStr (lit "success"));
                        (lit "key", JStr Sample.other_key);
                        (lit "message", JStr (lit "Key added"))]))).
Proof.
  pose proof (C9_registry_closed_outside_development_except_POST
                (Sample.world true true 200)
                (Sample.json_request "/publicKey" "PATCH"
                   (Sample.update_body Sample.key true))
                (Sample.env "PRODUCTION")
                (start (Some (Sample.registry Sample.key 0)))) as [Hclosed _].
  pose proof (C9_registry_closed_outside_development_except_POST
                (Sample.world true true 200)
                (Sample.text_request "/publicKey" "POST" Sample.other_key)
                (Sample.env "PRODUCTION")
                (start (Some (Sample.registry Sample.key 0)))) as [_ Hpost].
  split.
  - apply Hclosed; [discriminate|]. left. split; [reflexivity|].
    right. right. reflexivity.
  - destruct (Hpost eq_refl eq_refl) as [_ Hnew].
    apply (Hnew (Sample.registry Sample.key 0) eq_refl).
    intros r [<-|[]]. discriminate.
Defined.

(** * C10: updating a key that is not there *)

Lemma update_absent (tr : Z) (k' k : jsstring) (t : D1.Table) :
  key_absent k t -> D1.update tr k' (with_key k) t = t.
Proof.
  intro Habs. destruct t as [rows last]. unfold D1.update. simpl. f_equal.
  unfold key_absent in Habs. simpl in Habs.
  induction rows as [|r rows IH]; [reflexivity|]. simpl.
  rewrite (str_eqb_neq _ _ (Habs r (or_introl eq_refl))).
  f_equal. apply IH. intros r' Hr'. apply Habs. now right.
Qed.

(** C10.  [PublicKeyUpdateHandler] sends one statement, the update (no
    select before it), and answers 200 with [status] [success] and [message]
    [Key updated] (after [newKey], the body it received) whether or not a
    row carries the key; when none does, the table is left as it was. *)
Theorem C10_update_of_absent_key_reports_success
    (request : Request) (env : Env) (s : State)
    (j : json) (updateTo : KeyStore.t) (t : D1.Table) :
  json_body request = Some j ->
  KeyStore_of j = Some updateTo ->
  PublicKeys s = Some t ->
  let stmt := D1.Update (toInt (KeyStore.trusted updateTo)) (KeyStore.key updateTo)
                        (with_key (KeyStore.key updateTo)) in
  let response := NewJsonResponse 200
                    (JObj [(lit "newKey", j);
                           (lit "status", JStr (lit "success"));
                           (lit "message", JStr (lit "Key updated"))]) in
  PublicKeyUpdateHandler request env s
  = ({| PublicKeys := Some (D1.update (toInt (KeyStore.trusted updateTo))
                              (KeyStore.key updateTo)
                              (with_key (KeyStore.key updateTo)) t);
        calls := calls s ++ [Query stmt] |},
     Returned response) /\
  status response = 200 /\
  (key_absent (KeyStore.key updateTo) t ->
   PublicKeyUpdateHandler request env s = (log s [Query stmt], Returned response)).
Proof.
  intros Hj Hu Ht stmt response.
  assert (Hrun : PublicKeyUpdateHandler request env s
                 = ({| PublicKeys := Some (D1.update (toInt (KeyStore.trusted updateTo))
                                             (KeyStore.key updateTo)
                                             (with_key (KeyStore.key updateTo)) t);
                       calls := calls s ++ [Query stmt] |},
                    Returned response)).
  { destruct s as [db cs]. simpl in Ht. subst db.
    unfold PublicKeyUpdateHandler, request_json, typed, bind.
    rewrite Hj. unfold ret at 1. rewrite Hu. unfold ret at 1.
    unfold db_update, on_table, bind, emit, ret. simpl. reflexivity. }
  split; [exact Hrun | split; [reflexivity|]].
  intro Habs. rewrite Hrun, (update_absent _ _ _ _ Habs).
  unfold log. now rewrite Ht.
Qed.

Lemma C10_witness :
  PublicKeyUpdateHandler
    (Sample.json_request "/publicKey" "PATCH" (Sample.update_body Sample.other_key true))
    (Sample.env "DEVELOPMENT")
    (start (Some (Sample.registry Sample.key 0)))
  = (log (start (Some (Sample.registry Sample.key 0)))
         [Query (D1.Update 1 Sample.other_key (with_key Sample.other_key))],
     Returned (NewJsonResponse 200
                 (JObj [(lit "newKey", Sample.update_body Sample.other_key true);
                        (lit "status", JStr (lit "success"));
                        (lit "message", JStr (lit "Key updated"))]))).
Proof.
  pose proof (C10_update_of_absent_key_reports_success
                (Sample.json_request "/publicKey" "PATCH"
                   (Sample.update_body Sample.other_key true))
                (Sample.env "DEVELOPMENT")
                (start (Some (Sample.registry Sample.key 0)))
                (Sample.update_body Sample.other_key true)
                {| KeyStore.key := Sample.other_key; KeyStore.trusted := true |}
                (Sample.registry Sample.key 0)
                eq_refl eq_refl eq_refl) as H.
  cbv zeta in H. destruct H as [_ [_ Habsent]].
  apply Habsent. intros r [<-|[]]. discriminate.
Defined.

(* ================================================================== *)
(** * Further properties of the registry *)
(* ================================================================== *)

(** ** The registry handlers, call by call *)


Lemma PublicKeyPostHandler_steps (request : Request) (env : Env) (s : State) :
  PublicKeyPostHandler request env s =
  match PublicKeys s with
  | None => (log s [Query (D1.Select (with_key (text request)))], Thrown D1Error)
  | Some t =>
      match D1.findFirst (with_key (text request)) t with
      | Some _ => (log s [Query (D1.Select (with_key (text request)))],
                   Returned (NewJsonResponse 409 (failed "Key already exists")))
      | None =>
          ({| PublicKeys := Some (D1.insert (text request) 0 t);
              calls := calls s ++ [Query (D1.Select (with_key (text request)));
                                   Query (D1.Insert (text request) 0)] |},
           Returned (NewJsonResponse 200
                       (JObj [(lit "status", JStr (lit "success"));
                              (lit "key", JStr (text request));
                              (lit "message", JStr (lit "Key added"))])))
      end
  end.
Proof.
  destruct s as [db cs].
  unfold PublicKeyPostHandler, request_text, bind. unfold ret at 1.
  unfold db_findFirst, on_table, bind, emit. simpl.
  fold (with_key (text request)).
  destruct db as [t|]; [|reflexivity].
  destruct (D1.findFirst _ t); [reflexivity|].
  unfold db_insert, on_table, bind, emit, ret. simpl.
  now rewrite <- app_assoc.
Qed.

Lemma PublicKeyDeleteHandler_steps (request : Request) (env : Env) (s : State) :
  PublicKeyDeleteHandler request env s =
  match PublicKeys s with
  | None => (log s [Query (D1.Select (with_key (text request)))], Thrown D1Error)
  | Some t =>
      match D1.findFirst (with_key (text request)) t with
      | None => (log s [Query (D1.Select (with_key (text request)))],
                 Returned (NewJsonResponse 404 (failed "Key not found")))
      | Some _ =>
          ({| PublicKeys := Some (D1.delete (with_key (text request)) t);
              calls := calls s ++ [Query (D1.Select (with_key (text request)));
                                   Query (D1.Delete (with_key (text request)))] |},
           Returned (NewJsonResponse 200
                       (JObj [(lit "status", JStr (lit "success"));
                              (lit "key", JStr (text request));
                              (lit "message", JStr (lit "Key deleted"))])))
      end
  end.
Proof.
  destruct s as [db cs].
  unfold PublicKeyDeleteHandler, request_text, bind. unfold ret at 1.
  unfold db_findFirst, on_table, bind, emit. simpl.
  fold (with_key (text request)).
  destruct db as [t|]; [|reflexivity].
  destruct (D1.findFirst _ t); [|reflexivity].
  unfold db_delete, on_table, bind, emit, ret. simpl.
  now rewrite <- app_assoc.
Qed.

Lemma PublicKeyUpdateHandler_steps (request : Request) (env : Env) (s : State) :
  PublicKeyUpdateHandler request env s =
  match json_body request with
  | None => (s, Thrown SyntaxError)
  | Some j =>
      match KeyStore_of j with
      | None => (s, Thrown TypeError)
      | Some u =>
          match PublicKeys s with
          | None => (log s [Query (update_statement u)], Thrown D1Error)
          | Some t =>
              ({| PublicKeys := Some (D1.update (toInt (KeyStore.trusted u)) (KeyStore.key u)
                                        (with_key (KeyStore.key u)) t);
                  calls := calls s ++ [Query (update_statement u)] |},
               Returned (NewJsonResponse 200
                           (JObj [(lit "newKey", j);
                                  (lit "status", JStr (lit "success"));
                                  (lit "message", JStr (lit "Key updated"))])))
          end
      end
  end.
Proof.
  destruct s as [db cs].
  unfold PublicKeyUpdateHandler, request_json, typed, bind.
  destruct (json_body request) as [j|]; [|reflexivity].
  unfold ret at 1. destruct (KeyStore_of j) as [u|]; [|reflexivity].
  unfold ret at 1. unfold db_update, on_table, bind, emit, ret. simpl.
  destruct db as [t|]; reflexivity.
Qed.

Lemma PublicKeyGetHandler_steps (request : Request) (env : Env) (s : State) :
  PublicKeyGetHandler request env s =
  match PublicKeys s with
  | None => (log s [Query D1.SelectAll], Thrown D1Error)
  | Some t =>
      (log s [Query D1.SelectAll],
       Returned
         match D1.rows t with
         | [] => NewJsonResponse 404 (failed "No keys found")
         | _ :: _ =>
             NewJsonResponse 200
               (JObj [(lit "status", JStr (lit "success"));
                      (lit "keys",
                       JArr (map (fun key =>
                                    JObj [(lit "key", JStr (D1.key key));
                                          (lit "trusted", JBool (negb (D1.trusted key =? 0)))])
                                 (D1.rows t)))])
         end)
  end.
Proof.
  destruct s as [db cs].
  unfold PublicKeyGetHandler, db_findMany, on_table, bind, emit. simpl.
  destruct db as [t|]; [|reflexivity].
  unfold D1.findMany, log. simpl. destruct (D1.rows t); reflexivity.
Qed.

Lemma TableHandler_steps (request : Request) (env : Env) (s : State) :
  TableHandler request env s =
  ({| PublicKeys := D1.create_table_if_not_exists (PublicKeys s);
      calls := calls s ++ [Query D1.CreateTable] |},
   Returned (NewJsonResponse 200
               (JObj [(lit "status", JStr (lit "success"));
                      (lit "message", JStr (lit "Table created or already exists"))]))).
Proof.
  destruct s as [db cs]. reflexivity.
Qed.

(** ** What a request can do to the table *)

Lemma holds_with_key (k : jsstring) (r : D1.Row) :
  D1.holds (with_key k) r = true <-> D1.key r = k.
Proof. simpl. apply str_eqb_eq. Qed.

Lemma findFirst_with_key_none (k : jsstring) (t : D1.Table) :
  D1.findFirst (with_key k) t = None <-> key_absent k t.
Proof.
  unfold D1.findFirst, key_absent. rewrite find_none_iff. split; intros H r Hr.
  - intro E. apply holds_with_key in E. rewrite (H r Hr) in E. discriminate.
  - destruct (D1.holds (with_key k) r) eqn:E; [|reflexivity].
    apply holds_with_key in E. now apply H in Hr.
Qed.

Lemma key_absent_not_in (k : jsstring) (t : D1.Table) :
  key_absent k t <-> ~ In k (keys t).
Proof.
  unfold key_absent, keys. rewrite in_map_iff. split.
  - intros H [r [E Hr]]. now apply (H r Hr).
  - intros H r Hr E. apply H. now exists r.
Qed.

Lemma GateHandler_db (w : World) (request : Request) (env : Env) (s : State) :
  PublicKeys (fst (GateHandler w request env s)) = PublicKeys s.
Proof.
  destruct (payload_of request) as [p|] eqn:Hp.
  - rewrite (GateHandler_steps w request env s p Hp).
    destruct (PublicKeys s) as [t|] eqn:Hdb; [|simpl; auto].
    destruct (D1.findFirst _ t); [|simpl; auto].
    destruct (key_decodes w p); [|simpl; auto].
    destruct (verifies w p); [|simpl; auto].
    destruct (SendToGate_shape w (DoorRequestPayload.action p) env
                (log s [lookup_event p; import_event p; verify_event p true]))
      as [evs [-> _]].
    simpl. auto.
  - destruct (GateHandler_no_payload w request env s Hp) as [e ->]. reflexivity.
Qed.





Lemma insert_well_formed (k : jsstring) (t : D1.Table) :
  D1.findFirst (with_key k) t = None -> well_formed t -> well_formed (D1.insert k 0 t).
Proof.
  intros Hnone [Hk Hi Hb Hf].
  apply findFirst_with_key_none, key_absent_not_in in Hnone.
  split; unfold keys, ids, D1.insert in *; simpl; rewrite ?map_app; simpl.
  - apply NoDup_app; [exact Hk | repeat constructor; auto |].
    intros x Hx [<-|[]]. contradiction.
  - apply NoDup_app; [exact Hi | repeat constructor; auto |].
    intros x Hx [<-|[]]. rewrite Forall_forall in Hb. specialize (Hb _ Hx). simpl in Hb. lia.
  - apply Forall_app. split; [|repeat constructor; lia].
    eapply Forall_impl; [|exact Hb]. simpl. intros; lia.
  - apply Forall_app. split; [exact Hf | repeat constructor; auto].
Qed.






Lemma find_app_l {A} (f : A -> bool) (l l' : list A) :
  find f (l ++ l') = match find f l with
                     | Some x => Some x
                     | None => find f l'
                     end.
Proof.
  induction l as [|a l IH]; simpl; [reflexivity|]. now destruct (f a).
Qed.

Lemma find_filter_kept {A} (f g : A -> bool) (l : list A) :
  (forall x, In x l -> f x = true -> g x = true) ->
  find f (filter g l) = find f l.
Proof.
  induction l as [|a l IH]; simpl; intro H; [reflexivity|].
  destruct (f a) eqn:Ef.
  - rewrite (H a (or_introl eq_refl) Ef). simpl. now rewrite Ef.
  - destruct (g a); simpl; rewrite ?Ef; apply IH; intros x Hx; apply H; now right.
Qed.

Lemma find_map_unchanged {A} (f : A -> bool) (g : A -> A) (l : list A) :
  (forall x, In x l -> f (g x) = f x) ->
  (forall x, In x l -> f x = true -> g x = x) ->
  find f (map g l) = find f l.
Proof.
  induction l as [|a l IH]; simpl; intros H1 H2; [reflexivity|].
  rewrite (H1 a (or_introl eq_refl)).
  destruct (f a) eqn:Ef.
  - now rewrite (H2 a (or_introl eq_refl) Ef).
  - apply IH; intros x Hx; [apply H1 | apply H2]; now right.
Qed.

(** An appended row with [trusted = 0] changes no trust lookup. *)
Lemma lookup_after_insert (k k' : jsstring) (t : D1.Table) :
  D1.findFirst (trusted_key k') (D1.insert k 0 t) = D1.findFirst (trusted_key k') t.
Proof.
  unfold D1.findFirst, D1.insert. simpl. rewrite find_app_l.
  destruct (find _ (D1.rows t)); reflexivity.
Qed.

Lemma lookup_after_delete (k k' : jsstring) (t : D1.Table) :
  k' <> k ->
  D1.findFirst (trusted_key k') (D1.delete (with_key k) t)
  = D1.findFirst (trusted_key k') t.
Proof.
  intro Hne. unfold D1.findFirst, D1.delete. simpl. apply find_filter_kept.
  intros r _ Hr. simpl in Hr. apply andb_true_iff in Hr. destruct Hr as [_ Hk].
  apply str_eqb_eq in Hk. simpl. rewrite Hk. now rewrite (str_eqb_neq _ _ Hne).
Qed.

Lemma absent_after_delete (k : jsstring) (t : D1.Table) :
  key_absent k (D1.delete (with_key k) t).
Proof.
  intros r Hr E. unfold D1.delete in Hr. simpl in Hr. apply filter_In in Hr.
  destruct Hr as [_ Hr]. rewrite <- E, str_eqb_refl in Hr. discriminate.
Qed.

Lemma lookup_after_update_other (tr : Z) (k k' : jsstring) (t : D1.Table) :
  k' <> k ->
  D1.findFirst (trusted_key k') (D1.update tr k (with_key k) t)
  = D1.findFirst (trusted_key k') t.
Proof.
  intro Hne. unfold D1.findFirst, D1.update. simpl.
  assert (Hsame : forall r, D1.holds (trusted_key k') r = true ->
                            str_eqb (D1.key r) k = false).
  { intros r Hr. simpl in Hr. apply andb_true_iff in Hr. destruct Hr as [_ Hk].
    apply str_eqb_eq in Hk. rewrite Hk. now apply str_eqb_neq. }
  apply find_map_unchanged.
  - intros r _. destruct (str_eqb (D1.key r) k) eqn:E; [|reflexivity].
    apply str_eqb_eq in E. simpl. rewrite E.
    rewrite (str_eqb_neq k k'), !andb_false_r; congruence.
  - intros r _ Hr. now rewrite (Hsame r Hr).
Qed.

(** After [trusted] has been set to 0 for a key, the trust lookup rejects it. *)
Lemma lookup_after_revoke (k : jsstring) (t : D1.Table) :
  D1.findFirst (trusted_key k) (D1.update 0 k (with_key k) t) = None.
Proof.
  apply find_none_iff. intros r Hr. unfold D1.update in Hr. simpl in Hr.
  apply in_map_iff in Hr. destruct Hr as [r0 [<- _]].
  destruct (str_eqb (D1.key r0) k) eqn:E; simpl; [reflexivity|].
  rewrite E. apply andb_false_r.
Qed.

(** After [trusted] has been set to 1 for a registered key, the trust lookup
    accepts it. *)
Lemma lookup_after_grant (k : jsstring) (t : D1.Table) :
  D1.findFirst (with_key k) t <> None ->
  D1.findFirst (trusted_key k) (D1.update 1 k (with_key k) t) <> None.
Proof.
  intros Hpresent Hnone. apply Hpresent. unfold D1.findFirst in *.
  apply find_none_iff. intros r Hr.
  rewrite find_none_iff in Hnone.
  specialize (Hnone (if D1.holds (with_key k) r
                     then {| D1.id := D1.id r; D1.key := k; D1.trusted := 1 |}
                     else r)).
  destruct (D1.holds (with_key k) r) eqn:E; [|reflexivity].
  exfalso. assert (Hin : In {| D1.id := D1.id r; D1.key := k; D1.trusted := 1 |}
                          (D1.rows (D1.update 1 k (with_key k) t))).
  { unfold D1.update. simpl. apply in_map_iff. exists r. simpl in E.
    now rewrite E. }
  apply Hnone in Hin. simpl in Hin. rewrite str_eqb_refl in Hin. discriminate.
Qed.

(** Outside development a request leaves the database alone or registers
    one new key. *)
Lemma fetch_production_step (w : World) (request : Request) (env : Env) (s : State) :
  ENVIRONMENT env <> lit "DEVELOPMENT" ->
  PublicKeys (fst (fetch w request env s)) = PublicKeys s \/
  exists t, PublicKeys s = Some t /\
            D1.findFirst (with_key (text request)) t = None /\
            PublicKeys (fst (fetch w request env s))
            = Some (D1.insert (text request) 0 t).
Proof.
  intro Henv. apply str_eqb_neq in Henv. unfold fetch, matches. rewrite Henv.
  cbv [negb].
  repeat match goal with
         | |- context [if ?b then _ else _] => destruct b
         end;
    try (left; reflexivity).
  - rewrite PublicKeyPostHandler_steps. destruct s as [[t|] cs]; simpl;
      [|now left].
    destruct (D1.findFirst _ t) eqn:E; [now left|].
    right. exists t. auto.
  - left. apply GateHandler_db.
Qed.

(** * X1: the registry stays well formed *)


Lemma sample_registry_well_formed (k : jsstring) (b : bool) :
  well_formed (Sample.registry k (toInt b)).
Proof.
  split; unfold keys, ids; simpl.
  - apply NoDup_cons; [intros [] | apply NoDup_nil].
  - apply NoDup_cons; [intros [] | apply NoDup_nil].
  - apply Forall_cons; [lia | apply Forall_nil].
  - apply Forall_cons; [destruct b; auto | apply Forall_nil].
Qed.


(** * X2: the registry outside development *)

(** X2.  With [ENVIRONMENT] different from [DEVELOPMENT] no request changes
    what the gate trusts: a request leaves the table as it is or appends one
    row, for a key that was not registered, with [trusted = 0]; existing rows
    are neither modified nor removed, and the trust lookup of every key gives
    what it gave before. *)
Theorem X2_production_requests_change_no_trust
    (w : World) (request : Request) (env : Env) (s : State) (t : D1.Table) :
  ENVIRONMENT env <> lit "DEVELOPMENT" ->
  PublicKeys s = Some t ->
  exists t',
    PublicKeys (fst (fetch w request env s)) = Some t' /\
    (t' = t \/
     key_absent (text request) t /\
     D1.rows t' = D1.rows t ++ [{| D1.id := D1.last_id t + 1;
                                   D1.key := text request;
                                   D1.trusted := 0 |}]) /\
    forall k, D1.findFirst (trusted_key k) t' = D1.findFirst (trusted_key k) t.
Proof.
  intros Henv Ht.
  destruct (fetch_production_step w request env s Henv) as [H | [t0 [Ht0 [Hnone H]]]].
  - exists t. rewrite H. auto.
  - rewrite Ht in Ht0. injection Ht0 as <-.
    exists (D1.insert (text request) 0 t). split; [exact H | split].
    + right. split; [now apply findFirst_with_key_none | reflexivity].
    + intro k. apply lookup_after_insert.
Qed.

Lemma X2_witness :
  exists t',
    PublicKeys (fst (fetch (Sample.world true true 200)
                           (Sample.text_request "/publicKey" "POST" Sample.other_key)
                           (Sample.env "PRODUCTION")
                           (start (Some (Sample.registry Sample.key 1)))))
    = Some t' /\
    D1.findFirst (trusted_key Sample.other_key) t' = None /\
    D1.findFirst (trusted_key Sample.key) t'
    = Some {| D1.id := 1; D1.key := Sample.key; D1.trusted := 1 |}.
Proof.
  destruct (X2_production_requests_change_no_trust
              (Sample.world true true 200)
              (Sample.text_request "/publicKey" "POST" Sample.other_key)
              (Sample.env "PRODUCTION")
              (start (Some (Sample.registry Sample.key 1)))
              (Sample.registry Sample.key 1))
    as [t' [Hdb [_ Hsame]]].
  - discriminate.
  - reflexivity.
  - exists t'. split; [exact Hdb|]. rewrite !Hsame. split; reflexivity.
Defined.

(** * X3: the gate route never writes *)

(** X3.  A request to [/gate] leaves the database exactly as it found it,
    whatever its method, body and outcome (401, success, pass-through or an
    exception), in every world. *)
Theorem X3_gate_route_never_writes
    (w : World) (request : Request) (env : Env) (s : State) :
  pathname request = lit "/gate" ->
  PublicKeys (fst (fetch w request env s)) = PublicKeys s.
Proof.
  intro Hpath. destruct (gate_run_shape w request env s Hpath) as [evs [-> _]].
  reflexivity.
Qed.

Lemma X3_witness :
  PublicKeys (fst (fetch (Sample.world true true 200)
                         (Sample.door_request (lit "OPEN") Sample.key)
                         (Sample.env "PRODUCTION")
                         (start (Some (Sample.registry Sample.key 1)))))
  = Some (Sample.registry Sample.key 1).
Proof.
  exact (X3_gate_route_never_writes
           (Sample.world true true 200)
           (Sample.door_request (lit "OPEN") Sample.key)
           (Sample.env "PRODUCTION")
           (start (Some (Sample.registry Sample.key 1))) eq_refl).
Defined.

(** ** The router on [/publicKey] *)

Lemma fetch_publicKey_POST (w : World) (request : Request) (env : Env) :
  pathname request = lit "/publicKey" ->
  method request = lit "POST" ->
  fetch w request env = PublicKeyPostHandler request env.
Proof. intros Hp Hm. unfold fetch, matches. rewrite Hp, Hm. reflexivity. Qed.

Lemma fetch_publicKey_GET (w : World) (request : Request) (env : Env) :
  pathname request = lit "/publicKey" ->
  method request = lit "GET" ->
  ENVIRONMENT env = lit "DEVELOPMENT" ->
  fetch w request env = PublicKeyGetHandler request env.
Proof. intros Hp Hm He. unfold fetch, matches. rewrite Hp, Hm, He. reflexivity. Qed.

Lemma fetch_publicKey_DELETE (w : World) (request : Request) (env : Env) :
  pathname request = lit "/publicKey" ->
  method request = lit "DELETE" ->
  ENVIRONMENT env = lit "DEVELOPMENT" ->
  fetch w request env = PublicKeyDeleteHandler request env.
Proof. intros Hp Hm He. unfold fetch, matches. rewrite Hp, Hm, He. reflexivity. Qed.

Lemma fetch_publicKey_PATCH (w : World) (request : Request) (env : Env) :
  pathname request = lit "/publicKey" ->
  method request = lit "PATCH" ->
  ENVIRONMENT env = lit "DEVELOPMENT" ->
  fetch w request env = PublicKeyUpdateHandler request env.
Proof. intros Hp Hm He. unfold fetch, matches. rewrite Hp, Hm, He. reflexivity. Qed.

Lemma fetch_table_PUT (w : World) (request : Request) (env : Env) :
  pathname request = lit "/table" ->
  method request = lit "PUT" ->
  ENVIRONMENT env = lit "DEVELOPMENT" ->
  fetch w request env = TableHandler request env.
Proof. intros Hp Hm He. unfold fetch, matches. rewrite Hp, Hm, He. reflexivity. Qed.

Lemma present_found (k : jsstring) (t : D1.Table) (r : D1.Row) :
  In r (D1.rows t) -> D1.key r = k -> D1.findFirst (with_key k) t <> None.
Proof.
  intros Hin Hk Hnone. apply findFirst_with_key_none in Hnone.
  exact (Hnone r Hin Hk).
Qed.

Lemma KeyStore_of_fields (j : json) (k : jsstring) :
  property j (lit "key") = Some (JStr k) ->
  KeyStore_of j = Some {| KeyStore.key := k;
                          KeyStore.trusted := ToBoolean (property j (lit "trusted")) |}.
Proof. unfold KeyStore_of. now intros ->. Qed.

(** * X4: registering a key twice *)

(** X4.  [POST /publicKey] with a key that is already registered answers 409
    [{"status":"failed","message":"Key already exists"}]; it sends the select
    and no insert, and the table is left as it was, in every environment. *)
Theorem X4_registering_twice_conflicts
    (w : World) (request : Request) (env : Env) (s : State)
    (t : D1.Table) (r : D1.Row) :
  pathname request = lit "/publicKey" ->
  method request = lit "POST" ->
  PublicKeys s = Some t ->
  In r (D1.rows t) ->
  D1.key r = text request ->
  fetch w request env s
  = (log s [Query (D1.Select (with_key (text request)))],
     Returned (NewJsonResponse 409 (failed "Key already exists"))) /\
  body (NewJsonResponse 409 (failed "Key already exists"))
  = quoted "{'status':'failed','message':'Key already exists'}".
Proof.
  intros Hp Hm Ht Hin Hk. split; [|reflexivity].
  rewrite (fetch_publicKey_POST w request env Hp Hm), PublicKeyPostHandler_steps, Ht.
  destruct (D1.findFirst (with_key (text request)) t) eqn:E; [reflexivity|].
  now apply (present_found _ _ _ Hin Hk) in E.
Qed.

Lemma X4_witness :
  fetch (Sample.world true true 200)
        (Sample.text_request "/publicKey" "POST" Sample.key)
        (Sample.env "PRODUCTION")
        (start (Some (Sample.registry Sample.key 1)))
  = (log (start (Some (Sample.registry Sample.key 1)))
         [Query (D1.Select (with_key Sample.key))],
     Returned (NewJsonResponse 409 (failed "Key already exists"))).
Proof.
  exact (proj1 (X4_registering_twice_conflicts
                  (Sample.world true true 200)
                  (Sample.text_request "/publicKey" "POST" Sample.key)
                  (Sample.env "PRODUCTION")
                  (start (Some (Sample.registry Sample.key 1)))
                  (Sample.registry Sample.key 1)
                  {| D1.id := 1; D1.key := Sample.key; D1.trusted := 1 |}
                  eq_refl eq_refl eq_refl (or_introl eq_refl) eq_refl)).
Defined.

(** * X5: a freshly registered key cannot command the gate *)

(** X5.  After [POST /publicKey] has registered a new key, a [PATCH /gate]
    request that presents this key gets the 401 response and sends nothing to
    the gate, whatever the signature and in every world: registration alone
    gives no access. *)
Theorem X5_registered_key_is_not_trusted
    (w1 w2 : World) (register command : Request) (env1 env2 : Env) (s : State)
    (t : D1.Table) (p : DoorRequestPayload.t) :
  pathname register = lit "/publicKey" ->
  method register = lit "POST" ->
  PublicKeys s = Some t ->
  key_absent (text register) t ->
  pathname command = lit "/gate" ->
  method command = lit "PATCH" ->
  payload_of command = Some p ->
  DoorRequestPayload.publicKey p = text register ->
  fetch w2 command env2 (fst (fetch w1 register env1 s))
  = ({| PublicKeys := Some (D1.insert (text register) 0 t);
        calls := calls s ++ [Query (D1.Select (with_key (text register)));
                             Query (D1.Insert (text register) 0);
                             lookup_event p] |},
     Returned GetUnauthorizedResponse).
Proof.
  intros Hp1 Hm1 Ht Habs Hp2 Hm2 Hp Hk.
  rewrite (fetch_publicKey_POST w1 register env1 Hp1 Hm1), PublicKeyPostHandler_steps, Ht.
  apply findFirst_with_key_none in Habs. rewrite Habs. simpl fst.
  rewrite (fetch_gate_PATCH w2 command env2 Hp2 Hm2).
  rewrite (GateHandler_steps w2 command env2 _ p Hp). simpl PublicKeys.
  rewrite Hk, lookup_after_insert.
  apply findFirst_with_key_none in Habs.
  rewrite (lookup_absent _ _ Habs). unfold log. simpl.
  now rewrite <- app_assoc.
Qed.

Lemma X5_witness :
  fetch (Sample.world true true 200)
        (Sample.door_request (lit "OPEN") Sample.other_key) (Sample.env "PRODUCTION")
        (fst (fetch (Sample.world true true 200)
                    (Sample.text_request "/publicKey" "POST" Sample.other_key)
                    (Sample.env "PRODUCTION")
                    (start (Some (Sample.registry Sample.key 1)))))
  = ({| PublicKeys := Some (D1.insert Sample.other_key 0 (Sample.registry Sample.key 1));
        calls := [Query (D1.Select (with_key Sample.other_key));
                  Query (D1.Insert Sample.other_key 0);
                  lookup_event (Sample.door_payload (lit "OPEN") Sample.other_key)] |},
     Returned GetUnauthorizedResponse).
Proof.
  apply (X5_registered_key_is_not_trusted
           (Sample.world true true 200) (Sample.world true true 200)
           (Sample.text_request "/publicKey" "POST" Sample.other_key)
           (Sample.door_request (lit "OPEN") Sample.other_key)
           (Sample.env "PRODUCTION") (Sample.env "PRODUCTION")
           (start (Some (Sample.registry Sample.key 1)))
           (Sample.registry Sample.key 1)
           (Sample.door_payload (lit "OPEN") Sample.other_key));
    try reflexivity.
  intros r [<-|[]]. discriminate.
Defined.

(** * X6: deleting a key *)

(** X6.  In development, [DELETE /publicKey] of a registered key answers 200
    and removes every row of that key: afterwards the key is absent, so the
    gate's trust lookup rejects it, and the lookup of every other key gives
    what it gave before.  For a key that is not registered it answers 404
    [{"status":"failed","message":"Key not found"}] and sends no delete. *)
Theorem X6_delete_removes_the_key_only
    (w : World) (request : Request) (env : Env) (s : State) (t : D1.Table) :
  pathname request = lit "/publicKey" ->
  method request = lit "DELETE" ->
  ENVIRONMENT env = lit "DEVELOPMENT" ->
  PublicKeys s = Some t ->
  (forall r, In r (D1.rows t) -> D1.key r = text request ->
     exists t',
       fetch w request env s
       = ({| PublicKeys := Some t';
             calls := calls s ++ [Query (D1.Select (with_key (text request)));
                                  Query (D1.Delete (with_key (text request)))] |},
          Returned (NewJsonResponse 200
                      (JObj [(lit "status", JStr (lit "success"));
                             (lit "key", JStr (text request));
                             (lit "message", JStr (lit "Key deleted"))]))) /\
       key_absent (text request) t' /\
       gate_trusts t' (text request) = false /\
       (forall k, k <> text request -> gate_trusts t' k = gate_trusts t k) /\
       (forall r', In r' (D1.rows t') <->
                   In r' (D1.rows t) /\ D1.key r' <> text request)) /\
  (key_absent (text request) t ->
   fetch w request env s
   = (log s [Query (D1.Select (with_key (text request)))],
      Returned (NewJsonResponse 404 (failed "Key not found")))).
Proof.
  intros Hp Hm He Ht.
  rewrite (fetch_publicKey_DELETE w request env Hp Hm He), PublicKeyDeleteHandler_steps, Ht.
  split.
  - intros r Hin Hk.
    destruct (D1.findFirst (with_key (text request)) t) eqn:E;
      [|now apply (present_found _ _ _ Hin Hk) in E].
    exists (D1.delete (with_key (text request)) t).
    split; [reflexivity|]. split; [apply absent_after_delete|]. split; [|split].
    + unfold gate_trusts. now rewrite (lookup_absent _ _ (absent_after_delete _ _)).
    + intros k Hne. unfold gate_trusts. now rewrite lookup_after_delete.
    + intro r'. unfold D1.delete. simpl. rewrite filter_In.
      split; intros [H1 H2]; split; auto.
      * intro E'. rewrite E', str_eqb_refl in H2. discriminate.
      * now rewrite (str_eqb_neq _ _ H2).
  - intro Habs. apply findFirst_with_key_none in Habs. now rewrite Habs.
Qed.

Lemma X6_witness :
  exists t',
    fetch (Sample.world true true 200)
          (Sample.text_request "/publicKey" "DELETE" Sample.key)
          (Sample.env "DEVELOPMENT")
          (start (Some (Sample.registry Sample.key 1)))
    = ({| PublicKeys := Some t';
          calls := [Query (D1.Select (with_key Sample.key));
                    Query (D1.Delete (with_key Sample.key))] |},
       Returned (NewJsonResponse 200
                   (JObj [(lit "status", JStr (lit "success"));
                          (lit "key", JStr Sample.key);
                          (lit "message", JStr (lit "Key deleted"))]))) /\
    gate_trusts t' Sample.key = false.
Proof.
  destruct (proj1 (X6_delete_removes_the_key_only
                     (Sample.world true true 200)
                     (Sample.text_request "/publicKey" "DELETE" Sample.key)
                     (Sample.env "DEVELOPMENT")
                     (start (Some (Sample.registry Sample.key 1)))
                     (Sample.registry Sample.key 1)
                     eq_refl eq_refl eq_refl eq_refl)
                  {| D1.id := 1; D1.key := Sample.key; D1.trusted := 1 |}
                  (or_introl eq_refl) eq_refl)
    as [t' [Hrun [_ [Hgate _]]]].
  exists t'. split; [exact Hrun | exact Hgate].
Defined.

(** * X7: granting trust *)

(** X7.  In development, [PATCH /publicKey] with a body whose [trusted] is
    truthy sets [trusted = 1] on the rows of the key; [toInt] goes by
    truthiness, so the string ["false"], a non-zero number, an array or an
    object grant trust as [true] does.  When the key is registered, a
    following [PATCH /gate] request with this key passes the trust lookup: its
    outcome is decided by the key import and the signature alone. *)
Theorem X7_truthy_update_grants_trust
    (w1 w2 : World) (update command : Request) (env1 env2 : Env) (s : State)
    (t : D1.Table) (j : json) (r : D1.Row) (p : DoorRequestPayload.t) :
  pathname update = lit "/publicKey" ->
  method update = lit "PATCH" ->
  ENVIRONMENT env1 = lit "DEVELOPMENT" ->
  PublicKeys s = Some t ->
  json_body update = Some j ->
  property j (lit "key") = Some (JStr (D1.key r)) ->
  ToBoolean (property j (lit "trusted")) = true ->
  In r (D1.rows t) ->
  pathname command = lit "/gate" ->
  method command = lit "PATCH" ->
  payload_of command = Some p ->
  DoorRequestPayload.publicKey p = D1.key r ->
  PublicKeys (fst (fetch w1 update env1 s))
  = Some (D1.update 1 (D1.key r) (with_key (D1.key r)) t) /\
  gate_trusts (D1.update 1 (D1.key r) (with_key (D1.key r)) t) (D1.key r) = true /\
  fetch w2 command env2 (fst (fetch w1 update env1 s))
  = once_trusted w2 env2 p (fst (fetch w1 update env1 s)).
Proof.
  intros Hp1 Hm1 He Ht Hj Hkey Htrue Hin Hp2 Hm2 Hp Hk.
  rewrite (fetch_publicKey_PATCH w1 update env1 Hp1 Hm1 He).
  rewrite PublicKeyUpdateHandler_steps, Hj, (KeyStore_of_fields j _ Hkey), Ht, Htrue.
  simpl fst. simpl KeyStore.key. simpl toInt.
  pose proof (lookup_after_grant (D1.key r) t (present_found _ _ _ Hin eq_refl)) as Hg.
  split; [reflexivity|]. split.
  - unfold gate_trusts. now destruct (D1.findFirst _ _).
  - rewrite (fetch_gate_PATCH w2 command env2 Hp2 Hm2).
    rewrite (GateHandler_steps w2 command env2 _ p Hp). simpl PublicKeys.
    rewrite Hk. destruct (D1.findFirst _ _); [reflexivity | contradiction].
Qed.

Lemma X7_witness :
  PublicKeys
    (fst (fetch (Sample.world true true 200)
                (Sample.json_request "/publicKey" "PATCH"
                   (JObj [(lit "key", JStr Sample.key);
                          (lit "trusted", JStr (lit "false"))]))
                (Sample.env "DEVELOPMENT")
                (start (Some (Sample.registry Sample.key 0)))))
  = Some (D1.update 1 Sample.key (with_key Sample.key) (Sample.registry Sample.key 0)) /\
  gate_trusts (D1.update 1 Sample.key (with_key Sample.key) (Sample.registry Sample.key 0))
              Sample.key = true.
Proof.
  destruct (X7_truthy_update_grants_trust
              (Sample.world true true 200) (Sample.world true true 200)
              (Sample.json_request "/publicKey" "PATCH"
                 (JObj [(lit "key", JStr Sample.key);
                        (lit "trusted", JStr (lit "false"))]))
              (Sample.door_request (lit "OPEN") Sample.key)
              (Sample.env "DEVELOPMENT") (Sample.env "PRODUCTION")
              (start (Some (Sample.registry Sample.key 0)))
              (Sample.registry Sample.key 0)
              (JObj [(lit "key", JStr Sample.key);
                     (lit "trusted", JStr (lit "false"))])
              {| D1.id := 1; D1.key := Sample.key; D1.trusted := 0 |}
              (Sample.door_payload (lit "OPEN") Sample.key)
              eq_refl eq_refl eq_refl eq_refl eq_refl eq_refl eq_refl
              (or_introl eq_refl) eq_refl eq_refl eq_refl eq_refl)
    as [Hdb [Hgate _]].
  split; [exact Hdb | exact Hgate].
Defined.

(** * X8: revoking trust *)

(** X8.  In development, [PATCH /publicKey] with a body whose [trusted] is
    falsy ([false], [0], [null], the empty string, or no field at all) sets
    [trusted = 0] on the rows of the key, and a following [PATCH /gate]
    request with this key gets the 401 response after the trust lookup alone,
    in every world: a revoked key sends nothing to the gate. *)
Theorem X8_falsy_update_revokes_trust
    (w1 w2 : World) (update command : Request) (env1 env2 : Env) (s : State)
    (t : D1.Table) (j : json) (k : jsstring) (p : DoorRequestPayload.t) :
  pathname update = lit "/publicKey" ->
  method update = lit "PATCH" ->
  ENVIRONMENT env1 = lit "DEVELOPMENT" ->
  PublicKeys s = Some t ->
  json_body update = Some j ->
  property j (lit "key") = Some (JStr k) ->
  ToBoolean (property j (lit "trusted")) = false ->
  pathname command = lit "/gate" ->
  method command = lit "PATCH" ->
  payload_of command = Some p ->
  DoorRequestPayload.publicKey p = k ->
  PublicKeys (fst (fetch w1 update env1 s))
  = Some (D1.update 0 k (with_key k) t) /\
  fetch w2 command env2 (fst (fetch w1 update env1 s))
  = (log (fst (fetch w1 update env1 s)) [lookup_event p],
     Returned GetUnauthorizedResponse).
Proof.
  intros Hp1 Hm1 He Ht Hj Hkey Hfalse Hp2 Hm2 Hp Hk.
  rewrite (fetch_publicKey_PATCH w1 update env1 Hp1 Hm1 He).
  rewrite PublicKeyUpdateHandler_steps, Hj, (KeyStore_of_fields j _ Hkey), Ht, Hfalse.
  simpl fst. simpl KeyStore.key. simpl toInt.
  split; [reflexivity|].
  rewrite (fetch_gate_PATCH w2 command env2 Hp2 Hm2).
  rewrite (GateHandler_steps w2 command env2 _ p Hp). simpl PublicKeys.
  now rewrite Hk, lookup_after_revoke.
Qed.

Lemma X8_witness :
  snd (fetch (Sample.world true true 200)
             (Sample.door_request (lit "OPEN") Sample.key) (Sample.env "DEVELOPMENT")
             (fst (fetch (Sample.world true true 200)
                         (Sample.json_request "/publicKey" "PATCH"
                            (Sample.update_body Sample.key false))
                         (Sample.env "DEVELOPMENT")
                         (start (Some (Sample.registry Sample.key 1))))))
  = Returned GetUnauthorizedResponse.
Proof.
  rewrite (proj2 (X8_falsy_update_revokes_trust
                    (Sample.world true true 200) (Sample.world true true 200)
                    (Sample.json_request "/publicKey" "PATCH"
                       (Sample.update_body Sample.key false))
                    (Sample.door_request (lit "OPEN") Sample.key)
                    (Sample.env "DEVELOPMENT") (Sample.env "DEVELOPMENT")
                    (start (Some (Sample.registry Sample.key 1)))
                    (Sample.registry Sample.key 1)
                    (Sample.update_body Sample.key false)
                    Sample.key
                    (Sample.door_payload (lit "OPEN") Sample.key)
                    eq_refl eq_refl eq_refl eq_refl eq_refl eq_refl eq_refl
                    eq_refl eq_refl eq_refl eq_refl)).
  reflexivity.
Defined.

(** * X9: the listing agrees with the gate *)

Lemma unique_key_row (l : list D1.Row) (r r' : D1.Row) :
  NoDup (map D1.key l) -> In r l -> In r' l -> D1.key r = D1.key r' -> r = r'.
Proof.
  induction l as [|a l IH]; simpl; intros Hnd Hr Hr' E; [contradiction|].
  inversion Hnd as [|? ? Hn Hd]; subst.
  destruct Hr as [<-|Hr], Hr' as [<-|Hr']; auto.
  - exfalso. apply Hn. rewrite E. now apply in_map.
  - exfalso. apply Hn. rewrite <- E. now apply in_map.
Qed.

Lemma listed_flag (t : D1.Table) (r : D1.Row) :
  well_formed t -> In r (D1.rows t) ->
  negb (D1.trusted r =? 0) = gate_trusts t (D1.key r).
Proof.
  intros [Hk _ _ Hf] Hin. unfold gate_trusts.
  rewrite Forall_forall in Hf. destruct (Hf r Hin) as [H0|H1].
  - rewrite H0. simpl.
    destruct (D1.findFirst (trusted_key (D1.key r)) t) as [r'|] eqn:E; [|reflexivity].
    apply lookup_found in E. destruct E as [Hin' [Hkey Htr]].
    assert (r' = r) by (apply (unique_key_row (D1.rows t)); auto).
    subst r'. lia.
  - rewrite H1. simpl.
    destruct (D1.findFirst (trusted_key (D1.key r)) t) as [r'|] eqn:E; [reflexivity|].
    unfold D1.findFirst in E. rewrite find_none_iff in E. specialize (E r Hin).
    simpl in E. rewrite H1, str_eqb_refl in E. discriminate.
Qed.

(** X9.  In development, [GET /publicKey] answers 404
    [{"status":"failed","message":"No keys found"}] on an empty table and
    otherwise 200 with one entry per row, in row order; it sends one select
    and changes nothing.  On a well-formed table the [trusted] flag it shows
    for a key is [true] exactly when the gate's trust lookup accepts that
    key: [!!key.trusted] and [trusted = 1] agree. *)
Theorem X9_listing_shows_what_the_gate_trusts
    (w : World) (request : Request) (env : Env) (s : State) (t : D1.Table) :
  pathname request = lit "/publicKey" ->
  method request = lit "GET" ->
  ENVIRONMENT env = lit "DEVELOPMENT" ->
  PublicKeys s = Some t ->
  well_formed t ->
  fetch w request env s
  = (log s [Query D1.SelectAll],
     Returned
       match D1.rows t with
       | [] => NewJsonResponse 404 (failed "No keys found")
       | _ :: _ =>
           NewJsonResponse 200
             (JObj [(lit "status", JStr (lit "success"));
                    (lit "keys", JArr (map (listed t) (D1.rows t)))])
       end).
Proof.
  intros Hp Hm He Ht Hwf.
  rewrite (fetch_publicKey_GET w request env Hp Hm He), PublicKeyGetHandler_steps, Ht.
  assert (Hmap : map (fun key =>
                        JObj [(lit "key", JStr (D1.key key));
                              (lit "trusted", JBool (negb (D1.trusted key =? 0)))])
                     (D1.rows t)
                 = map (listed t) (D1.rows t)).
  { apply map_ext_in. intros r Hin. unfold listed.
    now rewrite (listed_flag t r Hwf Hin). }
  rewrite Hmap. reflexivity.
Qed.

Lemma X9_witness :
  fetch (Sample.world true true 200)
        (Sample.text_request "/publicKey" "GET" [])
        (Sample.env "DEVELOPMENT")
        (start (Some (Sample.registry Sample.key 1)))
  = (log (start (Some (Sample.registry Sample.key 1))) [Query D1.SelectAll],
     Returned
       (NewJsonResponse 200
          (JObj [(lit "status", JStr (lit "success"));
                 (lit "keys",
                  JArr [JObj [(lit "key", JStr Sample.key);
                              (lit "trusted", JBool true)]])]))).
Proof.
  exact (X9_listing_shows_what_the_gate_trusts
           (Sample.world true true 200)
           (Sample.text_request "/publicKey" "GET" [])
           (Sample.env "DEVELOPMENT")
           (start (Some (Sample.registry Sample.key 1)))
           (Sample.registry Sample.key 1)
           eq_refl eq_refl eq_refl eq_refl
           (sample_registry_well_formed Sample.key true)).
Defined.

(** * X10: paths and methods the router does not serve *)

(** X10.  The router compares the path and the method exactly.  Any path
    other than [/publicKey], [/table] and [/gate] gets 404
    [{"status":"failed","message":"Not Found"}]; on [/publicKey] a method
    other than [POST], [GET], [DELETE] and [PATCH] gets 405
    [{"status":"failed","message":"Method Not Allowed"}] in every
    environment, and so does a method other than [PATCH] on [/gate]; on
    [/table] the environment is tested first, so outside development every
    method gets 403 and in development every method but [PUT] gets 405.  None
    of these answers touches the database or calls anything. *)
Theorem X10_unserved_paths_and_methods
    (w : World) (request : Request) (env : Env) (s : State) :
  (pathname request <> lit "/publicKey" ->
   pathname request <> lit "/table" ->
   pathname request <> lit "/gate" ->
   fetch w request env s = (s, Returned (NewJsonResponse 404 (failed "Not Found")))) /\
  (pathname request = lit "/publicKey" ->
   method request <> lit "POST" -> method request <> lit "GET" ->
   method request <> lit "DELETE" -> method request <> lit "PATCH" ->
   fetch w request env s = (s, Returned GetMethodNotAllowedResponse)) /\
  (pathname request = lit "/gate" -> method request <> lit "PATCH" ->
   fetch w request env s = (s, Returned GetMethodNotAllowedResponse)) /\
  (pathname request = lit "/table" -> ENVIRONMENT env <> lit "DEVELOPMENT" ->
   fetch w request env s = (s, Returned GetNotProductionResponse)) /\
  (pathname request = lit "/table" -> ENVIRONMENT env = lit "DEVELOPMENT" ->
   method request <> lit "PUT" ->
   fetch w request env s = (s, Returned GetMethodNotAllowedResponse)) /\
  body (NewJsonResponse 404 (failed "Not Found"))
  = quoted "{'status':'failed','message':'Not Found'}" /\
  status GetMethodNotAllowedResponse = 405 /\
  body GetMethodNotAllowedResponse
  = quoted "{'status':'failed','message':'Method Not Allowed'}".
Proof.
  repeat split.
  - intros H1 H2 H3. unfold fetch, matches.
    now rewrite (str_eqb_neq _ _ H1), (str_eqb_neq _ _ H2), (str_eqb_neq _ _ H3).
  - intros Hp H1 H2 H3 H4. unfold fetch, matches. rewrite Hp.
    change (str_eqb (lit "/publicKey") (lit "/publicKey")) with true. cbv iota.
    now rewrite (str_eqb_neq _ _ H1), (str_eqb_neq _ _ H2),
      (str_eqb_neq _ _ H3), (str_eqb_neq _ _ H4).
  - intros Hp Hm. now rewrite (fetch_gate_other w request env Hp Hm).
  - intros Hp He. unfold fetch, matches. rewrite Hp.
    change (str_eqb (lit "/table") (lit "/publicKey")) with false.
    change (str_eqb (lit "/table") (lit "/table")) with true. cbv iota.
    now rewrite (str_eqb_neq _ _ He).
  - intros Hp He Hm. unfold fetch, matches. rewrite Hp, He.
    change (str_eqb (lit "/table") (lit "/publicKey")) with false.
    change (str_eqb (lit "/table") (lit "/table")) with true.
    change (str_eqb (lit "DEVELOPMENT") (lit "DEVELOPMENT")) with true. cbv iota.
    simpl negb. cbv iota.
    now rewrite (str_eqb_neq _ _ Hm).
Qed.

Lemma X10_witness :
  fetch (Sample.world true true 200)
        (Sample.text_request "/gate/" "PATCH" [])
        (Sample.env "DEVELOPMENT")
        (start (Some (Sample.registry Sample.key 1)))
  = (start (Some (Sample.registry Sample.key 1)),
     Returned (NewJsonResponse 404 (failed "Not Found"))) /\
  fetch (Sample.world true true 200)
        (Sample.text_request "/table" "GET" [])
        (Sample.env "PRODUCTION")
        (start (Some (Sample.registry Sample.key 1)))
  = (start (Some (Sample.registry Sample.key 1)), Returned GetNotProductionResponse).
Proof.
  split.
  - apply (proj1 (X10_unserved_paths_and_methods
                    (Sample.world true true 200)
                    (Sample.text_request "/gate/" "PATCH" [])
                    (Sample.env "DEVELOPMENT")
                    (start (Some (Sample.registry Sample.key 1)))));
      discriminate.
  - apply (proj1 (proj2 (proj2 (proj2 (X10_unserved_paths_and_methods
                    (Sample.world true true 200)
                    (Sample.text_request "/table" "GET" [])
                    (Sample.env "PRODUCTION")
                    (start (Some (Sample.registry Sample.key 1))))))));
      [reflexivity | discriminate].
Defined.

(** * X11: creating the table *)

(** X11.  In development, [PUT /table] answers 200 and creates an empty
    table when there is none; a table that exists is kept with all its rows
    and its id counter.  Repeating the request changes nothing more. *)
Theorem X11_table_creation_keeps_the_rows
    (w1 w2 : World) (request again : Request) (env1 env2 : Env) (s : State) :
  pathname request = lit "/table" -> method request = lit "PUT" ->
  ENVIRONMENT env1 = lit "DEVELOPMENT" ->
  pathname again = lit "/table" -> method again = lit "PUT" ->
  ENVIRONMENT env2 = lit "DEVELOPMENT" ->
  fetch w1 request env1 s
  = ({| PublicKeys := match PublicKeys s with
                      | Some t => Some t
                      | None => Some {| D1.rows := []; D1.last_id := 0 |}
                      end;
        calls := calls s ++ [Query D1.CreateTable] |},
     Returned (NewJsonResponse 200
                 (JObj [(lit "status", JStr (lit "success"));
                        (lit "message",
                         JStr (lit "Table created or already exists"))]))) /\
  PublicKeys (fst (fetch w2 again env2 (fst (fetch w1 request env1 s))))
  = PublicKeys (fst (fetch w1 request env1 s)).
Proof.
  intros Hp1 Hm1 He1 Hp2 Hm2 He2.
  rewrite (fetch_table_PUT w1 request env1 Hp1 Hm1 He1).
  rewrite (fetch_table_PUT w2 again env2 Hp2 Hm2 He2).
  rewrite !TableHandler_steps. simpl.
  split; now destruct (PublicKeys s).
Qed.

Lemma X11_witness :
  PublicKeys (fst (fetch (Sample.world true true 200)
                         (Sample.text_request "/table" "PUT" [])
                         (Sample.env "DEVELOPMENT")
                         (start (Some (Sample.registry Sample.key 1)))))
  = Some (Sample.registry Sample.key 1) /\
  PublicKeys (fst (fetch (Sample.world true true 200)
                         (Sample.text_request "/table" "PUT" [])
                         (Sample.env "DEVELOPMENT")
                         (start None)))
  = Some D1.empty_table.
Proof.
  split.
  - rewrite (proj1 (X11_table_creation_keeps_the_rows
                      (Sample.world true true 200) (Sample.world true true 200)
                      (Sample.text_request "/table" "PUT" [])
                      (Sample.text_request "/table" "PUT" [])
                      (Sample.env "DEVELOPMENT") (Sample.env "DEVELOPMENT")
                      (start (Some (Sample.registry Sample.key 1)))
                      eq_refl eq_refl eq_refl eq_refl eq_refl eq_refl)).
    reflexivity.
  - rewrite (proj1 (X11_table_creation_keeps_the_rows
                      (Sample.world true true 200) (Sample.world true true 200)
                      (Sample.text_request "/table" "PUT" [])
                      (Sample.text_request "/table" "PUT" [])
                      (Sample.env "DEVELOPMENT") (Sample.env "DEVELOPMENT")
                      (start None)
                      eq_refl eq_refl eq_refl eq_refl eq_refl eq_refl)).
    reflexivity.
Defined.

(** * X12: before the table exists *)

(** X12.  While the table has not been created, the handlers that query it
    end with the database error of their first statement and build no
    response: registration in every environment, listing, deletion and
    update in development, and [PATCH /gate], which therefore sends nothing
    to the gate.  The database stays without a table. *)
Theorem X12_no_table_no_answer
    (w : World) (request : Request) (env : Env) (s : State) :
  PublicKeys s = None ->
  (pathname request = lit "/publicKey" -> method request = lit "POST" ->
   fetch w request env s
   = (log s [Query (D1.Select (with_key (text request)))], Thrown D1Error)) /\
  (pathname request = lit "/publicKey" -> method request = lit "GET" ->
   ENVIRONMENT env = lit "DEVELOPMENT" ->
   fetch w request env s = (log s [Query D1.SelectAll], Thrown D1Error)) /\
  (pathname request = lit "/publicKey" -> method request = lit "DELETE" ->
   ENVIRONMENT env = lit "DEVELOPMENT" ->
   fetch w request env s
   = (log s [Query (D1.Select (with_key (text request)))], Thrown D1Error)) /\
  (pathname request = lit "/publicKey" -> method request = lit "PATCH" ->
   ENVIRONMENT env = lit "DEVELOPMENT" ->
   forall j u, json_body request = Some j -> KeyStore_of j = Some u ->
   fetch w request env s = (log s [Query (update_statement u)], Thrown D1Error)) /\
  (pathname request = lit "/gate" -> method request = lit "PATCH" ->
   forall p, payload_of request = Some p ->
   fetch w request env s = (log s [lookup_event p], Thrown D1Error)).
Proof.
  intro Hdb. repeat split.
  - intros Hp Hm.
    now rewrite (fetch_publicKey_POST w request env Hp Hm), PublicKeyPostHandler_steps, Hdb.
  - intros Hp Hm He.
    now rewrite (fetch_publicKey_GET w request env Hp Hm He), PublicKeyGetHandler_steps, Hdb.
  - intros Hp Hm He.
    now rewrite (fetch_publicKey_DELETE w request env Hp Hm He),
      PublicKeyDeleteHandler_steps, Hdb.
  - intros Hp Hm He j u Hj Hu.
    now rewrite (fetch_publicKey_PATCH w request env Hp Hm He),
      PublicKeyUpdateHandler_steps, Hj, Hu, Hdb.
  - intros Hp Hm p Hpay.
    now rewrite (fetch_gate_PATCH w request env Hp Hm),
      (GateHandler_steps w request env s p Hpay), Hdb.
Qed.

Lemma X12_witness :
  fetch (Sample.world true true 200)
        (Sample.door_request (lit "OPEN") Sample.key)
        (Sample.env "PRODUCTION") (start None)
  = (log (start None) [lookup_event (Sample.door_payload (lit "OPEN") Sample.key)],
     Thrown D1Error).
Proof.
  exact (proj2 (proj2 (proj2 (proj2 (X12_no_table_no_answer
           (Sample.world true true 200)
           (Sample.door_request (lit "OPEN") Sample.key)
           (Sample.env "PRODUCTION") (start None) eq_refl))))
         eq_refl eq_refl (Sample.door_payload (lit "OPEN") Sample.key) eq_refl).
Defined.

(* ================================================================== *)
(** * Further properties of [SendToGate] *)
(* ================================================================== *)

Lemma TimeClip_invalid (t : Z) : ~ valid_time t -> TimeClip t = None.
Proof.
  unfold TimeClip, valid_time. intro Hv.
  destruct (Z.ltb_spec maxTimeValue (Z.abs t)) as [Hlt|Hle]; [reflexivity | lia].
Qed.

Lemma mint_none (action : jsstring) (now k : Z) :
  ~ valid_time (now + msPerMinute) -> mint action now k = None.
Proof.
  intro Hv. unfold mint. now rewrite setMinutes_next_minute, (TimeClip_invalid _ Hv).
Qed.

(** * X13: when [SendToGate] sends nothing, and when it gives up *)

(** X13.  [SendToGate] signs and sends only after the shared secret has been
    imported and the expiry has been formatted.  If [importKey] rejects the
    secret the run ends with its [DataError], and if the clock plus one
    minute is not a time a [Date] can hold it ends with the [RangeError] of
    [toISOString]: in both cases nothing has been signed or sent.  If the
    connection to the gate fails, the run ends with that error after the one
    [fetch]: there is no second attempt and no response. *)
Theorem X13_send_failures
    (w : World) (action : jsstring) (env : Env) (s : State) :
  (secret_decodes w env = false ->
   SendToGate w action env s = (log s [hmac_import_event env], Thrown DataError)) /\
  (secret_decodes w env = true -> ~ valid_time (clock w + 60000) ->
   SendToGate w action env s = (log s [hmac_import_event env], Thrown RangeError)) /\
  (secret_decodes w env = true ->
   forall v, mint action (clock w) (random w) = Some v ->
   gate w (dispatch w env v) = None ->
   SendToGate w action env s
   = (log s [hmac_import_event env; sign_event env v; Fetch (dispatch w env v)],
      Thrown NetworkError)).
Proof.
  rewrite SendToGate_steps. repeat split.
  - now intros ->.
  - intros -> Hv. now rewrite (mint_none action (clock w) (random w) Hv).
  - intros -> v -> ->. reflexivity.
Qed.

Lemma X13_witness :
  SendToGate (Sample.world false true 200) (lit "OPEN") (Sample.env "PRODUCTION")
             (start (Some (Sample.registry Sample.key 1)))
  = (log (start (Some (Sample.registry Sample.key 1)))
         [hmac_import_event (Sample.env "PRODUCTION")],
     Thrown DataError).
Proof.
  exact (proj1 (X13_send_failures
                  (Sample.world false true 200) (lit "OPEN") (Sample.env "PRODUCTION")
                  (start (Some (Sample.registry Sample.key 1))))
               eq_refl).
Defined.

(** * X14: the MAC covers the text that is sent *)

Lemma stringify_two_fields (k1 k2 : jsstring) (v1 v2 : json) :
  JSON_stringify (JObj [(k1, v1); (k2, v2)])
  = lit "{" ++ QuoteJSONString k1 ++ lit ":" ++ JSON_stringify v1 ++ lit ","
    ++ QuoteJSONString k2 ++ lit ":" ++ JSON_stringify v2 ++ lit "}".
Proof.
  change (JSON_stringify (JObj [(k1, v1); (k2, v2)]))
    with (lit "{"
          ++ (QuoteJSONString k1 ++ lit ":" ++ JSON_stringify v1
              ++ (lit "," ++ (QuoteJSONString k2 ++ lit ":" ++ JSON_stringify v2 ++ [])))
          ++ lit "}").
  rewrite app_nil_r. now rewrite <- !app_assoc.
Qed.

Lemma quote_chars_plain (s : jsstring) : Forall plain s -> quote_chars s = s.
Proof.
  induction 1 as [|c s [Hc [H34 H92]] Hs IH]; [reflexivity|].
  simpl. unfold is_high_surrogate, is_low_surrogate.
  repeat match goal with
         | |- context [?a =? ?b] => destruct (Z.eqb_spec a b); [lia|]
         end.
  destruct (Z.ltb_spec c 32); [lia|].
  destruct (Z.leb_spec 0xD800 c); [lia|].
  destruct (Z.leb_spec 0xDC00 c); [lia|].
  simpl. now rewrite IH.
Qed.

Lemma QuoteJSONString_plain (s : jsstring) :
  Forall plain s -> QuoteJSONString s = [34] ++ s ++ [34].
Proof. intro H. unfold QuoteJSONString. now rewrite (quote_chars_plain s H). Qed.

Lemma base64_alphabet_plain : Forall plain base64_alphabet.
Proof.
  unfold base64_alphabet, lit. simpl.
  repeat (apply Forall_cons; [unfold plain; lia|]). apply Forall_nil.
Qed.

Lemma base64_char_plain (i : Z) : plain (base64_char i).
Proof.
  unfold base64_char.
  destruct (nth_in_or_default (Z.to_nat i) base64_alphabet 61) as [Hin | ->].
  - pose proof base64_alphabet_plain as H. rewrite Forall_forall in H. now apply H.
  - unfold plain. lia.
Qed.

(** Induction in steps of three bytes, as [btoa] consumes them. *)
Lemma three_step_ind (P : bytes -> Prop) :
  P [] -> (forall a, P [a]) -> (forall a b, P [a; b]) ->
  (forall a b c rest, P rest -> P (a :: b :: c :: rest)) ->
  forall bs, P bs.
Proof.
  intros H0 H1 H2 H3 bs.
  assert (H : P bs /\ (forall a, P (a :: bs)) /\ (forall a b, P (a :: b :: bs))).
  { induction bs as [|c bs [IH0 [IH1 IH2]]]; [auto|].
    split; [apply IH1 | split; [intro a; apply IH2 | intros a b; now apply H3]]. }
  apply H.
Qed.

Lemma btoa_plain (bs : bytes) : Forall plain (btoa_bytes bs).
Proof.
  assert (Hpad : plain 61) by (unfold plain; lia).
  induction bs as [|a|a b|a b c rest IH] using three_step_ind;
    cbn [btoa_bytes app]; repeat (apply Forall_cons; [apply base64_char_plain || exact Hpad|]);
    auto.
Qed.

(** X14.  The body sent to the gate carries, as its [value], exactly the JSON
    text whose UTF-8 bytes were handed to the HMAC, and as its [signature] the
    base64 text of that MAC, which needs no escaping: the receiver can check
    the MAC over the text it finds between ["value":] and [,"signature"]. *)
Theorem X14_mac_covers_the_text_that_is_sent
    (w : World) (env : Env) (v : ValueToGate.t) :
  sign_event env v
  = Sign sign_params (hmac_key env)
         (TextEncoder_encode (JSON_stringify (ValueToGate.to_json v))) /\
  out_body (dispatch w env v)
  = quoted "{'value':" ++ JSON_stringify (ValueToGate.to_json v)
    ++ quoted ",'signature':'"
    ++ btoa_bytes (hmac w (hmac_key env)
                     (TextEncoder_encode (JSON_stringify (ValueToGate.to_json v))))
    ++ quoted "'}".
Proof.
  split; [reflexivity|].
  change (out_body (dispatch w env v))
    with (JSON_stringify
            (JObj [(lit "value", ValueToGate.to_json v);
                   (lit "signature",
                    JStr (btoa_bytes (hmac w (hmac_key env) (signed_bytes v))))])).
  rewrite stringify_two_fields.
  change (JSON_stringify (JStr (btoa_bytes (hmac w (hmac_key env) (signed_bytes v)))))
    with (QuoteJSONString (btoa_bytes (hmac w (hmac_key env) (signed_bytes v)))).
  rewrite (QuoteJSONString_plain _ (btoa_plain _)).
  unfold signed_bytes.
  generalize (btoa_bytes (hmac w (hmac_key env)
                (TextEncoder_encode (JSON_stringify (ValueToGate.to_json v))))).
  generalize (JSON_stringify (ValueToGate.to_json v)).
  intros T B. rewrite <- !app_assoc. reflexivity.
Qed.

(** * X15: the nonces that occur *)

(** X15.  Every integer from 0 to 999,999,999 is the nonce of some draw:
    together with the bound of C4, the nonces [SendToGate] can produce are
    exactly the integers of that range. *)
Theorem X15_every_nonce_below_one_billion_occurs (n : Z) :
  0 <= n < 1000000000 ->
  exists k, valid_draw k /\ drawn_nonce k = n.
Proof.
  intros [Hn0 Hn].
  set (q := n * 2 ^ 53 + 2 ^ 29).
  exists (q / 1000000000 + 1).
  assert (Hq : 0 <= q < 1000000000 * 2 ^ 53 - 1000000000) by (unfold q; lia).
  pose proof (Z.div_mod q 1000000000 ltac:(lia)) as Hdm.
  pose proof (Z.mod_pos_bound q 1000000000 ltac:(lia)) as Hmod.
  assert (Hk : 0 <= q / 1000000000 + 1 < 2 ^ 53) by lia.
  split; [exact Hk|].
  unfold drawn_nonce, Math_floor, double_mul, random_bits.
  set (p := (q / 1000000000 + 1) * 1000000000).
  assert (Hp : q < p <= q + 1000000000) by (unfold p; lia).
  assert (Hp83 : 0 <= p < 2 ^ 83) by lia.
  destruct (round_to_double_bounds p Hp83) as [_ [Hlo Hhi]].
  rewrite Z.shiftr_div_pow2 by lia.
  symmetry. apply Z.div_unique with (round_to_double p - n * 2 ^ 53).
  - left. unfold q in *. lia.
  - lia.
Qed.

Lemma X15_witness :
  exists k, valid_draw k /\ drawn_nonce k = 123456789.
Proof.
  apply (X15_every_nonce_below_one_billion_occurs 123456789). lia.
Defined.

(* ================================================================== *)
(** * Further properties of the byte conversions *)
(* ================================================================== *)

(** ** Bounds on the bit operations *)

Lemma land_le_r (a b : Z) : 0 <= a -> 0 <= b -> Z.land a b <= b.
Proof.
  intros Ha Hb. rewrite <- (Z2N.id a Ha), <- (Z2N.id b Hb), <- N2Z.inj_land.
  apply N2Z.inj_le, N.land_le_r.
Qed.

Lemma lor_ge_l (a b : Z) : 0 <= a -> 0 <= b -> a <= Z.lor a b.
Proof.
  intros Ha Hb. pose proof (Z.add_lor_land a b). pose proof (land_le_r a b Ha Hb). lia.
Qed.

Lemma lor_lt_pow2 (a b n : Z) :
  0 <= a < 2 ^ n -> 0 <= b < 2 ^ n -> 0 <= Z.lor a b < 2 ^ n.
Proof.
  intros [Ha0 Ha] [Hb0 Hb].
  assert (H0 : 0 <= Z.lor a b) by (apply Z.lor_nonneg; auto).
  split; [exact H0|].
  destruct (Z.eq_dec (Z.lor a b) 0) as [E|E]; [lia|].
  apply Z.log2_lt_pow2; [lia|]. rewrite Z.log2_lor by assumption.
  destruct (Z.eq_dec a 0) as [->|Hane], (Z.eq_dec b 0) as [->|Hbne].
  - now rewrite Z.lor_0_l in E.
  - simpl. rewrite Z.max_r by apply Z.log2_nonneg. apply Z.log2_lt_pow2; lia.
  - rewrite Z.max_l by apply Z.log2_nonneg. apply Z.log2_lt_pow2; lia.
  - apply Z.max_lub_lt; apply Z.log2_lt_pow2; lia.
Qed.

Lemma low_six_bits (x : Z) : 0 <= x -> 0 <= Z.land x 0x3F < 64.
Proof.
  intro Hx. split; [apply Z.land_nonneg; auto|].
  pose proof (land_le_r x 0x3F Hx ltac:(lia)). lia.
Qed.

Lemma continuation_byte (x : Z) :
  0 <= x -> 0x80 <= Z.lor 0x80 (Z.land x 0x3F) < 256.
Proof.
  intro Hx. pose proof (low_six_bits x Hx) as H6. split.
  - apply lor_ge_l; lia.
  - apply (lor_lt_pow2 0x80 (Z.land x 0x3F) 8); lia.
Qed.

Lemma lead_byte (m x : Z) :
  0xC0 <= m < 256 -> 0 <= x < 256 -> 0xC0 <= Z.lor m x < 256.
Proof.
  intros Hm Hx. split.
  - transitivity m; [lia | apply lor_ge_l; lia].
  - apply (lor_lt_pow2 m x 8); lia.
Qed.

Lemma shiftr_bound (u n k : Z) :
  0 <= n -> 0 <= u < k * 2 ^ n -> 0 <= Z.shiftr u n < k.
Proof.
  intros Hn [Hu0 Hu]. rewrite Z.shiftr_div_pow2 by assumption.
  assert (0 < 2 ^ n) by (apply Z.pow_pos_nonneg; lia).
  split; [apply Z.div_pos; lia | apply Z.div_lt_upper_bound; lia].
Qed.

(** ** The chunks of [TextEncoder.prototype.encode] *)

Ltac all_bytes :=
  repeat (apply Forall_cons; [cbv beta; lia|]); apply Forall_nil.

Opaque Z.lor Z.land Z.shiftr.

Lemma utf8_of_scalar_shape (u : Z) :
  0 <= u < 0x110000 ->
  Forall is_byte (utf8_of_scalar u) /\
  well_placed (utf8_of_scalar u) /\
  (1 <= Z.of_nat (List.length (utf8_of_scalar u)) <= 4) /\
  (u < 0x10000 -> Z.of_nat (List.length (utf8_of_scalar u)) <= 3).
Proof.
  intros [Hu0 Hu]. unfold utf8_of_scalar, is_byte.
  destruct (Z.ltb_spec u 0x80) as [H1|H1].
  - repeat split; simpl; try lia.
    + all_bytes.
    + unfold continuation. destruct (Z.leb_spec 0x80 u); [lia | reflexivity].
    + all_bytes.
  - assert (H6 := continuation_byte u Hu0).
    assert (H12 := continuation_byte (Z.shiftr u 6) ltac:(apply Z.shiftr_nonneg; lia)).
    assert (H18 := continuation_byte (Z.shiftr u 12) ltac:(apply Z.shiftr_nonneg; lia)).
    assert (Hcont : forall b, 0xC0 <= b -> continuation b = false).
    { intros b Hb. unfold continuation.
      destruct (Z.leb_spec b 0xBF); [lia | apply andb_false_r]. }
    destruct (Z.ltb_spec u 0x800) as [H2|H2]; [|destruct (Z.ltb_spec u 0x10000) as [H3|H3]].
    + pose proof (shiftr_bound u 6 32 ltac:(lia) ltac:(lia)) as Hs.
      pose proof (lead_byte 0xC0 (Z.shiftr u 6) ltac:(lia) ltac:(lia)) as Hl.
      repeat split; simpl; try lia.
      * all_bytes.
      * apply Hcont; lia.
      * all_bytes.
    + pose proof (shiftr_bound u 12 16 ltac:(lia) ltac:(lia)) as Hs.
      pose proof (lead_byte 0xE0 (Z.shiftr u 12) ltac:(lia) ltac:(lia)) as Hl.
      repeat split; simpl; try lia.
      * all_bytes.
      * apply Hcont; lia.
      * all_bytes.
    + pose proof (shiftr_bound u 18 5 ltac:(lia) ltac:(lia)) as Hs.
      pose proof (lead_byte 0xF0 (Z.shiftr u 18) ltac:(lia) ltac:(lia)) as Hl.
      repeat split; simpl; try lia.
      * all_bytes.
      * apply Hcont; lia.
      * all_bytes.
Qed.

Lemma utf8_of_scalar_supplementary (u : Z) :
  0x10000 <= u -> List.length (utf8_of_scalar u) = 4%nat.
Proof.
  intro Hu. unfold utf8_of_scalar.
  destruct (Z.ltb_spec u 0x80); [lia|].
  destruct (Z.ltb_spec u 0x800); [lia|].
  destruct (Z.ltb_spec u 0x10000); [lia | reflexivity].
Qed.

Transparent Z.lor Z.land Z.shiftr.

Lemma scalar_values_two (c d : Z) (rest : jsstring) :
  scalar_values (c :: d :: rest)
  = if is_high_surrogate c then
      if is_low_surrogate d
      then (0x10000 + (c - 0xD800) * 0x400 + (d - 0xDC00)) :: scalar_values rest
      else 0xFFFD :: scalar_values (d :: rest)
    else if is_low_surrogate c then 0xFFFD :: scalar_values (d :: rest)
    else c :: scalar_values (d :: rest).
Proof. reflexivity. Qed.

Lemma scalar_values_one (c : Z) :
  scalar_values [c]
  = [if is_high_surrogate c || is_low_surrogate c then 0xFFFD else c].
Proof.
  simpl. destruct (is_high_surrogate c); [reflexivity|].
  now destruct (is_low_surrogate c).
Qed.

Lemma two_step_ind (P : jsstring -> Prop) :
  P [] -> (forall c, P [c]) ->
  (forall c d rest, P (d :: rest) -> P rest -> P (c :: d :: rest)) ->
  forall s, P s.
Proof.
  intros H0 H1 H2 s.
  assert (H : P s /\ forall c, P (c :: s)).
  { induction s as [|d s [IH0 IH1]]; [auto|].
    split; [apply IH1 | intro c; apply H2; auto]. }
  apply H.
Qed.

(** The encoder reads one code unit and writes the bytes of a scalar value
    below 0x10000, or reads a surrogate pair and writes the bytes of a scalar
    value from 0x10000 on. *)
Lemma encode_ind (P : jsstring -> bytes -> Prop) :
  P [] [] ->
  (forall c rest bs u, 0 <= u < 0x10000 -> P rest bs ->
     P (c :: rest) (utf8_of_scalar u ++ bs)) ->
  (forall c d rest bs u, 0x10000 <= u < 0x110000 -> P rest bs ->
     P (c :: d :: rest) (utf8_of_scalar u ++ bs)) ->
  forall s, code_units s -> P s (TextEncoder_encode s).
Proof.
  intros H0 H1 H2 s. unfold code_units, TextEncoder_encode.
  induction s as [|c|c d rest IHd IHrest] using two_step_ind; intro Hs.
  - exact H0.
  - rewrite scalar_values_one. cbn [flat_map]. apply H1; [|exact H0].
    inversion Hs; subst.
    destruct (is_high_surrogate c || is_low_surrogate c); lia.
  - inversion Hs as [|? ? Hc Hs']; subst.
    inversion Hs' as [|? ? Hd Hs'']; subst.
    rewrite scalar_values_two.
    destruct (is_high_surrogate c) eqn:Eh.
    + destruct (is_low_surrogate d) eqn:El; cbn [flat_map].
      * apply H2; [|now apply IHrest].
        unfold is_high_surrogate, is_low_surrogate in *.
        apply andb_true_iff in Eh, El. destruct Eh as [E1 E2], El as [E3 E4].
        apply Z.leb_le in E1, E2, E3, E4. lia.
      * apply H1; [lia | now apply IHd].
    + destruct (is_low_surrogate c); cbn [flat_map];
        (apply H1; [lia | now apply IHd]).
Qed.

Lemma scalar_below_surrogates_shape (u : Z) :
  0 <= u < 0x10000 ->
  Forall is_byte (utf8_of_scalar u) /\ well_placed (utf8_of_scalar u) /\
  (1 <= List.length (utf8_of_scalar u) <= 3)%nat.
Proof.
  intro Hu. destruct (utf8_of_scalar_shape u ltac:(lia)) as [Hb [Hw [Hl H3]]].
  specialize (H3 ltac:(lia)). repeat split; auto; lia.
Qed.

(** * X16: the buffers handed to Web Crypto *)

(** X16.  The buffer [TextEncoder.encode] makes of a string (the key and
    signature bytes and the message of [GateHandler], the secret and the signed
    text of [SendToGate]) consists of bytes, has at least as many bytes as the
    string has code units and at most three times as many. *)
Theorem X16_encoded_buffers_are_bytes (s : jsstring) :
  code_units s ->
  Forall is_byte (TextEncoder_encode s) /\
  (List.length s <= List.length (TextEncoder_encode s) <= 3 * List.length s)%nat.
Proof.
  intro Hs.
  apply (encode_ind (fun s bs => Forall is_byte bs /\
                                 (List.length s <= List.length bs <= 3 * List.length s)%nat));
    [| | | exact Hs].
  - split; [constructor | simpl; lia].
  - intros c rest bs u Hu [Hb Hl].
    destruct (scalar_below_surrogates_shape u Hu) as [Hub [_ Hul]].
    split; [apply Forall_app; auto|]. rewrite length_app. simpl. lia.
  - intros c d rest bs u Hu [Hb Hl].
    destruct (utf8_of_scalar_shape u ltac:(lia)) as [Hub _].
    pose proof (utf8_of_scalar_supplementary u ltac:(lia)) as H4.
    split; [apply Forall_app; auto|]. rewrite length_app, H4. simpl. lia.
Qed.

Lemma X16_witness :
  Forall is_byte (TextEncoder_encode mixed_string) /\
  (List.length mixed_string <= List.length (TextEncoder_encode mixed_string)
   <= 3 * List.length mixed_string)%nat.
Proof.
  apply (X16_encoded_buffers_are_bytes mixed_string).
  unfold code_units, mixed_string. repeat (apply Forall_cons; [lia|]). apply Forall_nil.
Defined.

(** * X17: text bytes are never an RSA key *)

Lemma no_stray_after_high (h : Z) (t rest : bytes) :
  Forall (fun x => 0x80 <= x) (removelast (h :: t)) ->
  (forall p, no_stray_continuation p rest = true) ->
  no_stray_continuation h (t ++ rest) = true.
Proof.
  revert h. induction t as [|b t IH]; intros h Hhigh Hrest; [apply Hrest|].
  change (removelast (h :: b :: t)) with (h :: removelast (b :: t)) in Hhigh.
  inversion Hhigh as [|? ? Hh Ht]; subst.
  cbn [app no_stray_continuation].
  destruct (Z.ltb_spec h 0x80); [lia|]. simpl. now apply IH.
Qed.

Lemma well_placed_app (chunk rest : bytes) :
  well_placed chunk ->
  (forall p, no_stray_continuation p rest = true) ->
  forall p, no_stray_continuation p (chunk ++ rest) = true.
Proof.
  destruct chunk as [|h t]; [contradiction|]. intros [Hh Hhigh] Hrest p.
  cbn [app no_stray_continuation]. rewrite Hh, andb_false_r. simpl.
  now apply no_stray_after_high.
Qed.

Lemma encode_no_stray_continuation (s : jsstring) :
  code_units s -> forall p, no_stray_continuation p (TextEncoder_encode s) = true.
Proof.
  intro Hs.
  apply (encode_ind (fun _ bs => forall p, no_stray_continuation p bs = true));
    [| | | exact Hs].
  - reflexivity.
  - intros c rest bs u Hu IH.
    destruct (scalar_below_surrogates_shape u Hu) as [_ [Hw _]].
    now apply well_placed_app.
  - intros c d rest bs u Hu IH.
    destruct (utf8_of_scalar_shape u ltac:(lia)) as [_ [Hw _]].
    now apply well_placed_app.
Qed.

(** The identifier begins with 0x2A, a byte below 0x80, followed by 0x86, a
    continuation byte. *)
Lemma no_stray_no_rsaEncryption (bs : bytes) (p : Z) :
  no_stray_continuation p bs = true -> occurs rsaEncryption bs = false.
Proof.
  revert p. induction bs as [|x bs IH]; intros p H; [reflexivity|].
  cbn [no_stray_continuation] in H. apply andb_true_iff in H. destruct H as [_ H].
  cbn [occurs]. rewrite (IH x H), orb_false_r.
  unfold rsaEncryption. cbn [starts_with].
  destruct (Z.eqb_spec 0x2A x) as [<-|]; [|reflexivity].
  destruct bs as [|y bs']; [reflexivity|].
  cbn [starts_with]. destruct (Z.eqb_spec 0x86 y) as [<-|]; [|reflexivity].
  cbn [no_stray_continuation] in H. discriminate.
Qed.

(** X17.  [GateHandler] hands [importKey] the UTF-8 bytes of the [publicKey]
    string itself.  Such bytes never contain the object identifier of
    [rsaEncryption] (its 0x86 would be a continuation byte right after the
    one-byte character 0x2A).  So under a runtime whose [importKey] accepts
    as [spki] only buffers that carry this identifier, no key decodes: a
    request whose key passes the trust lookup ends with [DataError], and no
    request to [/gate] sends anything to the gate. *)
Theorem X17_text_bytes_never_import_as_rsa_key
    (w : World) (request : Request) (env : Env) (s : State)
    (p : DoorRequestPayload.t) :
  spki_is_rsa w ->
  pathname request = lit "/gate" ->
  payload_of request = Some p ->
  code_units (DoorRequestPayload.publicKey p) ->
  occurs rsaEncryption (TextEncoder_encode (DoorRequestPayload.publicKey p)) = false /\
  key_decodes w p = false /\
  dispatches (calls (fst (fetch w request env s))) = dispatches (calls s) /\
  (method request = lit "PATCH" -> trust_lookup s p <> None ->
   fetch w request env s
   = (log s [lookup_event p; import_event p], Thrown DataError)).
Proof.
  intros Hw Hpath Hp Hs.
  pose proof (no_stray_no_rsaEncryption _ 0
                (encode_no_stray_continuation _ Hs 0)) as Hocc.
  assert (Hk : key_decodes w p = false).
  { unfold key_decodes.
    destruct (decodes w spki rsa_algorithm _) eqn:E; [|reflexivity].
    apply Hw in E. congruence. }
  split; [exact Hocc|]. split; [exact Hk|]. split.
  - destruct (gate_run_shape w request env s Hpath) as [evs [-> Hev]].
    simpl. rewrite dispatches_app.
    destruct Hev as [-> | [p' [v [Hp' [_ [Hk' _]]]]]]; [apply app_nil_r|].
    rewrite Hp in Hp'. injection Hp' as <-. congruence.
  - intros Hm Ht.
    rewrite (fetch_gate_PATCH w request env Hpath Hm).
    rewrite (GateHandler_steps w request env s p Hp).
    lookup_succeeded Ht. now rewrite Hk.
Qed.

Lemma strict_world_spki_is_rsa : spki_is_rsa strict_world.
Proof. intros a data H. exact H. Qed.

Lemma X17_witness :
  fetch strict_world (Sample.door_request (lit "OPEN") Sample.key)
        (Sample.env "PRODUCTION")
        (start (Some (Sample.registry Sample.key 1)))
  = (log (start (Some (Sample.registry Sample.key 1)))
         [lookup_event (Sample.door_payload (lit "OPEN") Sample.key);
          import_event (Sample.door_payload (lit "OPEN") Sample.key)],
     Thrown DataError).
Proof.
  assert (Hs : code_units (DoorRequestPayload.publicKey
                             (Sample.door_payload (lit "OPEN") Sample.key))).
  { unfold code_units. vm_compute.
    repeat (apply Forall_cons; [split; [discriminate | reflexivity]|]).
    apply Forall_nil. }
  assert (Ht : trust_lookup (start (Some (Sample.registry Sample.key 1)))
                 (Sample.door_payload (lit "OPEN") Sample.key) <> None)
    by discriminate.
  exact (proj2 (proj2 (proj2 (X17_text_bytes_never_import_as_rsa_key
           strict_world (Sample.door_request (lit "OPEN") Sample.key)
           (Sample.env "PRODUCTION")
           (start (Some (Sample.registry Sample.key 1)))
           (Sample.door_payload (lit "OPEN") Sample.key)
           strict_world_spki_is_rsa eq_refl eq_refl Hs)))
         eq_refl Ht).
Defined.

(** * X18: base64 there and back *)

(** ** Arithmetic of the bit operations *)

Lemma land_shiftl_low (h l n : Z) :
  0 <= n -> 0 <= l < 2 ^ n -> Z.land (Z.shiftl h n) l = 0.
Proof.
  intros Hn [Hl0 Hl]. apply Z.bits_inj'. intros i Hi.
  rewrite Z.land_spec, Z.bits_0.
  destruct (Z.lt_ge_cases i n) as [Hlt|Hge].
  - now rewrite Z.shiftl_spec_low.
  - destruct (Z.eq_dec l 0) as [->|Hne]; [now rewrite Z.bits_0, andb_false_r|].
    rewrite (Z.bits_above_log2 l i), andb_false_r; [reflexivity | lia |].
    apply Z.lt_le_trans with n; [|exact Hge]. apply Z.log2_lt_pow2; lia.
Qed.

Lemma lor_shiftl_add (h l n : Z) :
  0 <= n -> 0 <= l < 2 ^ n -> Z.lor (Z.shiftl h n) l = h * 2 ^ n + l.
Proof.
  intros Hn Hl. pose proof (Z.add_lor_land (Z.shiftl h n) l) as H.
  rewrite (land_shiftl_low h l n Hn Hl) in H.
  pose proof (Z.shiftl_mul_pow2 h n Hn). lia.
Qed.

Lemma land_low_bits (a n : Z) : 0 <= n -> Z.land a (2 ^ n - 1) = a mod 2 ^ n.
Proof.
  intro Hn. rewrite <- Z.land_ones by exact Hn. f_equal.
  rewrite Z.ones_equiv. lia.
Qed.

(** The bit operations of [btoa] and [atob] on bytes and six-bit values, as
    arithmetic. *)
Ltac to_arithmetic :=
  repeat match goal with
         | |- context [Z.land ?a 3] => change (Z.land a 3) with (Z.land a (2 ^ 2 - 1))
         | |- context [Z.land ?a 15] => change (Z.land a 15) with (Z.land a (2 ^ 4 - 1))
         | |- context [Z.land ?a 63] => change (Z.land a 63) with (Z.land a (2 ^ 6 - 1))
         end;
  rewrite ?land_low_bits by lia;
  rewrite ?Z.shiftr_div_pow2 by lia.

Lemma sextet_of_byte (a b c : Z) :
  is_byte a -> is_byte b -> is_byte c ->
  sextet (Z.shiftr a 2) /\
  sextet (Z.shiftl (Z.land a 3) 4) /\
  sextet (Z.lor (Z.shiftl (Z.land a 3) 4) (Z.shiftr b 4)) /\
  sextet (Z.shiftl (Z.land b 15) 2) /\
  sextet (Z.lor (Z.shiftl (Z.land b 15) 2) (Z.shiftr c 6)) /\
  sextet (Z.land c 63).
Proof.
  unfold is_byte, sextet. intros Ha Hb Hc.
  assert (H1 : Z.shiftr b 4 = b / 2 ^ 4) by (apply Z.shiftr_div_pow2; lia).
  assert (H2 : Z.shiftr c 6 = c / 2 ^ 6) by (apply Z.shiftr_div_pow2; lia).
  assert (H3 : 0 <= b / 2 ^ 4 < 2 ^ 4) by (split; [apply Z.div_pos | apply Z.div_lt_upper_bound]; lia).
  assert (H4 : 0 <= c / 2 ^ 6 < 2 ^ 2) by (split; [apply Z.div_pos | apply Z.div_lt_upper_bound]; lia).
  rewrite H1, H2, !lor_shiftl_add by lia.
  rewrite !Z.shiftl_mul_pow2 by lia.
  to_arithmetic.
  pose proof (Z.mod_pos_bound a (2 ^ 2) ltac:(lia)).
  pose proof (Z.mod_pos_bound b (2 ^ 4) ltac:(lia)).
  pose proof (Z.mod_pos_bound c (2 ^ 6) ltac:(lia)).
  assert (0 <= a / 2 ^ 2 < 64) by (split; [apply Z.div_pos | apply Z.div_lt_upper_bound]; lia).
  change (2 ^ 2) with 4 in *. change (2 ^ 4) with 16 in *. change (2 ^ 6) with 64 in *.
  lia.
Qed.

Lemma sextets_range (bs : bytes) : Forall is_byte bs -> Forall sextet (sextets bs).
Proof.
  induction bs as [|a|a b|a b c rest IH] using three_step_ind; intro H.
  - constructor.
  - inversion H; subst.
    destruct (sextet_of_byte a a a) as [S1 [S2 _]]; auto.
    cbn [sextets]. repeat (apply Forall_cons; [assumption|]). apply Forall_nil.
  - inversion H as [|? ? Ha H']; subst. inversion H' as [|? ? Hb H'']; subst.
    destruct (sextet_of_byte a b b) as [S1 [_ [S3 [S4 _]]]]; auto.
    cbn [sextets]. repeat (apply Forall_cons; [assumption|]). apply Forall_nil.
  - inversion H as [|? ? Ha H']; subst. inversion H' as [|? ? Hb H'']; subst.
    inversion H'' as [|? ? Hc H''']; subst.
    destruct (sextet_of_byte a b c) as [S1 [_ [S3 [_ [S5 S6]]]]]; auto.
    cbn [sextets app]. repeat (apply Forall_cons; [assumption|]). now apply IH.
Qed.

Lemma regroup_bytes (a b c : Z) :
  is_byte a -> is_byte b -> is_byte c ->
  Z.lor (Z.shiftl (Z.shiftr a 2) 2)
        (Z.shiftr (Z.lor (Z.shiftl (Z.land a 3) 4) (Z.shiftr b 4)) 4) = a /\
  Z.lor (Z.shiftl (Z.shiftr a 2) 2) (Z.shiftr (Z.shiftl (Z.land a 3) 4) 4) = a /\
  Z.lor (Z.shiftl (Z.land (Z.lor (Z.shiftl (Z.land a 3) 4) (Z.shiftr b 4)) 15) 4)
        (Z.shiftr (Z.lor (Z.shiftl (Z.land b 15) 2) (Z.shiftr c 6)) 2) = b /\
  Z.lor (Z.shiftl (Z.land (Z.lor (Z.shiftl (Z.land a 3) 4) (Z.shiftr b 4)) 15) 4)
        (Z.shiftr (Z.shiftl (Z.land b 15) 2) 2) = b /\
  Z.lor (Z.shiftl (Z.land (Z.lor (Z.shiftl (Z.land b 15) 2) (Z.shiftr c 6)) 3) 6)
        (Z.land c 63) = c.
Proof.
  unfold is_byte. intros Ha Hb Hc.
  assert (H1 : Z.shiftr b 4 = b / 16) by (apply (Z.shiftr_div_pow2 b 4); lia).
  assert (H2 : Z.shiftr c 6 = c / 64) by (apply (Z.shiftr_div_pow2 c 6); lia).
  assert (H3 : 0 <= b / 16 < 2 ^ 4) by (split; [apply Z.div_pos | apply Z.div_lt_upper_bound]; lia).
  assert (H4 : 0 <= c / 64 < 2 ^ 2) by (split; [apply Z.div_pos | apply Z.div_lt_upper_bound]; lia).
  assert (H5 : Z.land a 3 = a mod 4) by (apply (land_low_bits a 2); lia).
  assert (H6 : Z.land b 15 = b mod 16) by (apply (land_low_bits b 4); lia).
  assert (H7 : Z.land c 63 = c mod 64) by (apply (land_low_bits c 6); lia).
  pose proof (Z.mod_pos_bound a 4 ltac:(lia)) as Ma.
  pose proof (Z.mod_pos_bound b 16 ltac:(lia)) as Mb.
  pose proof (Z.mod_pos_bound c 64 ltac:(lia)) as Mc.
  rewrite H1, H2, H5, H6, H7.
  rewrite (lor_shiftl_add (a mod 4) (b / 16) 4) by lia.
  rewrite (lor_shiftl_add (b mod 16) (c / 64) 2) by lia.
  rewrite (Z.shiftl_mul_pow2 (a mod 4) 4), (Z.shiftl_mul_pow2 (b mod 16) 2) by lia.
  change (2 ^ 4) with 16 in *. change (2 ^ 2) with 4 in *.
  assert (L1 : Z.land (a mod 4 * 16 + b / 16) 15 = (a mod 4 * 16 + b / 16) mod 16)
    by (apply (land_low_bits _ 4); lia).
  assert (L2 : Z.land (b mod 16 * 4 + c / 64) 3 = (b mod 16 * 4 + c / 64) mod 4)
    by (apply (land_low_bits _ 2); lia).
  rewrite L1, L2.
  rewrite !Z.shiftr_div_pow2 by lia.
  change (2 ^ 4) with 16. change (2 ^ 2) with 4.
  assert (E1 : (a mod 4 * 16 + b / 16) / 16 = a mod 4) by (Z.div_mod_to_equations; lia).
  assert (E2 : a mod 4 * 16 / 16 = a mod 4) by (Z.div_mod_to_equations; lia).
  assert (E3 : (a mod 4 * 16 + b / 16) mod 16 = b / 16) by (Z.div_mod_to_equations; lia).
  assert (E4 : (b mod 16 * 4 + c / 64) / 4 = b mod 16) by (Z.div_mod_to_equations; lia).
  assert (E5 : b mod 16 * 4 / 4 = b mod 16) by (Z.div_mod_to_equations; lia).
  assert (E6 : (b mod 16 * 4 + c / 64) mod 4 = c / 64) by (Z.div_mod_to_equations; lia).
  rewrite E1, E2, E3, E4, E5, E6.
  rewrite (lor_shiftl_add (a / 4) (a mod 4) 2) by lia.
  rewrite (lor_shiftl_add (b / 16) (b mod 16) 4) by lia.
  rewrite (lor_shiftl_add (c / 64) (c mod 64) 6) by lia.
  change (2 ^ 2) with 4. change (2 ^ 4) with 16. change (2 ^ 6) with 64.
  repeat split; Z.div_mod_to_equations; lia.
Qed.

Lemma bytes_of_sextets_sextets (bs : bytes) :
  Forall is_byte bs -> bytes_of_sextets (sextets bs) = bs.
Proof.
  induction bs as [|a|a b|a b c rest IH] using three_step_ind; intro H.
  - reflexivity.
  - inversion H; subst.
    destruct (regroup_bytes a a a) as [_ [E2 _]]; auto.
    cbn [sextets bytes_of_sextets]. now rewrite E2.
  - inversion H as [|? ? Ha H']; subst. inversion H' as [|? ? Hb H'']; subst.
    destruct (regroup_bytes a b b) as [E1 [_ [_ [E4 _]]]]; auto.
    cbn [sextets bytes_of_sextets]. now rewrite E1, E4.
  - inversion H as [|? ? Ha H']; subst. inversion H' as [|? ? Hb H'']; subst.
    inversion H'' as [|? ? Hc H''']; subst.
    destruct (regroup_bytes a b c) as [E1 [_ [E3 [_ E5]]]]; auto.
    cbn [sextets app bytes_of_sextets]. now rewrite E1, E3, E5, IH.
Qed.

(** ** The alphabet *)

Lemma sextet_cases (P : Z -> Prop) :
  (forall n, (n < 64)%nat -> P (Z.of_nat n)) -> forall v, sextet v -> P v.
Proof.
  intros H v [Hv0 Hv]. rewrite <- (Z2Nat.id v Hv0). apply H. lia.
Qed.

Lemma base64_char_value (v : Z) :
  sextet v ->
  base64_value (base64_char v) = Some v /\
  (base64_char v =? 61) = false /\
  ascii_whitespace (base64_char v) = false.
Proof.
  revert v. apply sextet_cases. intros n Hn.
  do 64 (destruct n as [|n]; [vm_compute; repeat split; reflexivity|]).
  lia.
Qed.

Lemma btoa_bytes_padding (bs : bytes) :
  btoa_bytes bs = map base64_char (sextets bs)
                  ++ match Nat.modulo (List.length bs) 3 with
                     | 1%nat => [61; 61]
                     | 2%nat => [61]
                     | _ => []
                     end.
Proof.
  induction bs as [|a|a b|a b c rest IH] using three_step_ind; try reflexivity.
  change (btoa_bytes (a :: b :: c :: rest))
    with ([base64_char (Z.shiftr a 2);
           base64_char (Z.lor (Z.shiftl (Z.land a 3) 4) (Z.shiftr b 4));
           base64_char (Z.lor (Z.shiftl (Z.land b 15) 2) (Z.shiftr c 6));
           base64_char (Z.land c 63)] ++ btoa_bytes rest).
  change (sextets (a :: b :: c :: rest))
    with ([Z.shiftr a 2;
           Z.lor (Z.shiftl (Z.land a 3) 4) (Z.shiftr b 4);
           Z.lor (Z.shiftl (Z.land b 15) 2) (Z.shiftr c 6);
           Z.land c 63] ++ sextets rest).
  rewrite IH, map_app, <- app_assoc.
  cbn [map]. do 2 f_equal.
  change (List.length (a :: b :: c :: rest)) with (3 + List.length rest)%nat.
  replace (3 + List.length rest)%nat with (List.length rest + 1 * 3)%nat by lia.
  now rewrite Nat.Div0.mod_add.
Qed.

Lemma sextets_length (bs : bytes) :
  Nat.modulo (List.length (sextets bs)) 4
  = match Nat.modulo (List.length bs) 3 with
    | 0%nat => 0%nat
    | 1%nat => 2%nat
    | _ => 3%nat
    end.
Proof.
  induction bs as [|a|a b|a b c rest IH] using three_step_ind; try reflexivity.
  change (List.length (sextets (a :: b :: c :: rest)))
    with (4 + List.length (sextets rest))%nat.
  change (List.length (a :: b :: c :: rest)) with (3 + List.length rest)%nat.
  replace (4 + List.length (sextets rest))%nat
    with (List.length (sextets rest) + 1 * 4)%nat by lia.
  replace (3 + List.length rest)%nat with (List.length rest + 1 * 3)%nat by lia.
  now rewrite !Nat.Div0.mod_add.
Qed.

Lemma base64_values_chars (vs : list Z) :
  Forall sextet vs -> base64_values (map base64_char vs) = Some vs.
Proof.
  induction 1 as [|v vs Hv Hvs IH]; [reflexivity|].
  cbn [map base64_values].
  destruct (base64_char_value v Hv) as [-> _]. now rewrite IH.
Qed.

Lemma filter_whitespace_chars (vs : list Z) (pad : jsstring) :
  Forall sextet vs -> Forall (fun c => c = 61) pad ->
  filter (fun c => negb (ascii_whitespace c)) (map base64_char vs ++ pad)
  = map base64_char vs ++ pad.
Proof.
  intros Hvs Hpad. apply forallb_filter_id. rewrite forallb_app.
  apply andb_true_iff. split; apply forallb_forall; intros c Hc.
  - apply in_map_iff in Hc. destruct Hc as [v [<- Hv]].
    rewrite Forall_forall in Hvs.
    destruct (base64_char_value v (Hvs v Hv)) as [_ [_ ->]]. reflexivity.
  - rewrite Forall_forall in Hpad. now rewrite (Hpad c Hc).
Qed.

Lemma last_char_not_padding (vs : list Z) (x : Z) (r : list Z) :
  Forall sextet vs -> rev (map base64_char vs) = x :: r -> (x =? 61) = false.
Proof.
  intros Hvs E.
  assert (Hin : In x (map base64_char vs)).
  { apply in_rev. rewrite E. now left. }
  apply in_map_iff in Hin. destruct Hin as [v [<- Hv]].
  rewrite Forall_forall in Hvs. now destruct (base64_char_value v (Hvs v Hv)) as [_ [-> _]].
Qed.

Lemma strip_padding_chars (bs : bytes) :
  Forall is_byte bs ->
  strip_padding (btoa_bytes bs) = map base64_char (sextets bs).
Proof.
  intro Hb. pose proof (sextets_range bs Hb) as Hvs.
  pose proof (sextets_length bs) as Hlen.
  rewrite btoa_bytes_padding. unfold strip_padding.
  rewrite length_app, length_map, rev_app_distr.
  set (M := map base64_char (sextets bs)) in *.
  destruct (Nat.modulo (List.length bs) 3) as [|[|[|n]]].
  - rewrite app_nil_r. cbn [List.length rev app]. rewrite Nat.add_0_r, Hlen.
    cbn [Nat.eqb]. destruct (rev M) as [|x [|y r]] eqn:E; [reflexivity| |];
      now rewrite (last_char_not_padding _ _ _ Hvs E).
  - cbn [List.length rev app].
    replace (Nat.modulo (List.length (sextets bs) + 2) 4) with 0%nat
      by (rewrite Nat.Div0.add_mod, Hlen; reflexivity).
    cbn [Nat.eqb]. change (61 =? 61) with true. cbv iota. apply rev_involutive.
  - cbn [List.length rev app].
    replace (Nat.modulo (List.length (sextets bs) + 1) 4) with 0%nat
      by (rewrite Nat.Div0.add_mod, Hlen; reflexivity).
    cbn [Nat.eqb]. rewrite <- (rev_involutive M) at 2.
    destruct (rev M) as [|y r] eqn:E; cbv iota.
    + reflexivity.
    + change (61 =? 61) with true. cbv iota.
      now rewrite (last_char_not_padding _ _ _ Hvs E).
  - rewrite app_nil_r. cbn [List.length rev app]. rewrite Nat.add_0_r, Hlen.
    cbn [Nat.eqb]. reflexivity.
Qed.

Lemma stringToArrayBuffer_bytes (bs : bytes) :
  Forall is_byte bs -> stringToArrayBuffer bs = bs.
Proof.
  induction 1 as [|b bs Hb Hbs IH]; [reflexivity|].
  cbn [stringToArrayBuffer]. rewrite IH. f_equal. now apply Z.mod_small.
Qed.

(** X18.  The second copy of the worker turns the base64 text of a request
    into bytes with [stringToArrayBuffer(atob(...))], and both copies write the
    MAC of the envelope with [btoa(String.fromCharCode(...))].  The two are
    inverse on byte sequences: decoding what [btoa] wrote gives the bytes back,
    so the [signature] of an envelope decodes to the MAC. *)
Theorem X18_base64_there_and_back (bs : bytes) :
  Forall is_byte bs ->
  atob (btoa_bytes bs) = Some bs /\
  option_map stringToArrayBuffer (atob (btoa_bytes bs)) = Some bs.
Proof.
  intro Hb. pose proof (sextets_range bs Hb) as Hvs.
  assert (Hatob : atob (btoa_bytes bs) = Some bs).
  { unfold atob.
    assert (Hf : filter (fun c => negb (ascii_whitespace c)) (btoa_bytes bs)
                 = btoa_bytes bs).
    { rewrite btoa_bytes_padding. apply filter_whitespace_chars; [exact Hvs|].
      destruct (Nat.modulo (List.length bs) 3) as [|[|[|n]]];
        repeat (apply Forall_cons; [reflexivity|]); apply Forall_nil. }
    rewrite Hf, (strip_padding_chars bs Hb), length_map, (sextets_length bs).
    rewrite (base64_values_chars _ Hvs). cbn [option_map].
    rewrite (bytes_of_sextets_sextets bs Hb).
    now destruct (Nat.modulo (List.length bs) 3) as [|[|[|n]]]. }
  split; [exact Hatob|].
  rewrite Hatob. cbn [option_map]. now rewrite (stringToArrayBuffer_bytes bs Hb).
Qed.

Lemma X18_witness :
  atob (btoa_bytes [0; 255; 16; 131; 77]) = Some [0; 255; 16; 131; 77] /\
  option_map stringToArrayBuffer (atob (btoa_bytes [0; 255; 16; 131; 77]))
  = Some [0; 255; 16; 131; 77].
Proof.
  apply (X18_base64_there_and_back [0; 255; 16; 131; 77]).
  repeat (apply Forall_cons; [unfold is_byte; lia|]). apply Forall_nil.
Defined.

(** * X19: any number of requests outside development *)

(** X19.  With [ENVIRONMENT] different from [DEVELOPMENT], no sequence of
    requests, however long and whatever the worlds answer, changes what the
    gate trusts: the table it leaves holds the rows it found, unchanged and in
    place, followed by rows with [trusted = 0]; the trust lookup of every key
    gives what it gave at the start; and a well-formed table is still well
    formed. *)
Theorem X19_no_sequence_of_production_requests_grants_trust
    (env : Env) (requests : list (World * Request)) (s : State) (t : D1.Table) :
  ENVIRONMENT env <> lit "DEVELOPMENT" ->
  PublicKeys s = Some t ->
  exists t' added,
    PublicKeys (serve env requests s) = Some t' /\
    D1.rows t' = D1.rows t ++ added /\
    Forall (fun r => D1.trusted r = 0) added /\
    (forall k, D1.findFirst (trusted_key k) t' = D1.findFirst (trusted_key k) t) /\
    (well_formed t -> well_formed t').
Proof.
  intro Henv. revert s t.
  induction requests as [|[w request] rest IH]; intros s t Ht.
  - exists t, []. cbn [serve]. rewrite app_nil_r.
    split; [exact Ht|]. split; [reflexivity|]. split; [apply Forall_nil|].
    split; [reflexivity | auto].
  - cbn [serve].
    destruct (fetch_production_step w request env s Henv) as [H | [t0 [Ht0 [Hnone H]]]].
    + apply IH. now rewrite H.
    + rewrite Ht in Ht0. injection Ht0 as <-.
      destruct (IH _ _ H) as [t' [added [Hdb [Hrows [Hzero [Hsame Hwf]]]]]].
      exists t', ({| D1.id := D1.last_id t + 1; D1.key := text request;
                     D1.trusted := 0 |} :: added).
      split; [exact Hdb|]. split; [|split; [|split]].
      * rewrite Hrows. unfold D1.insert. simpl. now rewrite <- app_assoc.
      * apply Forall_cons; [reflexivity | exact Hzero].
      * intro k. rewrite Hsame. apply lookup_after_insert.
      * intro Hw. apply Hwf. now apply insert_well_formed.
Qed.

Lemma X19_witness :
  exists t' added,
    PublicKeys
      (serve (Sample.env "PRODUCTION")
             [(Sample.world true true 200,
               Sample.text_request "/publicKey" "POST" Sample.other_key);
              (Sample.world true true 200,
               Sample.json_request "/publicKey" "PATCH"
                 (Sample.update_body Sample.other_key true));
              (Sample.world true true 200,
               Sample.door_request (lit "OPEN") Sample.other_key)]
             (start (Some (Sample.registry Sample.key 1))))
    = Some t' /\
    D1.rows t' = D1.rows (Sample.registry Sample.key 1) ++ added /\
    D1.findFirst (trusted_key Sample.other_key) t' = None.
Proof.
  destruct (X19_no_sequence_of_production_requests_grants_trust
              (Sample.env "PRODUCTION")
              [(Sample.world true true 200,
                Sample.text_request "/publicKey" "POST" Sample.other_key);
               (Sample.world true true 200,
                Sample.json_request "/publicKey" "PATCH"
                  (Sample.update_body Sample.other_key true));
               (Sample.world true true 200,
                Sample.door_request (lit "OPEN") Sample.other_key)]
              (start (Some (Sample.registry Sample.key 1)))
              (Sample.registry Sample.key 1))
    as [t' [added [Hdb [Hrows [_ [Hsame _]]]]]].
  - discriminate.
  - reflexivity.
  - exists t', added. split; [exact Hdb|]. split; [exact Hrows|].
    rewrite Hsame. reflexivity.
Defined.
